(** * aiovk long-poll client: session protocol and event decoding

    A shallow embedding of [aiovk/longpoll.py]: the long-poll session
    ([BaseLongPoll], [UserLongPoll], [BotsLongPoll]), the array decoder
    ([MessageEvent]), the webhook decoder ([BotMessageEvent]) and the
    attachment resolver ([normalized_attachments]), followed by the
    properties of the specification that are stated about them.

    Python objects are attribute stores ([gmap string pyval]); exceptions
    are the [Raise] outcome of [result]; remote calls are answered by an
    oracle that is indexed by the number of calls made so far. *)

From Stdlib Require Import ZArith Ascii String List Lia Bool.
From stdpp Require Import base option list strings gmap fin_maps pretty.

Local Open Scope string_scope.
Local Open Scope Z_scope.

(** ** Python values *)

(** The [IntEnum] classes of the module. *)
Inductive enum_class : Type :=
  | EVkEventType
  | EVkPlatform
  | EVkOfflineType
  | EVkMessageFlag
  | EVkPeerFlag
  | EVkChatEventType.

Global Instance enum_class_eq_dec : EqDecision enum_class.
Proof. solve_decision. Defined.

(** JSON-shaped data ([PNone] .. [PDict]) and the host objects the decoders
    create: members of an [IntEnum], sets, and [datetime] values (kept as
    the POSIX timestamp they were built from).  Floats are not modelled,
    and a string is a sequence of code points below 256. *)
#[warnings="-register-all"]
Inductive pyval : Type :=
  | PNone
  | PBool (b : bool)
  | PInt (z : Z)
  | PStr (s : string)
  | PList (l : list pyval)
  | PDict (d : list (string * pyval))
  | PEnum (c : enum_class) (z : Z)
  | PSet (l : list pyval)
  | PDatetime (z : Z).

(** A Python [dict] with string keys, in insertion order. *)
Abbreviation pydict := (list (string * pyval)).

(** ** Exceptions and outcomes *)

Inductive exn : Type :=
  | VkLongPollError (code : Z) (msg : string) (url : string) (params : pydict)
  | KeyError (k : string)
  | IndexError
  | TypeError
  | ValueError
  | AttributeError (a : string)
  | OverflowError
  | OSError
  | JSONDecodeError
  | RecursionError
  | RemoteError (tag : string).

Inductive result (A : Type) : Type :=
  | Ok (a : A)
  | Raise (e : exn).
Arguments Ok {A} a.
Arguments Raise {A} e.

(** Sequencing: an exception ends the computation. *)
Global Instance result_ret : MRet result := @Ok.
Global Instance result_bind : MBind result := λ A B k r,
  match r with
  | Ok a => k a
  | Raise e => Raise e
  end.
Global Instance result_fmap : FMap result := λ A B f r,
  match r with
  | Ok a => Ok (f a)
  | Raise e => Raise e
  end.

(** [try: body except ValueError: handler] *)
Definition except_ValueError {A} (body : result A) (handler : result A) : result A :=
  match body with
  | Raise ValueError => handler
  | r => r
  end.

(** [try: body except Exception: handler] *)
Definition except_Exception {A} (body : result A) (handler : exn → result A) : result A :=
  match body with
  | Raise e => handler e
  | r => r
  end.

(** ** Built-in operations *)

(** The integer a value is when Python treats it as one: [int], [bool]
    (a subclass of [int]) and [IntEnum] members. *)
Definition int_view (v : pyval) : option Z :=
  match v with
  | PInt z => Some z
  | PBool b => Some (if b then 1 else 0)
  | PEnum _ z => Some z
  | _ => None
  end.

(** Truth value testing. *)
Definition truthy (v : pyval) : bool :=
  match v with
  | PNone => false
  | PBool b => b
  | PInt z => negb (z =? 0)
  | PStr s => negb (String.eqb s "")
  | PList l => match l with [] => false | _ => true end
  | PDict d => match d with [] => false | _ => true end
  | PEnum _ z => negb (z =? 0)
  | PSet l => match l with [] => false | _ => true end
  | PDatetime _ => true
  end.

(** [a or b] *)
Definition py_or (a b : pyval) : pyval := if truthy a then a else b.

(** [v is None] *)
Definition is_none (v : pyval) : bool := match v with PNone => true | _ => false end.

(** [isinstance(v, dict)], [isinstance(v, list)] *)
Definition is_dict (v : pyval) : bool := match v with PDict _ => true | _ => false end.
Definition is_list (v : pyval) : bool := match v with PList _ => true | _ => false end.

(** [v == n] for an integer [n]. *)
Definition eq_int (v : pyval) (n : Z) : bool :=
  match int_view v with
  | Some z => z =? n
  | None => false
  end.

(** [v == s] for a string [s]. *)
Definition eq_str (v : pyval) (s : string) : bool :=
  match v with
  | PStr t => String.eqb t s
  | _ => false
  end.

(** [v in [n1, n2, ...]] for a list of integers (or [IntEnum] members). *)
Definition in_ints (v : pyval) (l : list Z) : bool :=
  match int_view v with
  | Some z => existsb (Z.eqb z) l
  | None => false
  end.

(** [v is Cls.MEMBER] *)
Definition is_member (v : pyval) (c : enum_class) (n : Z) : bool :=
  match v with
  | PEnum c' z => bool_decide (c' = c) && (z =? n)
  | _ => false
  end.

(** Ordering against an integer raises [TypeError] on non-numbers. *)
Definition py_lt (v : pyval) (n : Z) : result bool :=
  match int_view v with Some z => Ok (z <? n) | None => Raise TypeError end.
Definition py_gt (v : pyval) (n : Z) : result bool :=
  match int_view v with Some z => Ok (z >? n) | None => Raise TypeError end.
Definition py_ge (v : pyval) (n : Z) : result bool :=
  match int_view v with Some z => Ok (z >=? n) | None => Raise TypeError end.

Definition py_abs (v : pyval) : result pyval :=
  match int_view v with Some z => Ok (PInt (Z.abs z)) | None => Raise TypeError end.
Definition py_sub (v : pyval) (n : Z) : result pyval :=
  match int_view v with Some z => Ok (PInt (z - n)) | None => Raise TypeError end.
Definition py_and (v : pyval) (n : Z) : result Z :=
  match int_view v with Some z => Ok (Z.land z n) | None => Raise TypeError end.

(** Dictionaries. *)
Fixpoint dict_get (k : string) (d : pydict) : option pyval :=
  match d with
  | [] => None
  | (k', v) :: d' => if String.eqb k' k then Some v else dict_get k d'
  end.

Definition dict_has (k : string) (d : pydict) : bool :=
  match dict_get k d with Some _ => true | None => false end.

(** [d[k] = v]: an existing key keeps its position. *)
Fixpoint dict_set (k : string) (v : pyval) (d : pydict) : pydict :=
  match d with
  | [] => [(k, v)]
  | (k', v') :: d' =>
      if String.eqb k' k then (k, v) :: d' else (k', v') :: dict_set k v d'
  end.

(** [d.update(other)] *)
Definition dict_update (d other : pydict) : pydict :=
  fold_left (λ acc kv, dict_set kv.1 kv.2 acc) other d.

(** [v.get(k)]; a value without [get] raises [AttributeError]. *)
Definition py_get (v : pyval) (k : string) : result pyval :=
  match v with
  | PDict d => Ok (default PNone (dict_get k d))
  | _ => Raise (AttributeError "get")
  end.

(** [v.get(k, dflt)] *)
Definition py_get_default (v : pyval) (k : string) (dflt : pyval) : result pyval :=
  match v with
  | PDict d => Ok (default dflt (dict_get k d))
  | _ => Raise (AttributeError "get")
  end.

(** [v[k]] for a string key. *)
Definition py_getitem (v : pyval) (k : string) : result pyval :=
  match v with
  | PDict d => match dict_get k d with Some x => Ok x | None => Raise (KeyError k) end
  | _ => Raise TypeError
  end.

(** ** Strings *)

(** [old in s] for strings: [old] starts at the head of [s]. *)
Fixpoint starts_with (old s : string) : bool :=
  match old, s with
  | EmptyString, _ => true
  | String a old', String b s' => Ascii.eqb a b && starts_with old' s'
  | String _ _, EmptyString => false
  end.

(** [sub in s] *)
Fixpoint is_substring (sub s : string) : bool :=
  starts_with sub s ||
  match s with
  | EmptyString => false
  | String _ s' => is_substring sub s'
  end.

(** [s.replace(old, new)] for a non-empty [old]: occurrences are replaced
    left to right and do not overlap; [skip] counts the characters of a
    match that are still to be dropped. *)
Fixpoint replace_go (old new : string) (skip : nat) (s : string) : string :=
  match s with
  | EmptyString => EmptyString
  | String c s' =>
      match skip with
      | S k => replace_go old new k s'
      | O =>
          if starts_with old s
          then new +:+ replace_go old new (String.length old - 1) s'
          else String c (replace_go old new O s')
      end
  end.

Definition str_replace (old new s : string) : string := replace_go old new O s.

(** [s.split(sep, 1)] for a one-character separator: the parts before and
    after the first separator, or [None] when there is none (the list then
    has one element and unpacking it into two names raises). *)
Fixpoint split_once (sep : ascii) (s : string) : option (string * string) :=
  match s with
  | EmptyString => None
  | String c s' =>
      if Ascii.eqb c sep then Some (EmptyString, s')
      else match split_once sep s' with
           | Some (a, b) => Some (String c a, b)
           | None => None
           end
  end.

(** [int(s)] on a string: surrounding white space, an optional sign, and
    decimal digits that single underscores may separate.  The white space
    [int] skips is tab to carriage return, the space, and the two spaces
    above 127 (next line and no-break space); the separators 28 to 31,
    which [str.strip] removes, are not among them.  Below 256 the only
    decimal digits are [0] to [9].  More than 4300 digits are refused. *)
Definition is_space (c : ascii) : bool :=
  let n := nat_of_ascii c in
  ((9 <=? n) && (n <=? 13) || (n =? 32) || (n =? 133) || (n =? 160))%nat.

Definition digit_of (c : ascii) : option Z :=
  let n := nat_of_ascii c in
  if ((48 <=? n) && (n <=? 57))%nat then Some (Z.of_nat (n - 48)) else None.

Fixpoint lstrip (s : string) : string :=
  match s with
  | String c s' => if is_space c then lstrip s' else s
  | EmptyString => EmptyString
  end.

Definition strip (s : string) : string :=
  String.rev (lstrip (String.rev (lstrip s))).

Fixpoint parse_digits (s : string) (acc : Z) (after_digit : bool) : option Z :=
  match s with
  | EmptyString => if after_digit then Some acc else None
  | String c s' =>
      match digit_of c with
      | Some d => parse_digits s' (10 * acc + d) true
      | None =>
          if Ascii.eqb c "_"%char && after_digit then parse_digits s' acc false
          else None
      end
  end.

Definition max_str_digits : nat := 4300.

Definition count_digits (s : string) : nat :=
  length (filter (λ c, is_Some (digit_of c)) (list_ascii_of_string s)).

Definition parse_int (s : string) : option Z :=
  if (max_str_digits <? count_digits s)%nat then None
  else
    match strip s with
    | String "-"%char s' => Z.opp <$> parse_digits s' 0 false
    | String "+"%char s' => parse_digits s' 0 false
    | s' => parse_digits s' 0 false
    end.

(** [int(v)] *)
Definition py_int (v : pyval) : result Z :=
  match v with
  | PInt z => Ok z
  | PBool b => Ok (if b then 1 else 0)
  | PEnum _ z => Ok z
  | PStr s => match parse_int s with Some z => Ok z | None => Raise ValueError end
  | _ => Raise TypeError
  end.

Definition newline : string := String "010"%char EmptyString.

(** [repr(s)] of a string: single quotes unless the string has a single
    quote and no double quote; the quote, the backslash, the common
    control characters and every character that is not printable are
    escaped, the latter as [\xNN]. *)
Definition squote : ascii := "'"%char.
Definition dquote : ascii := "034"%char.

(** Below 256 the characters that are not printable are the control
    characters (0 to 31 and 127 to 159), the no-break space and the soft
    hyphen. *)
Definition printable (c : ascii) : bool :=
  let n := nat_of_ascii c in
  ((32 <=? n) && (n <? 127) || (161 <=? n) && negb (n =? 173))%nat.

Definition hex_digit (n : nat) : ascii :=
  ascii_of_nat (if (n <? 10)%nat then 48 + n else 87 + n).

Definition hex_escape (c : ascii) : string :=
  let n := nat_of_ascii c in
  String "\" (String "x" (String (hex_digit (n / 16)) (String (hex_digit (n mod 16))
    EmptyString))).

Definition has_char (c : ascii) (s : string) : bool :=
  existsb (Ascii.eqb c) (list_ascii_of_string s).

Fixpoint escape (q : ascii) (s : string) : string :=
  match s with
  | EmptyString => EmptyString
  | String c s' =>
      (if Ascii.eqb c q then String "\" (String c EmptyString)
       else if Ascii.eqb c "\" then "\\"
       else if Ascii.eqb c "010" then "\n"
       else if Ascii.eqb c "013" then "\r"
       else if Ascii.eqb c "009" then "\t"
       else if negb (printable c) then hex_escape c
       else String c EmptyString) +:+ escape q s'
  end.

Definition repr_str (s : string) : string :=
  let q := if has_char squote s && negb (has_char dquote s) then dquote else squote in
  String q (escape q s) +:+ String q EmptyString.

(** [for x in v]: the elements of a list or set, the keys of a dictionary,
    the characters of a string. *)
Definition py_iter (v : pyval) : result (list pyval) :=
  match v with
  | PList l | PSet l => Ok l
  | PDict d => Ok (map (λ kv, PStr kv.1) d)
  | PStr s => Ok (map (λ c, PStr (String c EmptyString)) (list_ascii_of_string s))
  | _ => Raise TypeError
  end.

(** [v[0]] *)
Definition py_first (v : pyval) : result pyval :=
  match v with
  | PList (x :: _) => Ok x
  | PList [] => Raise IndexError
  | PStr (String c _) => Ok (PStr (String c EmptyString))
  | PStr EmptyString => Raise IndexError
  | PDict _ => Raise (KeyError "0")
  | _ => Raise TypeError
  end.

(** [k in v] for a string [k]. *)
Definition contains_key (v : pyval) (k : string) : result bool :=
  match v with
  | PDict d => Ok (dict_has k d)
  | PStr s => Ok (is_substring k s)
  | PList l | PSet l => Ok (existsb (λ x, eq_str x k) l)
  | _ => Raise TypeError
  end.

(** [repr(v)] and [str(v)] (what an f-string or [format] inserts).  The
    decoders only format JSON-shaped values; an enumeration member is
    shown as its number and a [datetime] as its timestamp. *)
Definition join (sep : string) (l : list string) : string :=
  match l with
  | [] => EmptyString
  | x :: l' => fold_left (λ acc y, acc +:+ sep +:+ y) l' x
  end.

Fixpoint py_repr (v : pyval) : string :=
  match v with
  | PNone => "None"
  | PBool b => if b then "True" else "False"
  | PInt z => pretty z
  | PStr s => repr_str s
  | PList l => "[" +:+ join ", " (map py_repr l) +:+ "]"
  | PDict d =>
      "{" +:+ join ", " (map (λ kv, repr_str kv.1 +:+ ": " +:+ py_repr kv.2) d) +:+ "}"
  | PEnum _ z => pretty z
  | PSet l =>
      match l with
      | [] => "set()"
      | _ => "{" +:+ join ", " (map py_repr l) +:+ "}"
      end
  | PDatetime z => "datetime(" +:+ pretty z +:+ ")"
  end.

Definition py_str (v : pyval) : string :=
  match v with
  | PStr s => s
  | _ => py_repr v
  end.

(** ** Enumerations and dispatch tables *)

Definition CHAT_START_ID : Z := 2000000000.

Module VkEventType.
Definition MESSAGE_FLAGS_REPLACE : Z := 1.
Definition MESSAGE_FLAGS_SET : Z := 2.
Definition MESSAGE_FLAGS_RESET : Z := 3.
Definition MESSAGE_NEW : Z := 4.
Definition MESSAGE_EDIT : Z := 5.
Definition READ_ALL_INCOMING_MESSAGES : Z := 6.
Definition READ_ALL_OUTGOING_MESSAGES : Z := 7.
Definition USER_ONLINE : Z := 8.
Definition USER_OFFLINE : Z := 9.
Definition PEER_FLAGS_RESET : Z := 10.
Definition PEER_FLAGS_REPLACE : Z := 11.
Definition PEER_FLAGS_SET : Z := 12.
Definition PEER_DELETE_ALL : Z := 13.
Definition PEER_RESTORE_ALL : Z := 14.
Definition CHAT_EDIT : Z := 51.
Definition CHAT_UPDATE : Z := 52.
Definition USER_TYPING : Z := 61.
Definition USER_TYPING_IN_CHAT : Z := 62.
Definition USER_RECORDING_VOICE : Z := 64.
Definition USER_CALL : Z := 70.
Definition MESSAGES_COUNTER_UPDATE : Z := 80.
Definition NOTIFICATION_SETTINGS_UPDATE : Z := 114.

Definition members : list Z :=
  [ MESSAGE_FLAGS_REPLACE; MESSAGE_FLAGS_SET; MESSAGE_FLAGS_RESET; MESSAGE_NEW;
    MESSAGE_EDIT; READ_ALL_INCOMING_MESSAGES; READ_ALL_OUTGOING_MESSAGES;
    USER_ONLINE; USER_OFFLINE; PEER_FLAGS_RESET; PEER_FLAGS_REPLACE;
    PEER_FLAGS_SET; PEER_DELETE_ALL; PEER_RESTORE_ALL; CHAT_EDIT; CHAT_UPDATE;
    USER_TYPING; USER_TYPING_IN_CHAT; USER_RECORDING_VOICE; USER_CALL;
    MESSAGES_COUNTER_UPDATE; NOTIFICATION_SETTINGS_UPDATE ].
End VkEventType.

Module VkPlatform.
Definition members : list Z := [1; 2; 3; 4; 5; 6; 7].
End VkPlatform.

Module VkOfflineType.
Definition members : list Z := [0; 1].
End VkOfflineType.

Module VkMessageFlag.
Inductive t : Type :=
  | UNREAD | OUTBOX | REPLIED | IMPORTANT | CHAT | FRIENDS
  | SPAM | DELETED | FIXED | MEDIA | HIDDEN | DELETED_ALL.

Global Instance eq_dec : EqDecision t.
Proof. solve_decision. Defined.

(** The position of the member's bit. *)
Definition bit (x : t) : Z :=
  match x with
  | UNREAD => 0 | OUTBOX => 1 | REPLIED => 2 | IMPORTANT => 3
  | CHAT => 4 | FRIENDS => 5 | SPAM => 6 | DELETED => 7
  | FIXED => 8 | MEDIA => 9 | HIDDEN => 16 | DELETED_ALL => 17
  end.

Definition value (x : t) : Z :=
  match x with
  | UNREAD => 1 | OUTBOX => 2 | REPLIED => 2 ^ 2 | IMPORTANT => 2 ^ 3
  | CHAT => 2 ^ 4 | FRIENDS => 2 ^ 5 | SPAM => 2 ^ 6 | DELETED => 2 ^ 7
  | FIXED => 2 ^ 8 | MEDIA => 2 ^ 9 | HIDDEN => 2 ^ 16 | DELETED_ALL => 2 ^ 17
  end.

(** Iteration order of the class: definition order. *)
Definition members : list t :=
  [ UNREAD; OUTBOX; REPLIED; IMPORTANT; CHAT; FRIENDS;
    SPAM; DELETED; FIXED; MEDIA; HIDDEN; DELETED_ALL ].

Definition member (x : t) : pyval := PEnum EVkMessageFlag (value x).
End VkMessageFlag.

Module VkPeerFlag.
Inductive t : Type := IMPORTANT | UNANSWERED.
Definition value (x : t) : Z := match x with IMPORTANT => 1 | UNANSWERED => 2 end.
Definition members : list t := [IMPORTANT; UNANSWERED].
Definition member (x : t) : pyval := PEnum EVkPeerFlag (value x).
End VkPeerFlag.

Module VkChatEventType.
Definition TITLE : Z := 1.
Definition PHOTO : Z := 2.
Definition ADMIN_ADDED : Z := 3.
Definition SETTINGS_CHANGED : Z := 4.
Definition MESSAGE_PINNED : Z := 5.
Definition USER_JOINED : Z := 6.
Definition USER_LEFT : Z := 7.
Definition USER_KICKED : Z := 8.
Definition ADMIN_REMOVED : Z := 9.
Definition KEYBOARD_RECEIVED : Z := 11.
Definition members : list Z :=
  [ TITLE; PHOTO; ADMIN_ADDED; SETTINGS_CHANGED; MESSAGE_PINNED; USER_JOINED;
    USER_LEFT; USER_KICKED; ADMIN_REMOVED; KEYBOARD_RECEIVED ].
End VkChatEventType.

(** [Cls(v)]: the member whose value equals [v], else [ValueError]. *)
Definition enum_call (c : enum_class) (members : list Z) (v : pyval) : result pyval :=
  match int_view v with
  | Some z => if existsb (Z.eqb z) members then Ok (PEnum c z) else Raise ValueError
  | None => Raise ValueError
  end.

Definition MESSAGE_EXTRA_FIELDS : list string :=
  ["peer_id"; "timestamp"; "text"; "extra_values"; "attachments"; "random_id"].
Definition MSGID : string := "message_id".

Definition EVENT_ATTRS_MAPPING : list (Z * list string) :=
  [ (VkEventType.MESSAGE_FLAGS_REPLACE, ([MSGID; "flags"] ++ MESSAGE_EXTRA_FIELDS)%list);
    (VkEventType.MESSAGE_FLAGS_SET, ([MSGID; "mask"] ++ MESSAGE_EXTRA_FIELDS)%list);
    (VkEventType.MESSAGE_FLAGS_RESET, ([MSGID; "mask"] ++ MESSAGE_EXTRA_FIELDS)%list);
    (VkEventType.MESSAGE_NEW, ([MSGID; "flags"] ++ MESSAGE_EXTRA_FIELDS)%list);
    (VkEventType.MESSAGE_EDIT, ([MSGID; "mask"] ++ MESSAGE_EXTRA_FIELDS)%list);
    (VkEventType.READ_ALL_INCOMING_MESSAGES, ["peer_id"; "local_id"]);
    (VkEventType.READ_ALL_OUTGOING_MESSAGES, ["peer_id"; "local_id"]);
    (VkEventType.USER_ONLINE, ["user_id"; "extra"; "timestamp"]);
    (VkEventType.USER_OFFLINE, ["user_id"; "flags"; "timestamp"]);
    (VkEventType.PEER_FLAGS_RESET, ["peer_id"; "mask"]);
    (VkEventType.PEER_FLAGS_REPLACE, ["peer_id"; "flags"]);
    (VkEventType.PEER_FLAGS_SET, ["peer_id"; "mask"]);
    (VkEventType.PEER_DELETE_ALL, ["peer_id"; "local_id"]);
    (VkEventType.PEER_RESTORE_ALL, ["peer_id"; "local_id"]);
    (VkEventType.CHAT_EDIT, ["chat_id"; "self"]);
    (VkEventType.CHAT_UPDATE, ["type_id"; "peer_id"; "info"]);
    (VkEventType.USER_TYPING, ["user_id"; "flags"]);
    (VkEventType.USER_TYPING_IN_CHAT, ["user_id"; "chat_id"]);
    (VkEventType.USER_RECORDING_VOICE, ["peer_id"; "user_id"; "flags"; "timestamp"]);
    (VkEventType.USER_CALL, ["user_id"; "call_id"]);
    (VkEventType.MESSAGES_COUNTER_UPDATE, ["count"]);
    (VkEventType.NOTIFICATION_SETTINGS_UPDATE, ["values"]) ].

Definition attrs_of (code : Z) : option (list string) :=
  snd <$> find (λ kv, Z.eqb kv.1 code) EVENT_ATTRS_MAPPING.

(** [[k for k, v in EVENT_ATTRS_MAPPING.items() if 'peer_id' in v]] *)
Definition PARSE_PEER_ID_EVENTS : list Z :=
  map fst (filter (λ kv, "peer_id" ∈ kv.2) EVENT_ATTRS_MAPPING).

Definition PARSE_MESSAGE_FLAGS_EVENTS : list Z :=
  [VkEventType.MESSAGE_FLAGS_REPLACE; VkEventType.MESSAGE_NEW].
Example PARSE_PEER_ID_EVENTS_value :
  PARSE_PEER_ID_EVENTS = [1; 2; 3; 4; 5; 6; 7; 10; 11; 12; 13; 14; 52; 64].
Proof. vm_compute. reflexivity. Qed.

(** ** Objects *)

(** An instance is its attribute dictionary. *)
Abbreviation obj := (gmap string pyval).

Definition getattr (self : obj) (a : string) : result pyval :=
  match self !! a with
  | Some v => Ok v
  | None => Raise (AttributeError a)
  end.

Definition setattr (a : string) (v : pyval) (self : obj) : obj := <[a := v]> self.

(** A run of assignments [self.a = v], in order. *)
Definition set_all (l : pydict) (self : obj) : obj :=
  fold_left (λ o kv, setattr kv.1 kv.2 o) l self.

(** [self.m(...)]: the instance is looked at before the class, so an
    attribute of the instance that has the name of the method is what gets
    called, and no value an attribute can hold here is callable. *)
Definition call {A} (self : obj) (m : string) (body : result A) : result A :=
  match self !! m with
  | Some _ => Raise TypeError
  | None => body
  end.

(** The assignment behind [self.__setattr__(k, v)] for a computed name.
    Three names belong to descriptors of the class, which take the
    assignment themselves: [__class__] accepts classes only, [__dict__]
    accepts a dictionary, whose entries then are the attributes of the
    instance, and [__weakref__] cannot be written.  Every other name,
    those of the methods included, is stored in the instance. *)
Definition py_setattr (k : string) (v : pyval) (self : obj) : result obj :=
  if String.eqb k "__class__" then Raise TypeError
  else if String.eqb k "__dict__" then
    match v with
    | PDict d => Ok (set_all d ∅)
    | _ => Raise TypeError
    end
  else if String.eqb k "__weakref__" then Raise (AttributeError "__weakref__")
  else Ok (setattr k v self).

(** [datetime.utcfromtimestamp(v)]: defined for the years 1 to 9999.  On a
    platform with a 64-bit [time_t] (Linux), a timestamp outside [time_t]
    raises [OverflowError], one whose year the C library cannot hold
    raises [OSError], and any other year out of range [ValueError]. *)
Definition utcfromtimestamp (v : pyval) : result pyval :=
  match int_view v with
  | Some z =>
      if (-62135596800 <=? z) && (z <=? 253402300799) then Ok (PDatetime z)
      else if (z <? - 2 ^ 63) || (2 ^ 63 <=? z) then Raise OverflowError
      else if (z <? -67768040609740800) || (67768036191676799 <? z) then Raise OSError
      else Raise ValueError
  | None => Raise TypeError
  end.

(** ** The array decoder: [MessageEvent] *)

Module MessageEvent.

(** The attributes [__init__] assigns before it looks at [raw]. *)
Definition defaults : pydict :=
  [ ("from_user", PBool false); ("from_chat", PBool false);
    ("from_group", PBool false); ("from_me", PBool false);
    ("to_me", PBool false);
    ("attachments", PDict []); ("attachments_ids", PList []);
    ("pad_id", PNone); ("keyboard", PStr ""); ("message_data", PNone);
    ("message_id", PNone); ("timestamp", PNone); ("peer_id", PNone);
    ("flags", PNone); ("extra", PNone); ("extra_values", PNone);
    ("type_id", PNone); ("group_id", PNone); ("fwd_messages", PList []);
    ("text", PNone);
    ("state", PStr "") ].

Definition fresh (raw : pyval) : obj := set_all (("raw", raw) :: defaults) ∅.

(** The names come from [EVENT_ATTRS_MAPPING], none of which is special,
    and the constructor calls this on the new object. *)
Definition _list_to_attr (raw : list pyval) (attrs : list string) (self : obj) : obj :=
  set_all (zip attrs raw) self.

(** The loop of [_dict_to_attr]: the names come from the server, and
    [self.__setattr__] is looked up anew in every round. *)
Fixpoint assign_items (items : pydict) (self : obj) : result obj :=
  match items with
  | [] => Ok self
  | (k, v) :: items' =>
      self ← call self "__setattr__" (py_setattr k v self);
      assign_items items' self
  end.

Definition _dict_to_attr (values : pyval) (self : obj) : result obj :=
  match values with
  | PDict d => assign_items d self
  | _ => Raise (AttributeError "items")
  end.

Definition _parse_peer_id (self : obj) : result obj :=
  peer_id ← getattr self "peer_id";
  neg ← py_lt peer_id 0;
  if neg : bool then
    group_id ← py_abs peer_id;
    Ok (setattr "group_id" group_id (setattr "from_group" (PBool true) self))
  else
    big ← py_gt peer_id CHAT_START_ID;
    if big : bool then
      chat_id ← py_sub peer_id CHAT_START_ID;
      let self := setattr "chat_id" chat_id (setattr "from_chat" (PBool true) self) in
      extra_values ← getattr self "extra_values";
      has_from ← (if truthy extra_values then contains_key extra_values "from"
                  else Ok false);
      if has_from : bool then
        from ← py_getitem extra_values "from";
        user_id ← py_int from;
        Ok (setattr "user_id" (PInt user_id) self)
      else Ok self
    else
      Ok (setattr "user_id" peer_id (setattr "from_user" (PBool true) self)).

(** [set(x for x in VkMessageFlag if flags & x)] *)
Definition message_flags_of (flags : Z) : list VkMessageFlag.t :=
  filter (λ x, Z.land flags (VkMessageFlag.value x) ≠ 0) VkMessageFlag.members.

Definition _parse_message_flags (self : obj) : result obj :=
  flags ← getattr self "flags";
  match int_view flags with
  | Some f =>
      Ok (setattr "message_flags"
            (PSet (map VkMessageFlag.member (message_flags_of f))) self)
  | None => Raise TypeError
  end.

Definition peer_flags_of (flags : Z) : list VkPeerFlag.t :=
  filter (λ x, Z.land flags (VkPeerFlag.value x) ≠ 0) VkPeerFlag.members.

Definition _parse_peer_flags (self : obj) : result obj :=
  flags ← getattr self "flags";
  match int_view flags with
  | Some f =>
      Ok (setattr "peer_flags" (PSet (map VkPeerFlag.member (peer_flags_of f))) self)
  | None => Raise TypeError
  end.

(** [s.replace(old, new)] on an attribute value. *)
Definition py_replace (v : pyval) (old new : string) : result string :=
  match v with
  | PStr s => Ok (str_replace old new s)
  | _ => Raise (AttributeError "replace")
  end.

Definition unescape (text : string) : string :=
  str_replace "&amp;" "&"
    (str_replace "&quot;" (String dquote EmptyString)
       (str_replace "&gt;" ">"
          (str_replace "&lt;" "<" text))).

Definition _parse_message (self : obj) : result obj :=
  type ← getattr self "type";
  self ← (if is_member type EVkEventType VkEventType.MESSAGE_NEW then
            flags ← getattr self "flags";
            outbox ← py_and flags (VkMessageFlag.value VkMessageFlag.OUTBOX);
            if negb (outbox =? 0) then Ok (setattr "from_me" (PBool true) self)
            else Ok (setattr "to_me" (PBool true) self)
          else Ok self);
  text ← getattr self "text";
  text ← py_replace text "<br>" newline;
  let self := setattr "text" (PStr text) self in
  Ok (setattr "message" (PStr (unescape text)) self).

Definition _parse_online_status (self : obj) : result obj :=
  except_ValueError
    (type ← getattr self "type";
     if is_member type EVkEventType VkEventType.USER_ONLINE then
       extra ← getattr self "extra";
       low ← py_and extra 255;
       platform ← enum_call EVkPlatform VkPlatform.members (PInt low);
       Ok (setattr "platform" platform self)
     else if is_member type EVkEventType VkEventType.USER_OFFLINE then
       flags ← getattr self "flags";
       offline_type ← enum_call EVkOfflineType VkOfflineType.members flags;
       Ok (setattr "offline_type" offline_type self)
     else Ok self)
    (Ok self).

Definition wrap_info (k : string) (self : obj) : result obj :=
  info ← getattr self "info";
  Ok (setattr "info" (PDict [(k, info)]) self).

Definition _parse_chat_info (self : obj) : result obj :=
  type_id ← getattr self "type_id";
  if eq_int type_id VkChatEventType.ADMIN_ADDED then wrap_info "admin_id" self
  else if eq_int type_id VkChatEventType.MESSAGE_PINNED then
    wrap_info "conversation_message_id" self
  else if in_ints type_id [ VkChatEventType.USER_JOINED; VkChatEventType.USER_LEFT;
                            VkChatEventType.USER_KICKED; VkChatEventType.ADMIN_REMOVED ]
  then wrap_info "user_id" self
  else Ok self.

(** [__init__] *)
Definition init (raw : list pyval) : result obj :=
  let self := fresh (PList raw) in
  self ← except_ValueError
    (raw0 ← (match raw with x :: _ => Ok x | [] => Raise IndexError end);
     type ← enum_call EVkEventType VkEventType.members raw0;
     let self := setattr "type" type self in
     attrs ← (match int_view type ≫= attrs_of with
              | Some attrs => Ok attrs
              | None => Raise (KeyError "type")
              end);
     call self "_list_to_attr" (Ok (_list_to_attr (tail raw) attrs self)))
    (raw0 ← (match raw with x :: _ => Ok x | [] => Raise IndexError end);
     Ok (setattr "type" raw0 self));

  extra_values ← getattr self "extra_values";
  self ← (if truthy extra_values
          then call self "_dict_to_attr" (_dict_to_attr extra_values self)
          else Ok self);

  type ← getattr self "type";
  self ← (if in_ints type PARSE_PEER_ID_EVENTS
          then call self "_parse_peer_id" (_parse_peer_id self)
          else Ok self);

  type ← getattr self "type";
  self ← (if in_ints type PARSE_MESSAGE_FLAGS_EVENTS
          then call self "_parse_message_flags" (_parse_message_flags self)
          else Ok self);

  type ← getattr self "type";
  self ←
    (if is_member type EVkEventType VkEventType.CHAT_UPDATE then
       self ← call self "_parse_chat_info" (_parse_chat_info self);
       type_id ← getattr self "type_id";
       update_type ← except_ValueError
         (enum_call EVkChatEventType VkChatEventType.members type_id)
         (Ok type_id);
       Ok (setattr "update_type" update_type self)
     else if is_member type EVkEventType VkEventType.NOTIFICATION_SETTINGS_UPDATE then
       values ← getattr self "values";
       self ← call self "_dict_to_attr" (_dict_to_attr values self);
       call self "_parse_peer_id" (_parse_peer_id self)
     else if is_member type EVkEventType VkEventType.PEER_FLAGS_REPLACE then
       call self "_parse_peer_flags" (_parse_peer_flags self)
     else if in_ints type [VkEventType.MESSAGE_NEW; VkEventType.MESSAGE_EDIT] then
       call self "_parse_message" (_parse_message self)
     else if in_ints type [VkEventType.USER_ONLINE; VkEventType.USER_OFFLINE] then
       user_id ← getattr self "user_id";
       user_id ← py_abs user_id;
       let self := setattr "user_id" user_id self in
       call self "_parse_online_status" (_parse_online_status self)
     else if is_member type EVkEventType VkEventType.USER_RECORDING_VOICE then
       user_id ← getattr self "user_id";
       if is_list user_id then
         user_id ← py_first user_id;
         Ok (setattr "user_id" user_id self)
       else Ok self
     else Ok self);

  timestamp ← getattr self "timestamp";
  if truthy timestamp then
    datetime ← utcfromtimestamp timestamp;
    Ok (setattr "datetime" datetime self)
  else Ok self.

End MessageEvent.

(** ** The webhook decoder: [BotMessageEvent] *)

Module BotMessageEvent.

(** [k in a] for a dictionary [a]: a key must be hashable. *)
Definition key_in (k : pyval) (a : pydict) : result bool :=
  match k with
  | PStr s => Ok (dict_has s a)
  | PList _ | PDict _ | PSet _ => Raise TypeError
  | _ => Ok false
  end.

(** One round of the loop that fills [attachments_ids]. *)
Definition attachment_id (a : pyval) : result (option string) :=
  match a with
  | PDict d =>
      let atype := default PNone (dict_get "type" d) in
      known ← (if truthy atype then key_in atype d else Ok false);
      let payload := if known : bool
                     then match atype with
                          | PStr k => default PNone (dict_get k d)
                          | _ => PNone
                          end
                     else PNone in
      match payload with
      | PDict pd =>
          let owner_id := default PNone (dict_get "owner_id" pd) in
          let media_id := default PNone (dict_get "id" pd) in
          if truthy atype && negb (is_none owner_id) && negb (is_none media_id)
          then Ok (Some (py_str atype +:+ py_str owner_id +:+ "_" +:+ py_str media_id))
          else Ok None
      | _ => Ok None
      end
  | _ => Ok None
  end.

Fixpoint attachments_ids (l : list pyval) : result (list pyval) :=
  match l with
  | [] => Ok []
  | a :: l' =>
      id ← attachment_id a;
      rest ← attachments_ids l';
      Ok (match id with Some s => PStr s :: rest | None => rest end)
  end.

(** [__init__], first part: the fields of the callback object. *)
Definition read_fields (raw : pydict) : result obj :=
  let get (d : pydict) (k : string) := default PNone (dict_get k d) in
  let self := MessageEvent.fresh (PDict raw) in
  let self := setattr "type" (get raw "type") self in
  let self := setattr "event_id" (get raw "event_id") self in
  let self := setattr "v" (get raw "v") self in
  let self := setattr "group_id" (get raw "group_id") self in
  let obj := py_or (get raw "object") (PDict []) in
  message ← py_get obj "message";
  let message := py_or message (PDict []) in
  let self := setattr "message" message self in

  message_id ← py_get message "id";
  let self := setattr "message_id" message_id self in
  peer_id ← py_get message "peer_id";
  let self := setattr "peer_id" peer_id self in
  conversation_message_id ← py_get message "conversation_message_id";
  let self := setattr "conversation_message_id" conversation_message_id self in
  from_id ← py_get message "from_id";
  let self := setattr "from_id" from_id self in
  text ← py_get message "text";
  let self := setattr "text" (py_or text (PStr "")) self in
  timestamp ← py_get message "date";
  let self := setattr "timestamp" timestamp self in

  self ← (if truthy timestamp then
            datetime ← utcfromtimestamp timestamp;
            Ok (setattr "datetime" datetime self)
          else Ok self);

  attachments ← py_get message "attachments";
  let self := setattr "attachments" (py_or attachments (PList [])) self in
  fwd_messages ← py_get message "fwd_messages";
  let self := setattr "fwd_messages" (py_or fwd_messages (PList [])) self in

  client_info ← py_get obj "client_info";
  Ok (setattr "client_info" (py_or client_info (PDict [])) self).

(** Second part: the flags [from_chat], [from_user], [from_group]. *)
Definition peer_flags (self : obj) : result obj :=
  peer_id ← getattr self "peer_id";
  if negb (is_none peer_id) then
    chat ← py_ge peer_id 2000000000;
    if chat : bool then Ok (setattr "from_chat" (PBool true) self)
    else
      user ← py_gt peer_id 0;
      if user : bool then Ok (setattr "from_user" (PBool true) self)
      else
        group ← py_lt peer_id 0;
        if group : bool then Ok (setattr "from_group" (PBool true) self)
        else Ok self
  else Ok self.

(** Third part: [from_me] for a message of the group itself, and
    [to_me], which every callback gets. *)
Definition direction (self : obj) : result obj :=
  group_id ← getattr self "group_id";
  let from_id := default PNone (self !! "from_id") in
  self ← (if negb (is_none group_id) && negb (is_none from_id) then
            g ← py_int group_id;
            if eq_int from_id (- g) then Ok (setattr "from_me" (PBool true) self)
            else Ok self
          else Ok self);
  Ok (setattr "to_me" (PBool true) self).

(** Last part: [attachments_ids]. *)
Definition collect_ids (self : obj) : result obj :=
  attachments ← getattr self "attachments";
  items ← py_iter attachments;
  ids ← attachments_ids items;
  Ok (setattr "attachments_ids" (PList ids) self).

(** [__init__] *)
Definition init (raw : pydict) : result obj :=
  self ← read_fields raw;
  self ← peer_flags self;
  self ← direction self;
  collect_ids self.

End BotMessageEvent.

(** ** The remote side *)

(** What the client sends: a call of an API method, or a GET for text. *)
Inductive request : Type :=
  | ApiCall (method : string) (kwargs : pydict)
  | GetText (url : option string) (params : pydict) (timeout : Z).

(** The requests made so far, newest first. *)
Abbreviation trace := (list request).

(** The remote side answers a request knowing everything asked before it
    (the head of the trace is the request being answered).  An API method
    returns the decoded response or raises; [get_text] returns the status
    and the body, kept as what [json.loads] makes of it ([None] when the
    text is not JSON). *)
Record server : Type := {
  api : trace → result pyval;
  get_text : trace → result (Z * option pyval);
}.

Definition is_handoff (rq : request) : bool :=
  match rq with ApiCall _ _ => true | GetText _ _ _ => false end.
Definition is_poll (rq : request) : bool :=
  match rq with GetText _ _ _ => true | ApiCall _ _ => false end.

(** How many handoff calls and how many GETs a trace holds. *)
Definition handoffs (tr : trace) : nat := length (filter is_handoff tr).
Definition polls (tr : trace) : nat := length (filter is_poll tr).

(** ** The long-poll session: [BaseLongPoll] and its two subclasses *)

Module LongPoll.

Inductive kind : Type :=
  | UserLongPoll (use_https : bool)
  | BotsLongPoll (group_id : pyval).

Record t : Type := {
  cls : kind;
  timeout : pyval;
  version : Z;
  wait_seconds : Z;
  mode : pyval;
  pts : pyval;
  ts : pyval;
  key : pyval;
  base_url : option string;
}.

Definition set_pts (v : pyval) (s : t) : t :=
  {| cls := cls s; timeout := timeout s; version := version s;
     wait_seconds := wait_seconds s; mode := mode s;
     pts := v; ts := ts s; key := key s; base_url := base_url s |}.
Definition set_ts (v : pyval) (s : t) : t :=
  {| cls := cls s; timeout := timeout s; version := version s;
     wait_seconds := wait_seconds s; mode := mode s;
     pts := pts s; ts := v; key := key s; base_url := base_url s |}.
Definition set_key (v : pyval) (s : t) : t :=
  {| cls := cls s; timeout := timeout s; version := version s;
     wait_seconds := wait_seconds s; mode := mode s;
     pts := pts s; ts := ts s; key := v; base_url := base_url s |}.
Definition set_base_url (v : option string) (s : t) : t :=
  {| cls := cls s; timeout := timeout s; version := version s;
     wait_seconds := wait_seconds s; mode := mode s;
     pts := pts s; ts := ts s; key := key s; base_url := v |}.

(** [sum(mode)] *)
Fixpoint py_sum (l : list pyval) (acc : Z) : result Z :=
  match l with
  | [] => Ok acc
  | x :: l' =>
      match int_view x with
      | Some z => py_sum l' (acc + z)
      | None => Raise TypeError
      end
  end.

(** [BaseLongPoll.__init__]; [session_timeout] is the timeout of the
    session behind the API object. *)
Definition init (c : kind) (mode : pyval) (wait version : Z)
    (timeout session_timeout : pyval) : result t :=
  mode ← (match mode with
          | PList l => total ← py_sum l 0; Ok (PInt total)
          | _ => Ok mode
          end);
  Ok {| cls := c; timeout := py_or timeout session_timeout;
        version := version; wait_seconds := wait; mode := mode;
        pts := PNone; ts := PNone; key := PNone; base_url := None |}.

(** [BotsLongPoll.__init__] *)
Definition init_bots (group_id : pyval) (wait version : Z)
    (timeout session_timeout : pyval) : result t :=
  init (BotsLongPoll group_id) PNone wait version timeout session_timeout.

(** [self.base_params] *)
Definition base_params (s : t) : pydict :=
  let d := [ ("version", PInt (version s)); ("wait", PInt (wait_seconds s));
             ("act", PStr "a_check") ] in
  match mode s with
  | PNone => d
  | m => dict_set "mode" m d
  end.

(** [not self.base_url] *)
Definition no_base_url (s : t) : bool :=
  match base_url s with
  | None => true
  | Some u => String.eqb u ""
  end.

Definition handoff_request (s : t) (need_pts : bool) : request :=
  match cls s with
  | UserLongPoll _ =>
      ApiCall "messages.getLongPollServer"
        [ ("need_pts", PInt (if need_pts then 1 else 0)); ("timeout", timeout s) ]
  | BotsLongPoll group_id =>
      ApiCall "groups.getLongPollServer" [ ("group_id", group_id) ]
  end.

Definition server_url (s : t) (server : pyval) : string :=
  match cls s with
  | UserLongPoll use_https =>
      "http" +:+ (if use_https then "s" else "") +:+ "://" +:+ py_str server
  | BotsLongPoll _ => py_str server
  end.

(** [_get_long_poll_server]: the session is updated field by field, so an
    exception leaves the assignments made before it. *)
Definition _get_long_poll_server (srv : server) (need_pts : bool)
    (s : t) (tr : trace) : result unit * t * trace :=
  let tr := handoff_request s need_pts :: tr in
  match api srv tr with
  | Raise e => (Raise e, s, tr)
  | Ok response =>
      match py_get response "pts" with
      | Raise e => (Raise e, s, tr)
      | Ok v =>
          let s := set_pts v s in
          match py_getitem response "ts" with
          | Raise e => (Raise e, s, tr)
          | Ok v =>
              let s := set_ts v s in
              match py_getitem response "key" with
              | Raise e => (Raise e, s, tr)
              | Ok v =>
                  let s := set_key v s in
                  match py_getitem response "server" with
                  | Raise e => (Raise e, s, tr)
                  | Ok v => (Ok (), set_base_url (Some (server_url s v)) s, tr)
                  end
              end
          end
      end
  end.

(** The query of a poll and the GET that carries it. *)
Definition poll_params (s : t) : pydict :=
  dict_update [("ts", ts s); ("key", key s)] (base_params s).

Definition poll_request (s : t) : request :=
  GetText (base_url s) (poll_params s) (2 * wait_seconds s).

Definition version_message : string :=
  "An invalid version number was passed in the version parameter".

(** [self.base_url + '/'] *)
Definition slash (u : option string) : result string :=
  match u with
  | Some u => Ok (u +:+ "/")
  | None => Raise TypeError
  end.

Definition raising {A} (r : result string) (k : string → exn) : result A :=
  match r with
  | Ok u => Raise (k u)
  | Raise e => Raise e
  end.

(** [wait]: [depth] is the number of nested activations of [wait] the
    interpreter still allows; the method calls itself to repeat a poll,
    and exceeding the limit is Python's [RecursionError]. *)
Fixpoint wait (depth : nat) (srv : server) (need_pts : bool)
    (s : t) (tr : trace) : result pyval * t * trace :=
  match depth with
  | O => (Raise RecursionError, s, tr)
  | S depth =>
      let '(established, s, tr) :=
        if no_base_url s then _get_long_poll_server srv need_pts s tr
        else (Ok (), s, tr) in
      match established with
      | Raise e => (Raise e, s, tr)
      | Ok _ =>
          let params := poll_params s in
          let tr := poll_request s :: tr in
          match get_text srv tr with
          | Raise e => (Raise e, s, tr)
          | Ok (status, body) =>
              if status =? 403 then
                (raising (slash (base_url s))
                   (λ u, VkLongPollError 403 "smth weth wrong" u params), s, tr)
              else
                match body with
                | None => (Raise JSONDecodeError, s, tr)
                | Some response =>
                    match py_get response "failed" with
                    | Raise e => (Raise e, s, tr)
                    | Ok failed =>
                        if negb (truthy failed) then
                          match py_getitem response "ts" with
                          | Raise e => (Raise e, s, tr)
                          | Ok v => (Ok response, set_ts v s, tr)
                          end
                        else if eq_int failed 1 then
                          match py_getitem response "ts" with
                          | Raise e => (Raise e, s, tr)
                          | Ok v => wait depth srv false (set_ts v s) tr
                          end
                        else if eq_int failed 4 then
                          (raising (slash (base_url s))
                             (λ u, VkLongPollError 4 version_message u params), s, tr)
                        else
                          wait depth srv false (set_base_url None s) tr
                    end
                end
          end
      end
  end.

(** [get_pts]; the pair it returns for [need_ts] is kept as a list. *)
Definition get_pts (srv : server) (need_ts : bool)
    (s : t) (tr : trace) : result pyval * t * trace :=
  let '(established, s, tr) :=
    if no_base_url s || negb (truthy (pts s))
    then _get_long_poll_server srv true s tr
    else (Ok (), s, tr) in
  match established with
  | Raise e => (Raise e, s, tr)
  | Ok _ => (Ok (if need_ts then PList [pts s; ts s] else pts s), s, tr)
  end.

End LongPoll.

(** ** The attachment resolver: [normalized_attachments] *)

Module Attachments.

(** A remote call inside a [try]: the arguments are evaluated first, and
    the request is made only when they could be. *)
Definition try_call (srv : server) (rq : result request) (tr : trace)
    : result pyval * trace :=
  match rq with
  | Ok rq => (api srv (rq :: tr), rq :: tr)
  | Raise e => (Raise e, tr)
  end.

(** The first lookup of the bulk tier, for the two event classes. *)
Definition bulk_request_array (self : obj) : result request :=
  message_id ← getattr self "message_id";
  group_id ← getattr self "group_id";
  Ok (ApiCall "messages.getById" [("message_ids", message_id); ("group_id", group_id)]).


Definition retry_request (self : obj) : result request :=
  message_id ← getattr self "message_id";
  Ok (ApiCall "messages.getById" [("message_ids", message_id)]).

(** [items[0].get("attachments") or [] if items else []] *)
Definition first_attachments (r : pyval) : result pyval :=
  items ← py_get (py_or r (PDict [])) "items";
  let items := py_or items (PList []) in
  if truthy items then
    first ← py_first items;
    attachments ← py_get first "attachments";
    Ok (py_or attachments (PList []))
  else Ok (PList []).

Definition _from_messages_getById (srv : server) (bulk : obj → result request)
    (self : obj) (tr : trace) : result pyval * trace :=
  let '(r, tr) := try_call srv (bulk self) tr in
  match r with
  | Ok r => (first_attachments r, tr)
  | Raise _ =>
      let '(r, tr) := try_call srv (retry_request self) tr in
      match r with
      | Ok r => (first_attachments r, tr)
      | Raise _ => (Ok (PList []), tr)
      end
  end.

(** [[{"type": s.get("type"), "url": s.get("url")} for s in sz if s.get("url")]] *)
Fixpoint sizes_with_url (sz : list pyval) : result (list pyval) :=
  match sz with
  | [] => Ok []
  | s :: sz' =>
      url ← py_get s "url";
      here ← (if truthy url then
                type ← py_get s "type";
                Ok [PDict [("type", type); ("url", url)]]
              else Ok []);
      rest ← sizes_with_url sz';
      Ok (here ++ rest)%list
  end.

Definition photo_ref (sz : list pyval) : pyval :=
  PDict [("type", PStr "photo"); ("photo", PDict [("sizes", PList sz)])].

Definition doc_ref (d : pyval) : result pyval :=
  title ← py_get_default d "title" (PStr "");
  ext ← py_get_default d "ext" (PStr "");
  url ← py_get_default d "url" (PStr "");
  date ← py_get_default d "date" (PInt 0);
  Ok (PDict [("type", PStr "doc");
             ("doc", PDict [("title", title); ("ext", ext); ("url", url); ("date", date)])]).

(** One round of the loop of [_map]: what it appends. *)
Definition map_one (a : pyval) : result (list pyval) :=
  t ← py_get a "type";
  if eq_str t "photo" then
    photo ← py_get a "photo";
    sz ← py_get (py_or photo (PDict [])) "sizes";
    sz ← py_iter (py_or sz (PList []));
    sz ← sizes_with_url sz;
    Ok (match sz with [] => [] | _ => [photo_ref sz] end)
  else if eq_str t "doc" then
    doc ← py_get a "doc";
    ref ← doc_ref (py_or doc (PDict []));
    Ok [ref]
  else Ok [].

Fixpoint map_all (atts : list pyval) : result (list pyval) :=
  match atts with
  | [] => Ok []
  | a :: atts' =>
      here ← map_one a;
      rest ← map_all atts';
      Ok (here ++ rest)%list
  end.

Definition _map (atts : pyval) : result (list pyval) :=
  atts ← py_iter (py_or atts (PList []));
  map_all atts.

(** The secondary lookups of the inline tier; whatever goes wrong inside
    their [try] is dropped and the round appends nothing. *)
Definition lookup_photo (srv : server) (token : string) (tr : trace)
    : list pyval * trace :=
  let '(ph, tr) :=
    try_call srv (Ok (ApiCall "photos.getById"
                        [("photos", PStr token); ("photo_sizes", PInt 1)])) tr in
  let found :=
    ph ← ph;
    if truthy ph then
      first ← py_first ph;
      sz ← py_get_default first "sizes" (PList []);
      sz ← py_iter sz;
      sz ← sizes_with_url sz;
      Ok (match sz with [] => [] | _ => [photo_ref sz] end)
    else Ok [] in
  (match found with Ok l => l | Raise _ => [] end, tr).

Definition lookup_doc (srv : server) (token : string) (tr : trace)
    : list pyval * trace :=
  let '(d, tr) := try_call srv (Ok (ApiCall "docs.getById" [("docs", PStr token)])) tr in
  let found :=
    d ← d;
    if truthy d then
      d0 ← py_first d;
      ref ← doc_ref d0;
      Ok [ref]
    else Ok [] in
  (match found with Ok l => l | Raise _ => [] end, tr).

Definition attach_key (i : nat) : string := "attach" +:+ pretty i.
Definition attach_type_key (i : nat) : string := "attach" +:+ pretty i +:+ "_type".

(** The [while] loop of the inline tier, from index [i] on; [rounds]
    bounds the rounds still to come. *)
Fixpoint inline_tier (rounds : nat) (srv : server) (ex : pyval) (i : nat)
    (norm : list pyval) (tr : trace) : result (list pyval) * trace :=
  let continue :=
    has ← contains_key ex (attach_key i);
    if has : bool then contains_key ex (attach_type_key i) else Ok false in
  match continue with
  | Raise e => (Raise e, tr)
  | Ok false => (Ok norm, tr)
  | Ok true =>
      match rounds with
      | O => (Ok norm, tr)
      | S rounds =>
          match py_getitem ex (attach_key i), py_getitem ex (attach_type_key i) with
          | Raise e, _ => (Raise e, tr)
          | Ok _, Raise e => (Raise e, tr)
          | Ok token, Ok tp =>
              match split_once "_" (py_str token) with
              | None => inline_tier rounds srv ex (S i) norm tr
              | Some (oid, iid) =>
                  let token := oid +:+ "_" +:+ iid in
                  let '(found, tr) :=
                    if eq_str tp "photo" then lookup_photo srv token tr
                    else if eq_str tp "doc" then lookup_doc srv token tr
                    else ([], tr) in
                  inline_tier rounds srv ex (S i) (norm ++ found)%list tr
              end
          end
      end
  end.

(** A bound on the rounds of the loop: a dictionary offers one key per
    round, and on anything else the first round already raises. *)
Definition max_rounds (ex : pyval) : nat :=
  match ex with
  | PDict d => length d
  | _ => 1
  end.

(** [normalized_attachments(self, api)] *)
Definition normalized_attachments (srv : server) (bulk : obj → result request)
    (self : obj) (tr : trace) : result (list pyval) * trace :=
  let '(atts, tr) := _from_messages_getById srv bulk self tr in
  match atts ≫= _map with
  | Raise e => (Raise e, tr)
  | Ok (a :: got) => (Ok (a :: got), tr)
  | Ok [] =>
      match getattr self "extra_values" with
      | Raise e => (Raise e, tr)
      | Ok extra_values =>
          let ex := py_or extra_values (PDict []) in
          inline_tier (max_rounds ex) srv ex 1 [] tr
      end
  end.

End Attachments.

(** ** Serialization, replies and the attachment test *)

Module EventMethods.

(** [v.copy()] *)
Definition py_copy (v : pyval) : result pyval :=
  match v with
  | PList _ | PDict _ | PSet _ => Ok v
  | _ => Raise (AttributeError "copy")
  end.

(** [v + n] and [-v] for an integer [n]. *)
Definition py_add (v : pyval) (n : Z) : result pyval :=
  match int_view v with Some z => Ok (PInt (z + n)) | None => Raise TypeError end.
Definition py_neg (v : pyval) : result pyval :=
  match int_view v with Some z => Ok (PInt (- z)) | None => Raise TypeError end.


(** A dictionary display [{k1: v1, k2: v2, ...}]: a key that comes
    again keeps its place and takes the later value. *)
Definition dict_display (items : pydict) : pydict :=
  fold_left (λ d kv, dict_set kv.1 kv.2 d) items [].

(** [MessageEvent(raw)] for any value.  [__init__] indexes [raw]: a list
    goes through the decoder; the first character of a string is no type
    code, so it becomes the type and no later step applies; a dictionary
    has no key 0; nothing else can be indexed. *)
Definition construct (raw : pyval) : result obj :=
  match raw with
  | PList l => MessageEvent.init l
  | PStr EmptyString => Raise IndexError
  | PStr (String c _) =>
      Ok (setattr "type" (PStr (String c EmptyString)) (MessageEvent.fresh raw))
  | PDict _ => Raise (KeyError "0")
  | _ => Raise TypeError
  end.

Definition to_serializable (self : obj) : result pyval :=
  raw ← getattr self "raw";
  from_user ← getattr self "from_user";
  from_chat ← getattr self "from_chat";
  from_group ← getattr self "from_group";
  from_me ← getattr self "from_me";
  to_me ← getattr self "to_me";
  attachments ← getattr self "attachments";
  attachments_ids ← getattr self "attachments_ids";
  keyboard ← getattr self "keyboard";
  message_data ← getattr self "message_data";
  message_id ← getattr self "message_id";
  timestamp ← getattr self "timestamp";
  peer_id ← getattr self "peer_id";
  flags ← getattr self "flags";
  extra ← getattr self "extra";
  extra_values ← getattr self "extra_values";
  type_id ← getattr self "type_id";
  group_id ← getattr self "group_id";
  type ← getattr self "type";
  fwd_messages ← getattr self "fwd_messages";
  state ← getattr self "state";
  text ← getattr self "text";
  Ok (PDict (dict_display
    [ ("raw", raw); ("from_user", from_user); ("from_chat", from_chat);
      ("from_group", from_group); ("from_me", from_me); ("to_me", to_me);
      ("attachments", attachments); ("attachments_ids", attachments_ids);
      ("keyboard", keyboard); ("message_data", message_data);
      ("message_id", message_id); ("timestamp", timestamp); ("peer_id", peer_id);
      ("flags", flags); ("extra", extra); ("extra_values", extra_values);
      ("type_id", type_id); ("group_id", group_id); ("type_id", type);
      ("fwd_messages", fwd_messages); ("state", state); ("text", text) ])).

(** [from_serializable(cls, data)]; [cls] is the constructor of the class
    it is called on and [fromisoformat] is [datetime.fromisoformat]. *)
Definition from_serializable (fromisoformat : pyval → result pyval)
    (cls : pyval → result obj) (data : pyval) : result obj :=
  raw ← py_get data "raw";
  event ← cls raw;
  raw ← py_get data "raw";
  let event := setattr "raw" raw event in
  from_user ← py_get data "from_user";
  let event := setattr "from_user" from_user event in
  from_chat ← py_get data "from_chat";
  let event := setattr "from_chat" from_chat event in
  from_group ← py_get data "from_group";
  let event := setattr "from_group" from_group event in
  from_me ← py_get data "from_me";
  let event := setattr "from_me" from_me event in
  to_me ← py_get data "to_me";
  let event := setattr "to_me" to_me event in
  attachments ← py_get_default data "attachments" (PStr "");
  let event := setattr "attachments" attachments event in
  attachments_ids ← py_get_default data "attachments_ids" (PList []);
  let event := setattr "attachments_ids" attachments_ids event in
  pad_id ← py_get data "pad_id";
  let event := setattr "pad_id" pad_id event in
  keyboard ← py_get_default data "keyboard" (PStr "");
  let event := setattr "keyboard" keyboard event in
  message_data ← py_get data "message_data";
  let event := setattr "message_data" message_data event in
  message_id ← py_get data "message_id";
  let event := setattr "message_id" message_id event in
  timestamp ← py_get data "timestamp";
  let event := setattr "timestamp" timestamp event in
  peer_id ← py_get data "peer_id";
  let event := setattr "peer_id" peer_id event in
  flags ← py_get data "flags";
  let event := setattr "flags" flags event in
  extra ← py_get data "extra";
  let event := setattr "extra" extra event in
  extra_values ← py_get data "extra_values";
  let event := setattr "extra_values" extra_values event in
  type_id ← py_get data "type_id";
  let event := setattr "type_id" type_id event in
  group_id ← py_get data "group_id";
  let event := setattr "group_id" group_id event in
  text ← py_get data "text";
  let event := setattr "text" text event in
  fwd_messages ← py_get data "fwd_messages";
  let event := setattr "fwd_messages" fwd_messages event in
  type_id ← getattr event "type_id";
  type ← enum_call EVkEventType VkEventType.members type_id;
  let event := setattr "type" type event in
  has ← contains_key data "datetime";
  event ← (if has : bool then
             datetime ← py_getitem data "datetime";
             if truthy datetime then
               datetime ← py_getitem data "datetime";
               datetime ← fromisoformat datetime;
               Ok (setattr "datetime" datetime event)
             else Ok event
           else Ok event);
  state ← py_get data "state";
  Ok (setattr "state" state event).

(** [create_reply]; an argument that is left out is passed as its default:
    [None], and the empty string for [state]. *)
Definition create_reply (self : obj)
    (reply_text attachments fwd_messages keyboard payload state attachments_ids
       pad_id : pyval) : result obj :=
  raw ← getattr self "raw";
  raw ← py_copy raw;
  reply_event ← construct raw;
  from_user ← getattr self "from_user";
  reply_event ←
    (if truthy from_user then
       user_id ← getattr self "user_id";
       Ok (setattr "peer_id" user_id reply_event)
     else
       from_chat ← getattr self "from_chat";
       if truthy from_chat then
         chat_id ← getattr self "chat_id";
         peer_id ← py_add chat_id CHAT_START_ID;
         Ok (setattr "peer_id" peer_id reply_event)
       else
         from_group ← getattr self "from_group";
         if truthy from_group then
           group_id ← getattr self "group_id";
           peer_id ← py_neg group_id;
           Ok (setattr "peer_id" peer_id reply_event)
         else Ok reply_event);
  let reply_event := setattr "text" reply_text reply_event in
  let reply_event := setattr "message" reply_text reply_event in
  let reply_event :=
    setattr "attachments" (if truthy attachments then attachments else PStr "")
      reply_event in
  let reply_event :=
    setattr "fwd_messages" (if truthy fwd_messages then fwd_messages else PList [])
      reply_event in
  let reply_event :=
    setattr "keyboard" (if truthy keyboard then keyboard else PStr "") reply_event in
  let reply_event := setattr "payload" payload reply_event in
  let reply_event :=
    setattr "pad_id" (if negb (is_none pad_id) then pad_id
                      else default PNone (self !! "pad_id")) reply_event in
  let reply_event :=
    setattr "attachments_ids" (if negb (is_none attachments_ids) then attachments_ids
                               else PNone) reply_event in
  let reply_event := setattr "from_me" (PBool true) reply_event in
  let reply_event := setattr "to_me" (PBool false) reply_event in
  let reply_event := setattr "message_data" PNone reply_event in
  group_id ← getattr self "group_id";
  let reply_event := setattr "group_id" group_id reply_event in
  type_id ← getattr reply_event "type_id";
  message_id ← getattr reply_event "message_id";
  flags ← getattr reply_event "flags";
  peer_id ← getattr reply_event "peer_id";
  timestamp ← getattr reply_event "timestamp";
  text ← getattr reply_event "text";
  extra_values ← getattr reply_event "extra_values";
  let reply_event :=
    setattr "raw" (PList [type_id; message_id; flags; peer_id; timestamp; text;
                          extra_values]) reply_event in
  Ok (setattr "state" state reply_event).


End EventMethods.

(** * Properties *)

(** ** Outcomes *)

Lemma bind_Ok {A B} (r : result A) (k : A → result B) (b : B) :
  r ≫= k = Ok b ↔ ∃ a, r = Ok a ∧ k a = Ok b.
Proof.
  destruct r as [a|e]; simpl; split.
  - intros H. by exists a.
  - by intros (a' & [= ->] & H).
  - discriminate.
  - by intros (a' & [=] & _).
Qed.

Lemma Ok_inj {A} (a b : A) : Ok a = Ok b → a = b.
Proof. by intros [= ->]. Qed.

Ltac inv_bind H :=
  let a := fresh "a" in
  let Ha := fresh "Ha" in
  apply bind_Ok in H as (a & Ha & H).

Lemma getattr_Ok (self : obj) (a : string) (v : pyval) :
  getattr self a = Ok v ↔ self !! a = Some v.
Proof. unfold getattr. destruct (self !! a); split; congruence. Qed.

(** ** Flag decomposition *)

Section flags.
Import VkMessageFlag.

Definition lor_all (l : list Z) : Z := foldr Z.lor 0 l.

(** The bits the enumeration knows. *)
Definition known_bits : Z := lor_all (value <$> members).

Lemma known_bits_value : known_bits = 197631.
Proof. reflexivity. Qed.

Lemma value_pow2 (x : t) : value x = 2 ^ bit x ∧ 0 ≤ bit x.
Proof. by destruct x. Qed.

Lemma land_pow2_testbit (f k : Z) :
  0 ≤ k → Z.land f (2 ^ k) ≠ 0 ↔ Z.testbit f k = true.
Proof.
  intros Hk. split.
  - intros Hne. destruct (Z.testbit f k) eqn:Hb; [done|].
    exfalso. apply Hne. apply Z.bits_inj'. intros n Hn.
    rewrite Z.land_spec, Z.bits_0, Z.pow2_bits_eqb by done.
    destruct (Z.eqb_spec k n) as [->|]; [by rewrite Hb | apply andb_false_r].
  - intros Hb Hz.
    assert (Z.testbit (Z.land f (2 ^ k)) k = true) as Ht.
    { rewrite Z.land_spec, Hb, Z.pow2_bits_eqb, Z.eqb_refl by done. done. }
    rewrite Hz, Z.bits_0 in Ht. done.
Qed.

Lemma members_all (x : t) : x ∈ members.
Proof. destruct x; compute_done. Qed.

Lemma members_NoDup : NoDup members.
Proof. compute_done. Qed.

(** OR-ing the values a filter keeps is masking with the OR of them all,
    whenever the dropped ones contribute nothing. *)
Lemma land_pow2_cases (f k : Z) :
  0 ≤ k → Z.land f (2 ^ k) = 0 ∨ Z.land f (2 ^ k) = 2 ^ k.
Proof.
  intros Hk. destruct (Z.testbit f k) eqn:Hb.
  - right. apply Z.bits_inj'. intros n Hn.
    rewrite Z.land_spec, Z.pow2_bits_eqb by done.
    destruct (Z.eqb_spec k n) as [->|]; [by rewrite Hb | apply andb_false_r].
  - left. destruct (decide (Z.land f (2 ^ k) = 0)) as [|Hne]; [done|].
    apply land_pow2_testbit in Hne; congruence.
Qed.

Lemma lor_all_cons (z : Z) (l : list Z) : lor_all (z :: l) = Z.lor z (lor_all l).
Proof. reflexivity. Qed.

(** OR-ing the values a filter keeps is masking with the OR of them all,
    when every value is a single bit. *)
Lemma lor_all_filter {A} (v : A → Z) (f : Z) (l : list A) :
  (∀ x, x ∈ l → Z.land f (v x) = 0 ∨ Z.land f (v x) = v x) →
  lor_all (v <$> filter (λ x, Z.land f (v x) ≠ 0) l) = Z.land f (lor_all (v <$> l)).
Proof.
  induction l as [|x l IH]; intros Hbit.
  - simpl. by rewrite Z.land_0_r.
  - rewrite filter_cons, fmap_cons, lor_all_cons, Z.land_lor_distr_r, <- IH
      by (intros y Hy; apply Hbit; by right).
    destruct (decide (Z.land f (v x) ≠ 0)) as [Hx|Hx].
    + rewrite fmap_cons, lor_all_cons.
      destruct (Hbit x) as [H0|Hv]; [by left | done | by rewrite Hv].
    + apply dec_stable in Hx. by rewrite Hx.
Qed.

End flags.

(** C5.  The decomposed message-flag set holds exactly the members of the
    enumeration whose bit is set in the flags value [f], each once, and
    OR-ing the values of its members gives back [f] restricted to the bits
    the enumeration knows.  This holds for every integer [f], so for every
    non-negative one. *)
Theorem message_flags_decomposition (self : obj) (f : Z) :
  self !! "flags" = Some (PInt f) →
  MessageEvent._parse_message_flags self =
    Ok (<["message_flags" :=
            PSet (VkMessageFlag.member <$> MessageEvent.message_flags_of f)]> self)
  ∧ (∀ x, x ∈ MessageEvent.message_flags_of f ↔ Z.testbit f (VkMessageFlag.bit x) = true)
  ∧ NoDup (MessageEvent.message_flags_of f)
  ∧ lor_all (VkMessageFlag.value <$> MessageEvent.message_flags_of f) = Z.land f known_bits.
Proof.
  intros Hflags. repeat split.
  - unfold MessageEvent._parse_message_flags, getattr. by rewrite Hflags.
  - intros [Hx _]%list_elem_of_filter.
    destruct (value_pow2 x) as [Hv Hb]. rewrite Hv in Hx. by apply land_pow2_testbit.
  - intros Hb. apply list_elem_of_filter. split; [|apply members_all].
    destruct (value_pow2 x) as [Hv Hk]. rewrite Hv. by apply land_pow2_testbit.
  - apply NoDup_filter, members_NoDup.
  - apply lor_all_filter. intros x _.
    destruct (value_pow2 x) as [-> Hk]. by apply land_pow2_cases.
Qed.

Lemma message_flags_decomposition_witness :
  MessageEvent.message_flags_of 3 = [VkMessageFlag.UNREAD; VkMessageFlag.OUTBOX]
  ∧ lor_all (VkMessageFlag.value <$> MessageEvent.message_flags_of 65539) = 65539.
Proof.
  pose proof (message_flags_decomposition
                (setattr "flags" (PInt 65539) (MessageEvent.fresh (PList []))) 65539
                eq_refl) as (_ & _ & _ & H).
  split; [reflexivity|]. rewrite H. reflexivity.
Defined.

(** ** Peer classification *)

(** The classification flags that are set on an event. *)
Definition flag_set (self : obj) (a : string) : bool :=
  match self !! a with
  | Some v => truthy v
  | None => false
  end.

Definition peer_classes (self : obj) : list string :=
  filter (flag_set self) ["from_group"; "from_chat"; "from_user"].

(** The flags as [__init__] leaves them before any classification. *)
Definition unclassified (self : obj) : Prop :=
  self !! "from_group" = Some (PBool false) ∧
  self !! "from_chat" = Some (PBool false) ∧
  self !! "from_user" = Some (PBool false).

(** The extra values of an event as the server sends them: none, or a
    dictionary whose [from] entry, when there is one, reads as an integer. *)
Definition from_readable (self : obj) : Prop :=
  self !! "extra_values" = Some PNone ∨
  ∃ d, self !! "extra_values" = Some (PDict d) ∧
       ∀ v, dict_get "from" d = Some v → ∃ z, py_int v = Ok z.

Lemma fresh_unclassified (raw : pyval) : unclassified (MessageEvent.fresh raw).
Proof. by repeat split. Qed.

Lemma lookup_setattr_ne (self : obj) (a b : string) (v : pyval) :
  a ≠ b → setattr a v self !! b = self !! b.
Proof. apply lookup_insert_ne. Qed.

Lemma lookup_setattr_eq (self : obj) (a : string) (v : pyval) :
  setattr a v self !! a = Some v.
Proof. apply lookup_insert_eq. Qed.

(** Reading an attribute back through a run of assignments. *)
Ltac attrs :=
  repeat first [ rewrite lookup_setattr_eq | rewrite lookup_setattr_ne by done ];
  first [ reflexivity | eassumption | eexists; reflexivity | eexists; eassumption ].

Ltac classes :=
  unfold peer_classes, flag_set, setattr;
  rewrite !filter_cons, filter_nil; simplify_map_eq; done.

(** [_parse_peer_id], branch by branch. *)
Lemma parse_peer_id_group (self : obj) (p : Z) :
  self !! "peer_id" = Some (PInt p) → p < 0 →
  MessageEvent._parse_peer_id self
  = Ok (setattr "group_id" (PInt (Z.abs p)) (setattr "from_group" (PBool true) self)).
Proof.
  intros Hp Hneg. unfold MessageEvent._parse_peer_id, getattr. rewrite Hp.
  cbn [mbind result_bind py_lt int_view]. rewrite (proj2 (Z.ltb_lt p 0)) by done.
  reflexivity.
Qed.

Lemma parse_peer_id_user (self : obj) (p : Z) :
  self !! "peer_id" = Some (PInt p) → 0 ≤ p ≤ CHAT_START_ID →
  MessageEvent._parse_peer_id self
  = Ok (setattr "user_id" (PInt p) (setattr "from_user" (PBool true) self)).
Proof.
  intros Hp Hrange. unfold MessageEvent._parse_peer_id, getattr. rewrite Hp.
  cbn [mbind result_bind py_lt py_gt int_view].
  rewrite (proj2 (Z.ltb_ge p 0)) by lia. cbn [mbind result_bind].
  rewrite Z.gtb_ltb, (proj2 (Z.ltb_ge CHAT_START_ID p)) by lia.
  reflexivity.
Qed.

Lemma parse_peer_id_chat (self : obj) (p : Z) :
  self !! "peer_id" = Some (PInt p) → p > CHAT_START_ID →
  from_readable self →
  let chat := setattr "chat_id" (PInt (p - CHAT_START_ID))
                (setattr "from_chat" (PBool true) self) in
  MessageEvent._parse_peer_id self = Ok chat ∨
  ∃ user_id, MessageEvent._parse_peer_id self = Ok (setattr "user_id" (PInt user_id) chat).
Proof.
  intros Hp Hbig Hfrom chat. unfold MessageEvent._parse_peer_id, getattr. rewrite Hp.
  cbn [mbind result_bind py_lt py_gt py_sub int_view].
  rewrite (proj2 (Z.ltb_ge p 0)) by (unfold CHAT_START_ID in Hbig; lia).
  cbn [mbind result_bind]. rewrite (proj2 (Z.gtb_gt p _)) by done.
  cbn [mbind result_bind]. subst chat.
  rewrite !lookup_setattr_ne by done.
  destruct Hfrom as [-> | (d & -> & Hv)]; [by left|].
  destruct d as [|kv d]; [by left|].
  change (truthy (PDict (kv :: d))) with true. cbv iota.
  cbn [mbind result_bind contains_key py_getitem]. unfold dict_has.
  destruct (dict_get "from" (kv :: d)) as [v|] eqn:Hget; [|by left].
  destruct (Hv v eq_refl) as [z Hz]. cbn [mbind result_bind]. rewrite Hz.
  right. by exists z.
Qed.

(** ** The constructor, stage by stage *)

Lemma call_Ok {A} (self : obj) (m : string) (body : result A) (a : A) :
  call self m body = Ok a ↔ self !! m = None ∧ body = Ok a.
Proof.
  unfold call. destruct (self !! m); split; try done.
  - by intros [? _].
  - by intros [_ ?].
Qed.

Lemma call_None {A} (self : obj) (m : string) (body : result A) :
  self !! m = None → call self m body = body.
Proof. unfold call. by intros ->. Qed.

Lemma getattr_setattr_eq (self : obj) (a : string) (v : pyval) :
  getattr (setattr a v self) a = Ok v.
Proof. unfold getattr. by rewrite lookup_setattr_eq. Qed.

Lemma getattr_setattr_ne (self : obj) (a b : string) (v : pyval) :
  a ≠ b → getattr (setattr a v self) b = getattr self b.
Proof. intros Hne. unfold getattr. by rewrite lookup_setattr_ne. Qed.

(** Running a decoder on an input whose shape is known: the binds are
    reduced, and every attribute that is read is looked up through the
    assignments made so far. *)
Ltac getattr_fresh :=
  match goal with
  | |- context [getattr (MessageEvent.fresh ?r) ?a] =>
      let v := eval vm_compute in (getattr (MessageEvent.fresh r) a) in
      change (getattr (MessageEvent.fresh r) a) with v
  end.

(** The part of [MessageEvent.__init__] that follows the positional
    assignment. *)
Definition decode_fields (self : obj) : result obj :=
  extra_values ← getattr self "extra_values";
  self ← (if truthy extra_values
          then call self "_dict_to_attr" (MessageEvent._dict_to_attr extra_values self)
          else Ok self);
  type ← getattr self "type";
  self ← (if in_ints type PARSE_PEER_ID_EVENTS
          then call self "_parse_peer_id" (MessageEvent._parse_peer_id self)
          else Ok self);
  type ← getattr self "type";
  self ← (if in_ints type PARSE_MESSAGE_FLAGS_EVENTS
          then call self "_parse_message_flags" (MessageEvent._parse_message_flags self)
          else Ok self);
  type ← getattr self "type";
  self ←
    (if is_member type EVkEventType VkEventType.CHAT_UPDATE then
       self ← call self "_parse_chat_info" (MessageEvent._parse_chat_info self);
       type_id ← getattr self "type_id";
       update_type ← except_ValueError
         (enum_call EVkChatEventType VkChatEventType.members type_id)
         (Ok type_id);
       Ok (setattr "update_type" update_type self)
     else if is_member type EVkEventType VkEventType.NOTIFICATION_SETTINGS_UPDATE then
       values ← getattr self "values";
       self ← call self "_dict_to_attr" (MessageEvent._dict_to_attr values self);
       call self "_parse_peer_id" (MessageEvent._parse_peer_id self)
     else if is_member type EVkEventType VkEventType.PEER_FLAGS_REPLACE then
       call self "_parse_peer_flags" (MessageEvent._parse_peer_flags self)
     else if in_ints type [VkEventType.MESSAGE_NEW; VkEventType.MESSAGE_EDIT] then
       call self "_parse_message" (MessageEvent._parse_message self)
     else if in_ints type [VkEventType.USER_ONLINE; VkEventType.USER_OFFLINE] then
       user_id ← getattr self "user_id";
       user_id ← py_abs user_id;
       let self := setattr "user_id" user_id self in
       call self "_parse_online_status" (MessageEvent._parse_online_status self)
     else if is_member type EVkEventType VkEventType.USER_RECORDING_VOICE then
       user_id ← getattr self "user_id";
       if is_list user_id then
         user_id ← py_first user_id;
         Ok (setattr "user_id" user_id self)
       else Ok self
     else Ok self);
  timestamp ← getattr self "timestamp";
  if truthy timestamp then
    datetime ← utcfromtimestamp timestamp;
    Ok (setattr "datetime" datetime self)
  else Ok self.

(** For a known type code the constructor assigns the fields by position
    and goes on with [decode_fields]. *)
Lemma init_known (code : Z) (rest : list pyval) (attrs : list string) :
  code ∈ VkEventType.members →
  attrs_of code = Some attrs →
  MessageEvent.init (PInt code :: rest)
  = decode_fields
      (MessageEvent._list_to_attr rest attrs
         (setattr "type" (PEnum EVkEventType code)
            (MessageEvent.fresh (PList (PInt code :: rest))))).
Proof.
  intros Hcode Hattrs. unfold MessageEvent.init.
  assert (enum_call EVkEventType VkEventType.members (PInt code)
          = Ok (PEnum EVkEventType code)) as Hcall.
  { unfold enum_call. cbn [int_view].
    assert (existsb (Z.eqb code) VkEventType.members = true) as ->; [|done].
    apply existsb_exists. exists code. split; [by apply list_elem_of_In | apply Z.eqb_refl]. }
  cbn [mbind result_bind]. rewrite Hcall. cbn [mbind result_bind int_view option_bind].
  rewrite Hattrs. reflexivity.
Qed.

Ltac eval_test :=
  match goal with
  | |- context [in_ints (PEnum ?c ?z) ?l] =>
      let b := eval vm_compute in (in_ints (PEnum c z) l) in
      change (in_ints (PEnum c z) l) with b
  | |- context [is_member (PEnum ?c ?z) ?c' ?m] =>
      let b := eval vm_compute in (is_member (PEnum c z) c' m) in
      change (is_member (PEnum c z) c' m) with b
  end.

Ltac run :=
  repeat first
    [ progress cbn [mbind result_bind except_ValueError truthy]
    | rewrite getattr_setattr_eq
    | rewrite getattr_setattr_ne by done
    | getattr_fresh
    | eval_test
    | rewrite call_None by (rewrite ?lookup_setattr_ne by done; reflexivity) ].

Lemma set_all_other (l : pydict) (self : obj) (a : string) :
  a ∉ l.*1 → set_all l self !! a = self !! a.
Proof.
  revert self. induction l as [|[k v] l IH]; intros self Ha; [done|].
  cbn [set_all fold_left fst snd]. fold (set_all l (setattr k v self)).
  rewrite IH by (intros ?; apply Ha; by right).
  apply lookup_setattr_ne. intros ->. apply Ha. by left.
Qed.

Lemma zip_longer {A B} (l : list A) (k extra : list B) :
  (length l ≤ length k)%nat → zip l (k ++ extra) = zip l k.
Proof.
  revert k. induction l as [|x l IH]; intros [|y k] Hlen; simpl in *; try done; try lia.
  f_equal. apply IH. lia.
Qed.

Lemma zip_fst_take {A B} (l : list A) (k : list B) :
  (zip l k).*1 = take (length k) l.
Proof.
  revert k. induction l as [|x l IH]; intros [|y k]; simpl; try done.
  by rewrite IH.
Qed.

(** *** The stages of the constructor *)

(** The attributes [_parse_peer_id] writes. *)
Definition classification_attrs : list string :=
  ["from_group"; "from_chat"; "from_user"; "group_id"; "chat_id"; "user_id"].

Definition spray_stage (self : obj) : result obj :=
  extra_values ← getattr self "extra_values";
  if truthy extra_values
  then call self "_dict_to_attr" (MessageEvent._dict_to_attr extra_values self)
  else Ok self.

Definition peer_stage (self : obj) : result obj :=
  type ← getattr self "type";
  if in_ints type PARSE_PEER_ID_EVENTS
  then call self "_parse_peer_id" (MessageEvent._parse_peer_id self)
  else Ok self.

Definition flags_stage (self : obj) : result obj :=
  type ← getattr self "type";
  if in_ints type PARSE_MESSAGE_FLAGS_EVENTS
  then call self "_parse_message_flags" (MessageEvent._parse_message_flags self)
  else Ok self.

Definition type_stage (self : obj) : result obj :=
  type ← getattr self "type";
  if is_member type EVkEventType VkEventType.CHAT_UPDATE then
    self ← call self "_parse_chat_info" (MessageEvent._parse_chat_info self);
    type_id ← getattr self "type_id";
    update_type ← except_ValueError
      (enum_call EVkChatEventType VkChatEventType.members type_id)
      (Ok type_id);
    Ok (setattr "update_type" update_type self)
  else if is_member type EVkEventType VkEventType.NOTIFICATION_SETTINGS_UPDATE then
    values ← getattr self "values";
    self ← call self "_dict_to_attr" (MessageEvent._dict_to_attr values self);
    call self "_parse_peer_id" (MessageEvent._parse_peer_id self)
  else if is_member type EVkEventType VkEventType.PEER_FLAGS_REPLACE then
    call self "_parse_peer_flags" (MessageEvent._parse_peer_flags self)
  else if in_ints type [VkEventType.MESSAGE_NEW; VkEventType.MESSAGE_EDIT] then
    call self "_parse_message" (MessageEvent._parse_message self)
  else if in_ints type [VkEventType.USER_ONLINE; VkEventType.USER_OFFLINE] then
    user_id ← getattr self "user_id";
    user_id ← py_abs user_id;
    let self := setattr "user_id" user_id self in
    call self "_parse_online_status" (MessageEvent._parse_online_status self)
  else if is_member type EVkEventType VkEventType.USER_RECORDING_VOICE then
    user_id ← getattr self "user_id";
    if is_list user_id then
      user_id ← py_first user_id;
      Ok (setattr "user_id" user_id self)
    else Ok self
  else Ok self.

Definition date_stage (self : obj) : result obj :=
  timestamp ← getattr self "timestamp";
  if truthy timestamp then
    datetime ← utcfromtimestamp timestamp;
    Ok (setattr "datetime" datetime self)
  else Ok self.

(** A decoding that succeeds went through the five stages. *)
Lemma decode_fields_Ok (s0 e : obj) :
  decode_fields s0 = Ok e →
  ∃ s1 s2 s3 s4,
    spray_stage s0 = Ok s1 ∧ peer_stage s1 = Ok s2 ∧ flags_stage s2 = Ok s3
    ∧ type_stage s3 = Ok s4 ∧ date_stage s4 = Ok e.
Proof.
  unfold decode_fields. intros H.
  apply bind_Ok in H as (ev & Hev & H). apply bind_Ok in H as (s1 & H1 & H).
  apply bind_Ok in H as (t1 & Ht1 & H). apply bind_Ok in H as (s2 & H2 & H).
  apply bind_Ok in H as (t2 & Ht2 & H). apply bind_Ok in H as (s3 & H3 & H).
  apply bind_Ok in H as (t3 & Ht3 & H). apply bind_Ok in H as (s4 & H4 & H).
  exists s1, s2, s3, s4.
  unfold spray_stage, peer_stage, flags_stage, type_stage, date_stage.
  rewrite Hev, Ht1, Ht2, Ht3. done.
Qed.

(** *** The positional fields *)

(** The field of an update that its kind stores under [name]. *)
Definition field (code : Z) (rest : list pyval) (name : string) : option pyval :=
  attrs_of code ≫= λ attrs, dict_get name (zip attrs rest).

Lemma dict_get_None (k : string) (l : pydict) : k ∉ l.*1 → dict_get k l = None.
Proof.
  induction l as [|[k' v] l IH]; [done|]. cbn [dict_get fmap list_fmap fst].
  intros Hk. destruct (String.eqb k' k) eqn:Heq.
  - apply String.eqb_eq in Heq as ->. exfalso. apply Hk. by left.
  - apply IH. intros ?. apply Hk. by right.
Qed.

Lemma set_all_lookup (l : pydict) (self : obj) (a : string) :
  NoDup l.*1 →
  set_all l self !! a
  = match dict_get a l with Some v => Some v | None => self !! a end.
Proof.
  revert self. induction l as [|[k v] l IH]; intros self Hnd; [done|].
  cbn [fmap list_fmap fst] in Hnd. apply NoDup_cons in Hnd as [Hk Hnd].
  cbn [set_all fold_left fst snd dict_get]. fold (set_all l (setattr k v self)).
  rewrite IH by done. destruct (String.eqb k a) eqn:Heq.
  - apply String.eqb_eq in Heq as ->. rewrite dict_get_None by done.
    apply lookup_setattr_eq.
  - destruct (dict_get a l); [done|]. apply lookup_setattr_ne.
    intros ->. by rewrite String.eqb_refl in Heq.
Qed.

Lemma attrs_NoDup (code : Z) (attrs : list string) :
  attrs_of code = Some attrs → NoDup attrs.
Proof.
  unfold attrs_of, EVENT_ATTRS_MAPPING. cbn [find fst snd].
  repeat (destruct (Z.eqb _ code); [intros [= <-]; compute_done|]).
  done.
Qed.

Lemma positional (code : Z) (rest : list pyval) (attrs : list string) (self : obj)
    (a : string) :
  attrs_of code = Some attrs →
  MessageEvent._list_to_attr rest attrs self !! a
  = match dict_get a (zip attrs rest) with Some v => Some v | None => self !! a end.
Proof.
  intros Hattrs. unfold MessageEvent._list_to_attr. apply set_all_lookup.
  rewrite zip_fst_take. eapply sublist_NoDup; [by eapply attrs_NoDup|apply sublist_take].
Qed.

Lemma not_positional (attrs : list string) (rest : list pyval) (a : string) :
  a ∉ attrs → dict_get a (zip attrs rest) = None.
Proof.
  intros Ha. apply dict_get_None. rewrite zip_fst_take.
  intros Hin. by apply Ha, (subseteq_take (length rest)).
Qed.

(** *** What each stage leaves alone *)

Ltac keeps Ha :=
  repeat (rewrite lookup_setattr_ne; [|intros <-; apply Ha; compute_done]); reflexivity.

(** Extra values that leave the attributes [reserved] alone: none, or a
    dictionary without those names and without [__dict__], which would
    replace every attribute. *)
Definition plain_extra (reserved : list string) (extra_values : pyval) : Prop :=
  truthy extra_values = false ∨
  ∃ d, extra_values = PDict d ∧ ∀ k, k ∈ d.*1 → k ≠ "__dict__" ∧ k ∉ reserved.

Lemma assign_items_keeps (d : pydict) (self self' : obj) (a : string) :
  MessageEvent.assign_items d self = Ok self' →
  "__dict__" ∉ d.*1 → a ∉ d.*1 → self' !! a = self !! a.
Proof.
  revert self. induction d as [|[k v] d IH]; intros self H Hd Ha.
  { by apply Ok_inj in H as <-. }
  cbn [MessageEvent.assign_items] in H. apply bind_Ok in H as (s1 & Hset & H).
  apply call_Ok in Hset as [_ Hset]. unfold py_setattr in Hset.
  destruct (String.eqb k "__class__"); [done|].
  destruct (String.eqb k "__dict__") eqn:Hk.
  { apply String.eqb_eq in Hk as ->. exfalso. apply Hd. by left. }
  destruct (String.eqb k "__weakref__"); [done|]. apply Ok_inj in Hset as <-.
  rewrite (IH _ H); [|intros ?; apply Hd; by right|intros ?; apply Ha; by right].
  apply lookup_setattr_ne. intros ->. apply Ha. by left.
Qed.

Lemma spray_stage_keeps (reserved : list string) (s0 s1 : obj) (ev : pyval) (a : string) :
  s0 !! "extra_values" = Some ev → plain_extra reserved ev →
  spray_stage s0 = Ok s1 →
  a ∈ reserved → s1 !! a = s0 !! a.
Proof.
  intros Hev Hplain H Ha. unfold spray_stage, getattr in H. rewrite Hev in H.
  cbn [mbind result_bind] in H.
  destruct Hplain as [Hfalsy | (d & -> & Hd)].
  - rewrite Hfalsy in H. by apply Ok_inj in H as <-.
  - destruct (truthy (PDict d)); [|by apply Ok_inj in H as <-].
    apply call_Ok in H as [_ H]. eapply assign_items_keeps; [exact H| |].
    + intros Hin. by destruct (Hd _ Hin).
    + intros Hin. by destruct (Hd _ Hin).
Qed.

Lemma parse_peer_id_keeps (self self' : obj) (a : string) :
  MessageEvent._parse_peer_id self = Ok self' →
  a ∉ classification_attrs → self' !! a = self !! a.
Proof.
  unfold MessageEvent._parse_peer_id. intros H Ha.
  apply bind_Ok in H as (peer_id & _ & H). apply bind_Ok in H as (neg & _ & H).
  destruct neg.
  { apply bind_Ok in H as (g & _ & H). apply Ok_inj in H as <-. keeps Ha. }
  apply bind_Ok in H as (big & _ & H). destruct big.
  - apply bind_Ok in H as (c & _ & H). apply bind_Ok in H as (ev & _ & H).
    apply bind_Ok in H as (has & _ & H). destruct has.
    + apply bind_Ok in H as (from & _ & H). apply bind_Ok in H as (u & _ & H).
      apply Ok_inj in H as <-. keeps Ha.
    + apply Ok_inj in H as <-. keeps Ha.
  - apply Ok_inj in H as <-. keeps Ha.
Qed.

(** What [_parse_peer_id] leaves for a peer id [p]: the flag of its class,
    no other flag, and the id of that class. *)
Definition classified (self : obj) (p : Z) : Prop :=
  if p <? 0 then
    self !! "from_group" = Some (PBool true) ∧ self !! "from_chat" = Some (PBool false) ∧
    self !! "from_user" = Some (PBool false) ∧ self !! "group_id" = Some (PInt (Z.abs p))
  else if p >? CHAT_START_ID then
    self !! "from_group" = Some (PBool false) ∧ self !! "from_chat" = Some (PBool true) ∧
    self !! "from_user" = Some (PBool false) ∧
    self !! "chat_id" = Some (PInt (p - CHAT_START_ID))
  else
    self !! "from_group" = Some (PBool false) ∧ self !! "from_chat" = Some (PBool false) ∧
    self !! "from_user" = Some (PBool true) ∧ self !! "user_id" = Some (PInt p).

Lemma parse_peer_id_classified (self self' : obj) (p : Z) :
  self !! "peer_id" = Some (PInt p) → unclassified self →
  MessageEvent._parse_peer_id self = Ok self' →
  classified self' p.
Proof.
  intros Hp (Hg & Hc & Hu) H. unfold classified.
  destruct (Z.ltb_spec p 0) as [Hneg|Hnonneg].
  { rewrite (parse_peer_id_group self p Hp Hneg) in H. apply Ok_inj in H as <-.
    repeat split; attrs. }
  destruct (Z.gtb_spec p CHAT_START_ID) as [Hbig|Hsmall].
  - unfold MessageEvent._parse_peer_id, getattr in H. rewrite Hp in H.
    cbn [mbind result_bind py_lt py_gt py_sub int_view] in H.
    rewrite (proj2 (Z.ltb_ge p 0)) in H by done.
    cbn [mbind result_bind] in H. rewrite (proj2 (Z.gtb_gt p _)) in H by lia.
    cbn [mbind result_bind] in H.
    apply bind_Ok in H as (ev & _ & H). apply bind_Ok in H as (has & _ & H).
    destruct has.
    + apply bind_Ok in H as (from & _ & H). apply bind_Ok in H as (u & _ & H).
      apply Ok_inj in H as <-. repeat split; attrs.
    + apply Ok_inj in H as <-. repeat split; attrs.
  - rewrite (parse_peer_id_user self p Hp) in H by lia. apply Ok_inj in H as <-.
    repeat split; attrs.
Qed.

Lemma classified_classes (self : obj) (p : Z) :
  classified self p →
  (p < 0 → peer_classes self = ["from_group"]
           ∧ self !! "group_id" = Some (PInt (Z.abs p)))
  ∧ (0 ≤ p ≤ CHAT_START_ID → peer_classes self = ["from_user"]
                              ∧ self !! "user_id" = Some (PInt p))
  ∧ (p > CHAT_START_ID → peer_classes self = ["from_chat"]
                         ∧ self !! "chat_id" = Some (PInt (p - CHAT_START_ID))).
Proof.
  unfold classified, peer_classes, flag_set. rewrite !filter_cons, filter_nil.
  destruct (Z.ltb_spec p 0) as [Hneg|Hnonneg].
  { intros (-> & -> & -> & ->).
    split; [|split]; intros Hr; unfold CHAT_START_ID in *; (done || lia). }
  destruct (Z.gtb_spec p CHAT_START_ID) as [Hbig|Hsmall].
  - intros (-> & -> & -> & ->).
    split; [|split]; intros Hr; unfold CHAT_START_ID in *; (done || lia).
  - intros (-> & -> & -> & ->).
    split; [|split]; intros Hr; unfold CHAT_START_ID in *; (done || lia).
Qed.

Lemma peer_stage_Ok (code : Z) (s1 s2 : obj) :
  s1 !! "type" = Some (PEnum EVkEventType code) → code ∈ PARSE_PEER_ID_EVENTS →
  peer_stage s1 = Ok s2 →
  MessageEvent._parse_peer_id s1 = Ok s2.
Proof.
  intros Htype Hcode H. unfold peer_stage, getattr in H. rewrite Htype in H.
  cbn [mbind result_bind] in H.
  assert (in_ints (PEnum EVkEventType code) PARSE_PEER_ID_EVENTS = true) as Hin.
  { unfold in_ints. cbn [int_view]. apply existsb_exists. exists code.
    split; [by apply list_elem_of_In|apply Z.eqb_refl]. }
  rewrite Hin in H. by apply call_Ok in H as [_ H].
Qed.

Lemma peer_stage_keeps (s1 s2 : obj) (a : string) :
  peer_stage s1 = Ok s2 → a ∉ classification_attrs → s2 !! a = s1 !! a.
Proof.
  unfold peer_stage. intros H Ha. apply bind_Ok in H as (t & _ & H).
  destruct (in_ints t _); [|by apply Ok_inj in H as <-].
  apply call_Ok in H as [_ H]. by eapply parse_peer_id_keeps.
Qed.

Lemma parse_message_flags_keeps (self self' : obj) (a : string) :
  a ≠ "message_flags" →
  MessageEvent._parse_message_flags self = Ok self' → self' !! a = self !! a.
Proof.
  intros Ha. unfold MessageEvent._parse_message_flags. intros H. inv_bind H.
  destruct (int_view a0); [|done]. apply Ok_inj in H as <-. by apply lookup_setattr_ne.
Qed.

Lemma flags_stage_keeps (s2 s3 : obj) (a : string) :
  flags_stage s2 = Ok s3 → a ≠ "message_flags" → s3 !! a = s2 !! a.
Proof.
  unfold flags_stage. intros H Ha. apply bind_Ok in H as (t & _ & H).
  destruct (in_ints t _); [|by apply Ok_inj in H as <-].
  apply call_Ok in H as [_ H]. by eapply parse_message_flags_keeps.
Qed.

Lemma parse_message_keeps (self self' : obj) (a : string) :
  a ∉ ["from_me"; "to_me"; "text"; "message"] →
  MessageEvent._parse_message self = Ok self' → self' !! a = self !! a.
Proof.
  intros Ha. unfold MessageEvent._parse_message. intros H.
  inv_bind H. inv_bind H. repeat inv_bind H. apply Ok_inj in H as <-.
  rewrite !lookup_setattr_ne by (intros <-; apply Ha; compute_done).
  destruct (is_member a0 _ _); [|by apply Ok_inj in Ha1 as <-].
  repeat inv_bind Ha1.
  destruct (negb _); apply Ok_inj in Ha1 as <-;
    apply lookup_setattr_ne; intros <-; apply Ha; compute_done.
Qed.

Lemma parse_chat_info_keeps (self self' : obj) (a : string) :
  a ≠ "info" →
  MessageEvent._parse_chat_info self = Ok self' → self' !! a = self !! a.
Proof.
  intros Ha. unfold MessageEvent._parse_chat_info, MessageEvent.wrap_info. intros H.
  apply bind_Ok in H as (tid & _ & H).
  repeat (match type of H with
          | (if ?c then _ else _) = _ => destruct c
          end;
          [apply bind_Ok in H as (info & _ & H); apply Ok_inj in H as <-;
           by apply lookup_setattr_ne|]).
  by apply Ok_inj in H as <-.
Qed.

Lemma parse_peer_flags_keeps (self self' : obj) (a : string) :
  a ≠ "peer_flags" →
  MessageEvent._parse_peer_flags self = Ok self' → self' !! a = self !! a.
Proof.
  intros Ha. unfold MessageEvent._parse_peer_flags. intros H. inv_bind H.
  destruct (int_view a0); [|done]. apply Ok_inj in H as <-. by apply lookup_setattr_ne.
Qed.

Ltac eval_test_in H :=
  repeat match type of H with
  | context [in_ints (PEnum ?c ?z) ?l] =>
      let b := eval vm_compute in (in_ints (PEnum c z) l) in
      change (in_ints (PEnum c z) l) with b in H
  | context [is_member (PEnum ?c ?z) ?c' ?m] =>
      let b := eval vm_compute in (is_member (PEnum c z) c' m) in
      change (is_member (PEnum c z) c' m) with b in H
  end; cbv iota in H.

(** The attributes the stage that depends on the type may write for an
    update that carries a peer id. *)
Definition type_stage_attrs : list string :=
  ["info"; "update_type"; "peer_flags"; "from_me"; "to_me"; "text"; "message"; "user_id"].

Lemma type_stage_keeps (code : Z) (s3 s4 : obj) :
  s3 !! "type" = Some (PEnum EVkEventType code) → code ∈ PARSE_PEER_ID_EVENTS →
  type_stage s3 = Ok s4 →
  (∀ a, a ∉ type_stage_attrs → s4 !! a = s3 !! a)
  ∧ (∀ z, s3 !! "user_id" = Some (PInt z) → s4 !! "user_id" = Some (PInt z)).
Proof.
  intros Htype Hcode H. unfold type_stage, getattr in H. rewrite Htype in H.
  cbn [mbind result_bind] in H.
  assert (code ∈ [1; 2; 3; 4; 5; 6; 7; 10; 11; 12; 13; 14; 52; 64]) as Hc by done.
  clear Hcode Htype.
  repeat (apply elem_of_cons in Hc as [->|Hc];
          [eval_test_in H;
           first
             [ (* nothing more is done *)
               apply Ok_inj in H as <-; by split
             | (* a message *)
               apply call_Ok in H as [_ H]; split;
               [ intros a Ha; apply (parse_message_keeps s3 s4 a); [|done];
                 intros Hin; apply Ha;
                 repeat (apply elem_of_cons in Hin as [->|Hin]; [compute_done|]);
                 by apply elem_of_nil in Hin
               | intros z Hz; by rewrite (parse_message_keeps s3 s4 "user_id")
                                    by (done || compute_done) ]
             | (* peer flags *)
               apply call_Ok in H as [_ H]; split;
               [ intros a Ha; apply (parse_peer_flags_keeps s3 s4 a); [|done];
                 intros ->; apply Ha; compute_done
               | intros z Hz; by rewrite (parse_peer_flags_keeps s3 s4 "user_id") by done ]
             | idtac ]
          |]).
  - (* a chat update *)
    apply bind_Ok in H as (s & Hs & H). apply call_Ok in Hs as [_ Hs].
    apply bind_Ok in H as (tid & _ & H). apply bind_Ok in H as (ut & _ & H).
    apply Ok_inj in H as <-. split.
    + intros a Ha. rewrite lookup_setattr_ne by (intros <-; apply Ha; compute_done).
      apply (parse_chat_info_keeps s3 s a); [|done]. intros ->. apply Ha. compute_done.
    + intros z Hz. rewrite lookup_setattr_ne by done.
      by rewrite (parse_chat_info_keeps s3 s "user_id") by done.
  - (* recording a voice message *)
    apply bind_Ok in H as (u & Hu & H). apply getattr_Ok in Hu.
    destruct (is_list u) eqn:Hlist.
    + apply bind_Ok in H as (u0 & _ & H). apply Ok_inj in H as <-. split.
      * intros a Ha. apply lookup_setattr_ne. intros <-. apply Ha. compute_done.
      * intros z Hz. rewrite Hz in Hu. by apply (inj Some) in Hu as <-.
    + apply Ok_inj in H as <-. by split.
  - by apply elem_of_nil in Hc.
Qed.

Lemma date_stage_keeps (s4 e : obj) (a : string) :
  date_stage s4 = Ok e → a ≠ "datetime" → e !! a = s4 !! a.
Proof.
  unfold date_stage. intros H Ha. apply bind_Ok in H as (ts & _ & H).
  destruct (truthy ts); [|by apply Ok_inj in H as <-].
  apply bind_Ok in H as (dt & _ & H). apply Ok_inj in H as <-.
  by apply lookup_setattr_ne.
Qed.


(** No kind of update stores a field under one of these names. *)
Definition decoder_attrs : list string :=
  ["type"; "raw"; "from_group"; "from_chat"; "from_user"; "from_me"; "to_me"; "group_id"].

Lemma attrs_plain (code : Z) (attrs : list string) :
  attrs_of code = Some attrs →
  code ∈ VkEventType.members ∧ ∀ a, a ∈ decoder_attrs → a ∉ attrs.
Proof.
  unfold attrs_of, EVENT_ATTRS_MAPPING. cbn [find fst snd].
  repeat (match goal with
          | |- context [Z.eqb ?c code] => destruct (Z.eqb_spec c code) as [<-|_]
          end;
          [intros [= <-]; split; [compute_done|];
           intros a Ha; unfold decoder_attrs in Ha;
           repeat (apply elem_of_cons in Ha as [->|Ha]; [compute_done|]);
           by apply elem_of_nil in Ha|]).
  done.
Qed.

(** The stages of a decoding that succeeds, for an update that carries a
    peer id and whose extra values leave [reserved] alone. *)
Lemma peer_event_stages (reserved : list string) (code : Z) (rest : list pyval)
    (attrs : list string) (e : obj) :
  code ∈ PARSE_PEER_ID_EVENTS →
  attrs_of code = Some attrs →
  plain_extra reserved (default PNone (dict_get "extra_values" (zip attrs rest))) →
  "type" ∈ reserved →
  MessageEvent.init (PInt code :: rest) = Ok e →
  ∃ s0 s1 s2 s3 s4 : obj,
    (∀ a, s0 !! a
          = match dict_get a (zip attrs rest) with
            | Some v => Some v
            | None => setattr "type" (PEnum EVkEventType code)
                        (MessageEvent.fresh (PList (PInt code :: rest))) !! a
            end)
    ∧ (∀ a, a ∈ reserved → s1 !! a = s0 !! a)
    ∧ MessageEvent._parse_peer_id s1 = Ok s2
    ∧ (∀ a, a ≠ "message_flags" → s3 !! a = s2 !! a)
    ∧ s3 !! "type" = Some (PEnum EVkEventType code)
    ∧ type_stage s3 = Ok s4
    ∧ (∀ a, a ≠ "datetime" → e !! a = s4 !! a).
Proof.
  intros Hcode Hattrs Hplain Htype Hinit.
  destruct (attrs_plain code attrs Hattrs) as [Hmem Hfree].
  rewrite (init_known code rest attrs) in Hinit by done.
  match type of Hinit with decode_fields ?s = _ => set (s0 := s) in Hinit end.
  assert (∀ a, s0 !! a
               = match dict_get a (zip attrs rest) with
                 | Some v => Some v
                 | None => setattr "type" (PEnum EVkEventType code)
                             (MessageEvent.fresh (PList (PInt code :: rest))) !! a
                 end) as Hs0.
  { intros a. subst s0. by apply (positional code). }
  clearbody s0.
  apply decode_fields_Ok in Hinit as (s1 & s2 & s3 & s4 & H1 & H2 & H3 & H4 & H5).
  assert (s0 !! "extra_values"
          = Some (default PNone (dict_get "extra_values" (zip attrs rest)))) as Hev.
  { rewrite Hs0. by destruct (dict_get "extra_values" (zip attrs rest)). }
  assert (s0 !! "type" = Some (PEnum EVkEventType code)) as Ht0.
  { rewrite Hs0, not_positional by (apply Hfree; compute_done). apply lookup_setattr_eq. }
  pose proof (λ a, spray_stage_keeps reserved s0 s1 _ a Hev Hplain H1) as Hs1.
  assert (s1 !! "type" = Some (PEnum EVkEventType code)) as Ht1
    by by rewrite Hs1.
  pose proof (peer_stage_Ok code s1 s2 Ht1 Hcode H2) as Hparse.
  exists s0, s1, s2, s3, s4. split; [done|]. split; [done|]. split; [done|].
  split; [intros a Ha; by apply flags_stage_keeps|].
  split; [|split; [done|intros a Ha; by apply date_stage_keeps]].
  rewrite (flags_stage_keeps s2 s3) by done.
  by rewrite (parse_peer_id_keeps s1 s2) by (done || compute_done).
Qed.

Lemma classified_kept (s2 e : obj) (p : Z) :
  classified s2 p →
  (∀ a, a ∈ ["from_group"; "from_chat"; "from_user"; "group_id"; "chat_id"] →
        e !! a = s2 !! a) →
  (∀ z, s2 !! "user_id" = Some (PInt z) → e !! "user_id" = Some (PInt z)) →
  classified e p.
Proof.
  unfold classified. intros H Heq Hu. rewrite !Heq by compute_done.
  destruct (p <? 0); [done|]. destruct (p >? CHAT_START_ID); [done|].
  destruct H as (? & ? & ? & ?). auto.
Qed.

(** The attributes the classification of a peer depends on. *)
Definition classification_inputs : list string :=
  ["from_group"; "from_chat"; "from_user"; "peer_id"; "type"].

(** An entry of a dictionary, each key of which occurs once, is what the
    loop leaves in the attribute of that name. *)
Lemma assign_items_lookup (d : pydict) (self self' : obj) (a : string) (v : pyval) :
  MessageEvent.assign_items d self = Ok self' →
  NoDup d.*1 → "__dict__" ∉ d.*1 →
  dict_get a d = Some v → self' !! a = Some v.
Proof.
  revert self. induction d as [|[k w] d IH]; intros self H Hnd Hd Hget; [done|].
  cbn [fmap list_fmap fst] in Hnd. apply NoDup_cons in Hnd as [Hk Hnd].
  cbn [MessageEvent.assign_items] in H. apply bind_Ok in H as (s1 & Hset & H).
  cbn [dict_get] in Hget. destruct (String.eqb k a) eqn:Heq.
  - apply String.eqb_eq in Heq as ->. apply (inj Some) in Hget as ->.
    apply call_Ok in Hset as [_ Hset]. unfold py_setattr in Hset.
    destruct (String.eqb a "__class__"); [done|].
    destruct (String.eqb a "__dict__") eqn:Ha.
    { apply String.eqb_eq in Ha as ->. exfalso. apply Hd. by left. }
    destruct (String.eqb a "__weakref__"); [done|]. apply Ok_inj in Hset as <-.
    rewrite (assign_items_keeps d _ self' a H); [apply lookup_setattr_eq| |done].
    intros ?. apply Hd. by right.
  - apply (IH s1); [done|done| |done]. intros ?. apply Hd. by right.
Qed.

(** The names a dictionary of notification settings must leave alone for
    the classification of its peer. *)
Definition settings_inputs : list string :=
  ["from_group"; "from_chat"; "from_user"; "__dict__"].

(** C4.  For every event the array decoder returns for an update whose kind
    carries a peer id, with an integer peer id [p]: [p < 0] gives a group
    with group id [|p|]; otherwise [p > CHAT_START_ID] gives a chat with
    chat id [p - CHAT_START_ID]; otherwise a user with user id [p].
    Exactly one of the three classification flags is set in each case.
    The peer id is a positional field for the fourteen kinds of
    [PARSE_PEER_ID_EVENTS], where the extra values must leave the flags,
    the peer id and the type alone, and an entry of the dictionary of a
    notification-settings update, which must not name a flag. *)
Theorem peer_classification :
  (∀ (code p : Z) (rest : list pyval) (e : obj),
     code ∈ PARSE_PEER_ID_EVENTS →
     field code rest "peer_id" = Some (PInt p) →
     plain_extra classification_inputs (default PNone (field code rest "extra_values")) →
     MessageEvent.init (PInt code :: rest) = Ok e →
     (p < 0 → peer_classes e = ["from_group"]
              ∧ e !! "group_id" = Some (PInt (Z.abs p)))
     ∧ (0 ≤ p ≤ CHAT_START_ID → peer_classes e = ["from_user"]
                                 ∧ e !! "user_id" = Some (PInt p))
     ∧ (p > CHAT_START_ID → peer_classes e = ["from_chat"]
                            ∧ e !! "chat_id" = Some (PInt (p - CHAT_START_ID)))) ∧
  (∀ (values : pydict) (p : Z) (more : list pyval) (e : obj),
     NoDup values.*1 →
     dict_get "peer_id" values = Some (PInt p) →
     (∀ k, k ∈ values.*1 → k ∉ settings_inputs) →
     MessageEvent.init (PInt VkEventType.NOTIFICATION_SETTINGS_UPDATE
                          :: PDict values :: more) = Ok e →
     (p < 0 → peer_classes e = ["from_group"]
              ∧ e !! "group_id" = Some (PInt (Z.abs p)))
     ∧ (0 ≤ p ≤ CHAT_START_ID → peer_classes e = ["from_user"]
                                 ∧ e !! "user_id" = Some (PInt p))
     ∧ (p > CHAT_START_ID → peer_classes e = ["from_chat"]
                            ∧ e !! "chat_id" = Some (PInt (p - CHAT_START_ID)))).
Proof.
  split.
  - intros code p rest e Hcode Hpeer Hplain Hinit. unfold field in Hpeer, Hplain.
    destruct (attrs_of code) as [attrs|] eqn:Hattrs; [|done].
    cbn [mbind option_bind] in Hpeer, Hplain.
    destruct (attrs_plain code attrs Hattrs) as [_ Hfree].
    destruct (peer_event_stages classification_inputs code rest attrs e)
      as (s0 & s1 & s2 & s3 & s4 & Hs0 & Hs1 & Hparse & Hs3 & Ht3 & H4 & He);
      [done|done|done|compute_done|done|].
    destruct (type_stage_keeps code s3 s4 Ht3 Hcode H4) as [Hs4 Hu4].
    apply classified_classes. apply (classified_kept s2).
    + apply (parse_peer_id_classified s1); [|unfold unclassified|done].
      * by rewrite Hs1, Hs0, Hpeer by compute_done.
      * rewrite !Hs1, !Hs0, !not_positional by (compute_done || apply Hfree; compute_done).
        by repeat split.
    + intros a Ha. rewrite He, Hs4, Hs3; [done|..];
        repeat (apply elem_of_cons in Ha as [->|Ha]; [compute_done|]);
        by apply elem_of_nil in Ha.
    + intros z Hz. rewrite He by done. apply Hu4. by rewrite Hs3.
  - intros values p more e Hnd Hpeer Hkeys Hinit.
    rewrite (init_known _ _ ["values"]) in Hinit by (compute_done || reflexivity).
    cbn [MessageEvent._list_to_attr zip zip_with set_all fold_left fst snd] in Hinit.
    unfold decode_fields in Hinit. revert Hinit. run. intros Hinit.
    apply bind_Ok in Hinit as (s4 & H4 & H5).
    apply bind_Ok in H4 as (s1 & Hspray & Hparse).
    apply call_Ok in Hparse as [_ Hparse]. cbn [MessageEvent._dict_to_attr] in Hspray.
    assert ("__dict__" ∉ values.*1) as Hd.
    { intros Hin. apply (Hkeys _ Hin). compute_done. }
    apply classified_classes. apply (classified_kept s4).
    + apply (parse_peer_id_classified s1); [|unfold unclassified|done].
      * by apply (assign_items_lookup values _ s1 _ _ Hspray).
      * rewrite !(assign_items_keeps values _ s1 _ Hspray)
          by (done || (intros Hin; apply (Hkeys _ Hin); compute_done)).
        by repeat split.
    + intros a Ha. apply (date_stage_keeps s4 e a H5). intros ->.
      revert Ha. compute_done.
    + intros z Hz. by rewrite (date_stage_keeps s4 e "user_id" H5).
Qed.

Definition chat_message : list pyval :=
  [ PInt 4; PInt 1; PInt 0; PInt 2000000007; PInt 1700000000; PStr "hi";
    PDict [("from", PStr "55"); ("title", PStr " ... ")] ].

Definition settings_update : list pyval :=
  [ PInt 114;
    PDict [("peer_id", PInt (-5)); ("sound", PInt 1); ("disabled_until", PInt 0)] ].

Lemma peer_classification_witness :
  (∃ e, MessageEvent.init chat_message = Ok e
        ∧ peer_classes e = ["from_chat"] ∧ e !! "chat_id" = Some (PInt 7))
  ∧ (∃ e, MessageEvent.init settings_update = Ok e
          ∧ peer_classes e = ["from_group"] ∧ e !! "group_id" = Some (PInt 5)).
Proof.
  split.
  - eexists. split; [reflexivity|].
    refine (proj2 (proj2 (proj1 peer_classification 4 2000000007 (tail chat_message) _
                            _ eq_refl _ eq_refl)) _).
    + compute_done.
    + right. eexists. split; [reflexivity|]. intros k Hk.
      repeat (apply elem_of_cons in Hk as [->|Hk]; [split; [done|compute_done]|]).
      by apply elem_of_nil in Hk.
    + done.
  - eexists. split; [reflexivity|].
    refine (proj1 (proj2 peer_classification
                     [("peer_id", PInt (-5)); ("sound", PInt 1); ("disabled_until", PInt 0)]
                     (-5) [] _ _ eq_refl _ eq_refl) _).
    + compute_done.
    + intros k Hk.
      repeat (apply elem_of_cons in Hk as [->|Hk]; [compute_done|]).
      by apply elem_of_nil in Hk.
    + done.
Defined.

(** Extra values can name a classification flag.  The flag is then set
    before the peer id is looked at, and a second flag is set for the
    class of the peer id: here [from_user] and [from_group]. *)
Lemma peer_classification_shadowed :
  peer_classes <$>
    MessageEvent.init [ PInt 4; PInt 1; PInt 0; PInt (-5); PInt 1700000000; PStr "hi";
                        PDict [("from_user", PBool true)] ]
  = Ok ["from_group"; "from_user"].
Proof. reflexivity. Qed.

(** The same for the dictionary of a notification-settings update. *)
Example settings_shadowed :
  peer_classes <$>
    MessageEvent.init [ PInt 114; PDict [("peer_id", PInt 7); ("from_chat", PBool true)] ]
  = Ok ["from_chat"; "from_user"].
Proof. reflexivity. Qed.

(** The three outcomes on concrete array events. *)
Example classify_group :
  peer_classes <$> MessageEvent.init [PInt 6; PInt (-15); PInt 1] = Ok ["from_group"].
Proof. reflexivity. Qed.

Example classify_chat :
  peer_classes <$> MessageEvent.init [PInt 6; PInt 2000000001; PInt 1] = Ok ["from_chat"].
Proof. reflexivity. Qed.

Example classify_user :
  peer_classes <$> MessageEvent.init [PInt 6; PInt 2000000000; PInt 1] = Ok ["from_user"].
Proof. reflexivity. Qed.

(** ** Unknown type codes *)

(** The leading element is a type code the enumeration knows. *)
Definition recognized (c : pyval) : Prop :=
  ∃ z, int_view c = Some z ∧ z ∈ VkEventType.members.

Lemma enum_call_unrecognized (c : pyval) :
  ¬ recognized c →
  enum_call EVkEventType VkEventType.members c = Raise ValueError.
Proof.
  intros Hc. unfold enum_call.
  destruct (int_view c) as [z|] eqn:Hz; [|done].
  destruct (existsb (Z.eqb z) VkEventType.members) eqn:Hex; [|done].
  exfalso. apply Hc. exists z. split; [done|].
  apply existsb_exists in Hex as (m & Hm & ->%Z.eqb_eq). by apply list_elem_of_In.
Qed.

Lemma in_ints_members (c : pyval) (l : list Z) :
  l ⊆ VkEventType.members → ¬ recognized c → in_ints c l = false.
Proof.
  intros Hl Hc. unfold in_ints.
  destruct (int_view c) as [z|] eqn:Hz; [|done].
  apply not_true_is_false. intros Hex. apply Hc. exists z. split; [done|].
  apply existsb_exists in Hex as (m & Hm & ->%Z.eqb_eq).
  by apply Hl, list_elem_of_In.
Qed.

Lemma is_member_unrecognized (c : pyval) (m : Z) :
  m ∈ VkEventType.members → ¬ recognized c → is_member c EVkEventType m = false.
Proof.
  intros Hm Hc. destruct c; try done. simpl.
  apply not_true_is_false. intros [_ ->%Z.eqb_eq]%andb_prop.
  apply Hc. by exists m.
Qed.

(** C6.  An array update whose leading element [c] is no known type code
    is decoded without an exception: the event is the one [__init__]
    starts from, with [type] set to [c] as it is.  So [raw] is the input
    and no field has been assigned from a position. *)
Theorem unknown_type_code_kept (c : pyval) (rest : list pyval) :
  ¬ recognized c →
  MessageEvent.init (c :: rest)
    = Ok (setattr "type" c (MessageEvent.fresh (PList (c :: rest))))
  ∧ setattr "type" c (MessageEvent.fresh (PList (c :: rest))) !! "raw"
      = Some (PList (c :: rest))
  ∧ ∀ a v, (a, v) ∈ MessageEvent.defaults →
      setattr "type" c (MessageEvent.fresh (PList (c :: rest))) !! a = Some v.
Proof.
  intros Hc. split; [|split].
  - unfold MessageEvent.init. cbn [mbind result_bind].
    rewrite (enum_call_unrecognized c Hc). cbn [except_ValueError mbind result_bind].
    set (self := setattr "type" c (MessageEvent.fresh (PList (c :: rest)))).
    assert (getattr self "extra_values" = Ok PNone) as -> by reflexivity.
    assert (getattr self "type" = Ok c) as Htype by reflexivity.
    cbn [truthy mbind result_bind]. rewrite Htype. cbn [mbind result_bind].
    rewrite (in_ints_members c) by (done || compute_done).
    cbn [mbind result_bind]. rewrite Htype. cbn [mbind result_bind].
    rewrite (in_ints_members c) by (done || compute_done).
    cbn [mbind result_bind]. rewrite Htype. cbn [mbind result_bind].
    rewrite !(is_member_unrecognized c) by (done || compute_done).
    rewrite !(in_ints_members c) by (done || compute_done).
    reflexivity.
  - reflexivity.
  - intros a v Hin. unfold MessageEvent.defaults in Hin.
    repeat (apply elem_of_cons in Hin as [[= -> ->]|Hin]; [reflexivity|]).
    by apply elem_of_nil in Hin.
Qed.

Lemma unknown_type_code_kept_witness :
  MessageEvent.init [PInt 999; PStr "x"; PInt 3]
    = Ok (setattr "type" (PInt 999) (MessageEvent.fresh (PList [PInt 999; PStr "x"; PInt 3]))).
Proof.
  apply (unknown_type_code_kept (PInt 999) [PStr "x"; PInt 3]).
  intros (z & [= <-] & Hz). revert Hz. compute_done.
Defined.

(** ** Direction flags *)

(** What the first part of the webhook constructor leaves behind: the
    flags are still the initial ones, and [peer_id] has been read. *)
Lemma read_fields_flags (raw : pydict) (self : obj) :
  BotMessageEvent.read_fields raw = Ok self →
  unclassified self ∧
  self !! "from_me" = Some (PBool false) ∧
  self !! "group_id" = Some (default PNone (dict_get "group_id" raw)) ∧
  is_Some (self !! "peer_id") ∧ is_Some (self !! "from_id") ∧
  is_Some (self !! "attachments").
Proof.
  unfold BotMessageEvent.read_fields. intros H.
  repeat inv_bind H. injection H as <-.
  match goal with
  | Hif : (if truthy ?t then _ else _) = Ok _ |- _ =>
      destruct (truthy t); [inv_bind Hif|]; apply Ok_inj in Hif as <-
  end;
  unfold unclassified; repeat split; attrs.
Qed.

Lemma peer_flags_keeps (self self' : obj) (a : string) :
  a ∉ ["from_chat"; "from_user"; "from_group"] →
  BotMessageEvent.peer_flags self = Ok self' → self' !! a = self !! a.
Proof.
  intros Ha. unfold BotMessageEvent.peer_flags. intros H.
  assert (∀ f v, f ∈ ["from_chat"; "from_user"; "from_group"] →
            setattr f v self !! a = self !! a) as Hset.
  { intros f v Hf. apply lookup_setattr_ne. by intros ->. }
  inv_bind H. destruct (negb (is_none a0)); [|by injection H as <-].
  inv_bind H. destruct a1; [injection H as <-; apply Hset; set_solver|].
  inv_bind H. destruct a1; [injection H as <-; apply Hset; set_solver|].
  inv_bind H. destruct a1; injection H as <-; [apply Hset; set_solver|done].
Qed.

(** The sender is the group itself: [from_id == -int(group_id)]. *)
Definition sent_by_group (group_id from_id : pyval) : Prop :=
  group_id ≠ PNone ∧ from_id ≠ PNone ∧
  ∃ g, py_int group_id = Ok g ∧ eq_int from_id (- g) = true.

Lemma is_none_false (v : pyval) : is_none v = false ↔ v ≠ PNone.
Proof. by destruct v. Qed.

Lemma direction_flags_webhook (self self' : obj) (group_id from_id : pyval) :
  self !! "group_id" = Some group_id →
  self !! "from_id" = Some from_id →
  self !! "from_me" = Some (PBool false) →
  BotMessageEvent.direction self = Ok self' →
  self' !! "to_me" = Some (PBool true) ∧
  ∃ b : bool, self' !! "from_me" = Some (PBool b) ∧
              (b = true ↔ sent_by_group group_id from_id).
Proof.
  intros Hg Hf Hme. unfold BotMessageEvent.direction, getattr. rewrite Hg, Hf. simpl.
  intros H. inv_bind H. injection H as <-. split; [apply lookup_setattr_eq|].
  rewrite lookup_setattr_ne by done. unfold sent_by_group.
  destruct (is_none group_id) eqn:Hgn; simpl in Ha.
  { injection Ha as <-. exists false. split; [done|]. split; [done|].
    intros (Hn & _). apply is_none_false in Hn. congruence. }
  destruct (is_none from_id) eqn:Hfn; simpl in Ha.
  { injection Ha as <-. exists false. split; [done|]. split; [done|].
    intros (_ & Hn & _). apply is_none_false in Hn. congruence. }
  apply is_none_false in Hgn, Hfn.
  inv_bind Ha. destruct (eq_int from_id (- a0)) eqn:Heq; injection Ha as <-.
  - exists true. split; [apply lookup_setattr_eq|]. split; [|done].
    intros _. repeat split; try done. by exists a0.
  - exists false. split; [done|]. split; [done|].
    intros (_ & _ & g & Hg' & Hgeq). congruence.
Qed.

Lemma direction_keeps (self self' : obj) (a : string) :
  a ≠ "from_me" → a ≠ "to_me" →
  BotMessageEvent.direction self = Ok self' → self' !! a = self !! a.
Proof.
  intros Hme Hto. unfold BotMessageEvent.direction. intros H.
  inv_bind H. inv_bind H. injection H as <-. rewrite lookup_setattr_ne by done.
  destruct (_ && _); [|by injection Ha0 as <-].
  inv_bind Ha0. destruct (eq_int _ _); injection Ha0 as <-; [|done].
  by apply lookup_setattr_ne.
Qed.

Lemma collect_ids_keeps (self self' : obj) (a : string) :
  a ≠ "attachments_ids" →
  BotMessageEvent.collect_ids self = Ok self' → self' !! a = self !! a.
Proof.
  intros Ha. unfold BotMessageEvent.collect_ids. intros H.
  repeat inv_bind H. injection H as <-. by apply lookup_setattr_ne.
Qed.

Lemma outbox_bit (f : Z) :
  negb (Z.land f (VkMessageFlag.value VkMessageFlag.OUTBOX) =? 0) = Z.testbit f 1.
Proof.
  change (VkMessageFlag.value VkMessageFlag.OUTBOX) with (2 ^ 1).
  destruct (Z.testbit f 1) eqn:Hb.
  - apply (land_pow2_testbit f 1) in Hb; [|done].
    by apply negb_true_iff, Z.eqb_neq.
  - apply negb_false_iff, Z.eqb_eq.
    destruct (land_pow2_cases f 1) as [H0|H1]; [done|done|].
    assert (Z.land f (2 ^ 1) ≠ 0) as Hne by (rewrite H1; done).
    apply land_pow2_testbit in Hne; [congruence|done].
Qed.

(** The attributes the direction of a new message depends on. *)
Definition direction_inputs : list string := ["from_me"; "to_me"; "flags"; "type"].

Lemma parse_message_direction (self self' : obj) (f : Z) :
  self !! "type" = Some (PEnum EVkEventType VkEventType.MESSAGE_NEW) →
  self !! "flags" = Some (PInt f) →
  self !! "from_me" = Some (PBool false) →
  self !! "to_me" = Some (PBool false) →
  MessageEvent._parse_message self = Ok self' →
  self' !! "from_me" = Some (PBool (Z.testbit f 1)) ∧
  self' !! "to_me" = Some (PBool (negb (Z.testbit f 1))).
Proof.
  intros Htype Hflags Hme Hto.
  pose proof (outbox_bit f) as Hbit. revert Hbit.
  generalize (Z.testbit f 1). intros b Hbit.
  unfold MessageEvent._parse_message, getattr. rewrite Htype.
  cbn [mbind result_bind].
  change (is_member _ _ VkEventType.MESSAGE_NEW) with true. cbv iota.
  rewrite Hflags. cbn [mbind result_bind py_and int_view]. rewrite Hbit.
  destruct b; cbn [mbind result_bind negb]; intros H;
    apply bind_Ok in H as (t & _ & H); apply bind_Ok in H as (t' & _ & H);
    apply Ok_inj in H as <-; split; attrs.
Qed.

(** C8, as the code has it.  For a new-message event of the array decoder
    whose extra values leave the two flags, the flags value and the type
    alone, exactly one of [from_me] and [to_me] is set: [from_me] when the
    outbox bit of [flags] is set, [to_me] when it is clear.  The webhook
    decoder has no flags value: it sets [to_me] on every event, and
    [from_me] when the sender is the group itself, so both can be set
    there. *)
Theorem direction_flags :
  (∀ (rest : list pyval) (e : obj) (f : Z),
     field VkEventType.MESSAGE_NEW rest "flags" = Some (PInt f) →
     plain_extra direction_inputs
       (default PNone (field VkEventType.MESSAGE_NEW rest "extra_values")) →
     MessageEvent.init (PInt VkEventType.MESSAGE_NEW :: rest) = Ok e →
     e !! "from_me" = Some (PBool (Z.testbit f 1)) ∧
     e !! "to_me" = Some (PBool (negb (Z.testbit f 1)))) ∧
  (∀ (raw : pydict) (self : obj),
     BotMessageEvent.init raw = Ok self →
     ∃ (group_id from_id : pyval) (b : bool),
       self !! "group_id" = Some group_id ∧
       self !! "from_id" = Some from_id ∧
       self !! "to_me" = Some (PBool true) ∧
       self !! "from_me" = Some (PBool b) ∧
       (b = true ↔ sent_by_group group_id from_id)).
Proof.
  split.
  - intros rest e f Hflags Hplain Hinit.
    destruct (attrs_of VkEventType.MESSAGE_NEW) as [attrs|] eqn:Hattrs; [|done].
    unfold field in Hflags, Hplain. rewrite Hattrs in Hflags, Hplain.
    cbn [mbind option_bind] in Hflags, Hplain.
    destruct (attrs_plain _ attrs Hattrs) as [_ Hfree].
    destruct (peer_event_stages direction_inputs VkEventType.MESSAGE_NEW rest attrs e)
      as (s0 & s1 & s2 & s3 & s4 & Hs0 & Hs1 & Hparse & Hs3 & Ht3 & H4 & He);
      [compute_done|done|done|compute_done|done|].
    pose proof (λ a Ha, parse_peer_id_keeps s1 s2 a Hparse Ha) as Hs2.
    unfold type_stage, getattr in H4. rewrite Ht3 in H4. cbn [mbind result_bind] in H4.
    eval_test_in H4. apply call_Ok in H4 as [_ H4].
    rewrite !He by done.
    apply (parse_message_direction s3 s4 f); [done| | | |done].
    + by rewrite Hs3, Hs2, Hs1, Hs0, Hflags by (done || compute_done).
    + rewrite Hs3, Hs2, Hs1, Hs0, not_positional
        by (done || compute_done || apply Hfree; compute_done).
      reflexivity.
    + rewrite Hs3, Hs2, Hs1, Hs0, not_positional
        by (done || compute_done || apply Hfree; compute_done).
      reflexivity.
  - intros raw self H. unfold BotMessageEvent.init in H.
    inv_bind H. inv_bind H. inv_bind H.
    destruct (read_fields_flags _ _ Ha) as (_ & Hme & Hg & _ & [from_id Hf] & _).
    rewrite <- (peer_flags_keeps _ _ "from_me" ltac:(compute_done) Ha0) in Hme.
    rewrite <- (peer_flags_keeps _ _ "group_id" ltac:(compute_done) Ha0) in Hg.
    rewrite <- (peer_flags_keeps _ _ "from_id" ltac:(compute_done) Ha0) in Hf.
    destruct (direction_flags_webhook _ _ _ _ Hg Hf Hme Ha1) as (Hto & b & Hb & Hiff).
    exists (default PNone (dict_get "group_id" raw)), from_id, b.
    rewrite (collect_ids_keeps a1 self "group_id"), (collect_ids_keeps a1 self "from_id"),
      (collect_ids_keeps a1 self "to_me"), (collect_ids_keeps a1 self "from_me") by done.
    rewrite (direction_keeps a0 a1 "group_id"), (direction_keeps a0 a1 "from_id") by done.
    done.
Qed.

Definition callback_from_group : pydict :=
  [ ("group_id", PInt 5); ("type", PStr "message_new");
    ("object", PDict [("message", PDict [ ("id", PInt 9); ("peer_id", PInt 77);
                                          ("from_id", PInt (-5)); ("text", PStr "hi") ])]) ].

Definition outgoing_message : list pyval :=
  [ PInt 4; PInt 1; PInt 3; PInt 77; PInt 1700000000; PStr "a<br>b";
    PDict [("title", PStr " ... ")] ].

Lemma direction_flags_witness :
  ∃ e, MessageEvent.init outgoing_message = Ok e ∧
       e !! "from_me" = Some (PBool true) ∧ e !! "to_me" = Some (PBool false).
Proof.
  eexists. split; [reflexivity|].
  refine (proj1 direction_flags (tail outgoing_message) _ 3 eq_refl _ eq_refl).
  right. eexists. split; [reflexivity|]. intros k Hk.
  repeat (apply elem_of_cons in Hk as [->|Hk]; [split; [done|compute_done]|]).
  by apply elem_of_nil in Hk.
Defined.

(** A webhook message sent by the group itself has both flags set, so
    the two are not exclusive for every new-message event. *)
Lemma direction_flags_both_set :
  ∃ self, BotMessageEvent.init callback_from_group = Ok self ∧
          self !! "type" = Some (PStr "message_new") ∧
          self !! "from_me" = Some (PBool true) ∧
          self !! "to_me" = Some (PBool true).
Proof. eexists. split; [reflexivity|]. by repeat split. Qed.


(** In the array decoder, extra values that name a direction flag set it
    before the flags value is looked at: an incoming message then has
    both flags set. *)
Example array_direction_shadowed :
  (λ e, (e !! "from_me", e !! "to_me")) <$>
    MessageEvent.init [ PInt 4; PInt 1; PInt 0; PInt 7; PInt 1700000000; PStr "hi";
                        PDict [("from_me", PBool true)] ]
  = Ok (Some (PBool true), Some (PBool true)).
Proof. reflexivity. Qed.

Example array_outgoing :
  (λ e, (e !! "from_me", e !! "to_me")) <$>
    MessageEvent.init [PInt 4; PInt 1; PInt 2; PInt 77; PInt 1700000000; PStr "hi"]
  = Ok (Some (PBool true), Some (PBool false)).
Proof. reflexivity. Qed.

Example array_incoming :
  (λ e, (e !! "from_me", e !! "to_me")) <$>
    MessageEvent.init [PInt 4; PInt 1; PInt 1; PInt 77; PInt 1700000000; PStr "hi"]
  = Ok (Some (PBool false), Some (PBool true)).
Proof. reflexivity. Qed.

(** ** The two decoders side by side *)

(** A new-message update about peer [p], in the two shapes. *)
Definition array_message (p : Z) : list pyval :=
  [PInt 4; PInt 1; PInt 1; PInt p; PInt 1700000000; PStr "hi"].

Definition callback_message (p : Z) : pydict :=
  [ ("group_id", PInt 5); ("type", PStr "message_new");
    ("object", PDict [("message", PDict [ ("id", PInt 1); ("peer_id", PInt p);
                                          ("from_id", PInt 77); ("text", PStr "hi");
                                          ("date", PInt 1700000000) ])]) ].

(** C7 at its failing inputs.  At the threshold itself the array decoder
    classifies a user and the webhook decoder a chat; at peer id 0 the
    array decoder classifies a user and the webhook decoder nothing; and
    above the threshold the array decoder derives [chat_id] while the
    webhook decoder sets no such attribute. *)
Theorem decoders_disagree_at_threshold :
  peer_classes <$> MessageEvent.init (array_message CHAT_START_ID) = Ok ["from_user"] ∧
  peer_classes <$> BotMessageEvent.init (callback_message CHAT_START_ID) = Ok ["from_chat"] ∧
  peer_classes <$> MessageEvent.init (array_message 0) = Ok ["from_user"] ∧
  peer_classes <$> BotMessageEvent.init (callback_message 0) = Ok [] ∧
  (λ e, e !! "chat_id") <$> MessageEvent.init (array_message (CHAT_START_ID + 1))
    = Ok (Some (PInt 1)) ∧
  (λ e, e !! "chat_id") <$> BotMessageEvent.init (callback_message (CHAT_START_ID + 1))
    = Ok None.
Proof. repeat split; reflexivity. Qed.

(** Away from the two boundary values the flags agree. *)
Lemma peer_flags_agree (self : obj) (p : Z) :
  self !! "peer_id" = Some (PInt p) →
  unclassified self →
  from_readable self →
  p ≠ 0 → p ≠ CHAT_START_ID →
  peer_classes <$> BotMessageEvent.peer_flags self
  = peer_classes <$> MessageEvent._parse_peer_id self.
Proof.
  intros Hp (Hg & Hc & Hu) Hfrom H0 Hth.
  unfold BotMessageEvent.peer_flags, getattr. rewrite Hp.
  cbn [mbind result_bind is_none negb py_ge py_gt py_lt int_view].
  unfold CHAT_START_ID in *.
  destruct (decide (p < 0)) as [Hneg|Hnonneg].
  - rewrite (parse_peer_id_group self p Hp Hneg).
    rewrite Z.geb_leb, (proj2 (Z.leb_gt 2000000000 p)) by lia. cbn [mbind result_bind].
    rewrite Z.gtb_ltb, (proj2 (Z.ltb_ge 0 p)) by lia. cbn [mbind result_bind].
    rewrite (proj2 (Z.ltb_lt p 0)) by lia.
    cbn [fmap result_fmap]. f_equal. classes.
  - destruct (decide (p > 2000000000)) as [Hbig|Hsmall].
    + rewrite Z.geb_leb, (proj2 (Z.leb_le 2000000000 p)) by lia.
      destruct (parse_peer_id_chat self p Hp Hbig Hfrom) as [-> | (z & ->)];
        cbn [fmap result_fmap]; f_equal; classes.
    + rewrite (parse_peer_id_user self p Hp) by (unfold CHAT_START_ID; lia).
      rewrite Z.geb_leb, (proj2 (Z.leb_gt 2000000000 p)) by lia. cbn [mbind result_bind].
      rewrite Z.gtb_ltb, (proj2 (Z.ltb_lt 0 p)) by lia.
      cbn [fmap result_fmap]. f_equal. classes.
Qed.

(** ** The long-poll session *)

Section session.
Import LongPoll.

(** The session has an endpoint. *)
Definition established (s : t) : Prop := ∃ u, base_url s = Some u ∧ u ≠ "".

Lemma established_no_base_url (s : t) : established s → no_base_url s = false.
Proof.
  intros (u & Hu & Hne). unfold no_base_url. rewrite Hu.
  by apply String.eqb_neq.
Qed.

(** One activation of [wait] on an established session, up to the
    classification of the response. *)
Lemma wait_established (depth : nat) (srv : server) (need_pts : bool) (s : t) (tr : trace)
    (status : Z) (response failed : pyval) :
  established s →
  get_text srv (poll_request s :: tr) = Ok (status, Some response) →
  status ≠ 403 →
  py_get response "failed" = Ok failed →
  wait (S depth) srv need_pts s tr =
    let tr := poll_request s :: tr in
    if negb (truthy failed) then
      match py_getitem response "ts" with
      | Raise e => (Raise e, s, tr)
      | Ok v => (Ok response, set_ts v s, tr)
      end
    else if eq_int failed 1 then
      match py_getitem response "ts" with
      | Raise e => (Raise e, s, tr)
      | Ok v => wait depth srv false (set_ts v s) tr
      end
    else if eq_int failed 4 then
      (raising (slash (base_url s))
         (λ u, VkLongPollError 4 version_message u (poll_params s)), s, tr)
    else wait depth srv false (set_base_url None s) tr.
Proof.
  intros Hest Hget Hstatus Hfailed.
  cbn [wait]. rewrite (established_no_base_url s Hest), Hget.
  apply Z.eqb_neq in Hstatus. rewrite Hstatus, Hfailed. reflexivity.
Qed.

(** C1, as the code has it.  On an established session, a response with
    [failed == 4] makes [wait] raise the error with code 4 after that one
    GET: nothing is repeated and no handoff is made.  The session is left
    as it was, so its endpoint stays set and the next [wait] polls the
    same endpoint without a handoff. *)
Theorem version_rejected (depth : nat) (srv : server) (need_pts : bool) (s : t)
    (tr : trace) (u : string) (status : Z) (response failed : pyval) :
  base_url s = Some u → u ≠ "" →
  get_text srv (poll_request s :: tr) = Ok (status, Some response) →
  status ≠ 403 →
  py_get response "failed" = Ok failed →
  eq_int failed 4 = true →
  wait (S depth) srv need_pts s tr =
    (Raise (VkLongPollError 4 version_message (u +:+ "/") (poll_params s)),
     s, poll_request s :: tr)
  ∧ no_base_url s = false.
Proof.
  intros Hu Hne Hget Hstatus Hfailed H4.
  assert (established s) as Hest by by exists u.
  split; [|by apply established_no_base_url].
  rewrite (wait_established depth srv need_pts s tr status response failed) by done.
  unfold eq_int in H4. destruct (int_view failed) as [z|] eqn:Hz; [|done].
  apply Z.eqb_eq in H4 as ->.
  assert (truthy failed = true) as ->.
  { destruct failed as [|[]| | | | | | |]; try discriminate Hz;
      injection Hz as ->; reflexivity. }
  unfold eq_int. rewrite Hz, Hu. reflexivity.
Qed.

Definition session_7 : t :=
  {| cls := UserLongPoll true; timeout := PInt 10; version := 3; wait_seconds := 25;
     mode := PInt 2; pts := PNone; ts := PInt 7; key := PStr "k1";
     base_url := Some "https://lp.example/im1" |}.

(** A server that rejects the protocol version on every GET. *)
Definition rejecting : server :=
  {| api := λ _, Raise (RemoteError "unreachable");
     get_text := λ _, Ok (200, Some (PDict [("failed", PInt 4)])) |}.

Lemma version_rejected_witness :
  wait 1 rejecting false session_7 [] =
    (Raise (VkLongPollError 4 version_message "https://lp.example/im1/"
              (poll_params session_7)),
     session_7, [poll_request session_7]).
Proof.
  apply (version_rejected 0 rejecting false session_7 [] "https://lp.example/im1"
           200 (PDict [("failed", PInt 4)]) (PInt 4)); try reflexivity; done.
Defined.

(** After the rejection the endpoint is still set, and the next call
    polls it again without a handoff. *)
Lemma version_rejected_endpoint_stays :
  ∃ e s' tr',
    wait 5 rejecting false session_7 [] = (Raise e, s', tr') ∧
    base_url s' = Some "https://lp.example/im1" ∧
    no_base_url s' = false ∧
    handoffs (wait 5 rejecting false s' tr').2 = 0%nat.
Proof. do 3 eexists. split; [reflexivity|]. by repeat split. Qed.

(** C2.  On an established session, a first response [{failed: 1, ts:
    100}] followed by the response [{ts: 105, updates: ...}] to the
    repeated poll: [wait] raises nothing and returns the second response
    with its updates, the cursor ends at 105, and the poll has been
    repeated once, with the cursor 100 and without a handoff. *)
Theorem soft_resync_then_success (depth : nat) (srv : server) (need_pts : bool)
    (s : t) (tr : trace) (u : string) (status1 status2 : Z) (r1 r2 : pydict)
    (updates : pyval) :
  base_url s = Some u → u ≠ "" →
  get_text srv (poll_request s :: tr) = Ok (status1, Some (PDict r1)) →
  status1 ≠ 403 →
  dict_get "failed" r1 = Some (PInt 1) →
  dict_get "ts" r1 = Some (PInt 100) →
  get_text srv (poll_request (set_ts (PInt 100) s) :: poll_request s :: tr)
    = Ok (status2, Some (PDict r2)) →
  status2 ≠ 403 →
  dict_get "failed" r2 = None →
  dict_get "ts" r2 = Some (PInt 105) →
  dict_get "updates" r2 = Some updates →
  let tr' := poll_request (set_ts (PInt 100) s) :: poll_request s :: tr in
  wait (S (S depth)) srv need_pts s tr = (Ok (PDict r2), set_ts (PInt 105) s, tr')
  ∧ py_getitem (PDict r2) "updates" = Ok updates
  ∧ ts (set_ts (PInt 105) s) = PInt 105
  ∧ polls tr' = (2 + polls tr)%nat
  ∧ handoffs tr' = handoffs tr.
Proof.
  intros Hu Hne Hget1 Hst1 Hf1 Hts1 Hget2 Hst2 Hf2 Hts2 Hup tr'.
  assert (established s) as Hest by by exists u.
  assert (established (set_ts (PInt 100) s)) as Hest' by by exists u.
  repeat split.
  - rewrite (wait_established (S depth) srv need_pts s tr status1 (PDict r1) (PInt 1))
      by (done || by (simpl; rewrite Hf1)).
    simpl negb. cbv iota. cbn [eq_int int_view Z.eqb Pos.eqb]. cbv zeta.
    unfold py_getitem at 1. rewrite Hts1.
    rewrite (wait_established depth srv false _ _ status2 (PDict r2) PNone)
      by (done || by (simpl; rewrite Hf2)).
    simpl. by rewrite Hts2.
  - simpl. by rewrite Hup.
Qed.

(** A server that answers the first GET with a soft resync and every
    later one with a batch of updates. *)
Definition resync_once : server :=
  {| api := λ _, Raise (RemoteError "unreachable");
     get_text := λ tr,
       match polls tr with
       | 1%nat => Ok (200, Some (PDict [("failed", PInt 1); ("ts", PInt 100)]))
       | _ => Ok (200, Some (PDict [("ts", PInt 105);
                                    ("updates", PList [PList [PInt 80; PInt 1]])]))
       end |}.

Lemma soft_resync_then_success_witness :
  wait 2 resync_once false session_7 [] =
    (Ok (PDict [("ts", PInt 105); ("updates", PList [PList [PInt 80; PInt 1]])]),
     set_ts (PInt 105) session_7,
     [poll_request (set_ts (PInt 100) session_7); poll_request session_7]).
Proof.
  apply (soft_resync_then_success 0 resync_once false session_7 []
           "https://lp.example/im1" 200 200
           [("failed", PInt 1); ("ts", PInt 100)]
           [("ts", PInt 105); ("updates", PList [PList [PInt 80; PInt 1]])]
           (PList [PList [PInt 80; PInt 1]])); try reflexivity; done.
Defined.

(** *** Repetitions nest *)

(** A failure code that makes [wait] repeat the poll: any but 0 (no
    failure) and 4 (fatal). *)
Definition soft (code : Z) : Prop := code ≠ 0 ∧ code ≠ 4.

(** A server that answers the GETs with the given failure codes, one
    after the other, then with an empty batch; every handoff succeeds. *)
Definition failing (codes : list Z) : server :=
  {| api := λ _, Ok (PDict [("key", PStr "k"); ("server", PStr "lp.example/im1");
                            ("ts", PInt 0)]);
     get_text := λ tr,
       match codes !! pred (polls tr) with
       | Some code => Ok (200, Some (PDict [("failed", PInt code); ("ts", PInt 1)]))
       | None => Ok (200, Some (PDict [("ts", PInt 2); ("updates", PList [])]))
       end |}.

Lemma handoff_failing (codes : list Z) (need_pts : bool) (s : t) (tr : trace) :
  ∃ s', _get_long_poll_server (failing codes) need_pts s tr
        = (Ok (), s', handoff_request s need_pts :: tr).
Proof. unfold _get_long_poll_server. simpl. by eexists. Qed.

(** With [k] failure codes still to come, [wait] ends in a result exactly
    when more than [k] nested activations are allowed. *)
Lemma wait_failing_depth (codes : list Z) (depth : nat) (need_pts : bool)
    (s : t) (tr : trace) :
  Forall soft codes →
  (polls tr ≤ length codes)%nat →
  if decide (depth ≤ length codes - polls tr)%nat
  then (wait depth (failing codes) need_pts s tr).1.1 = Raise RecursionError
  else ∃ response, (wait depth (failing codes) need_pts s tr).1.1 = Ok response.
Proof.
  intros Hsoft. revert need_pts s tr.
  induction depth as [|depth IH]; intros need_pts s tr Hk.
  { rewrite decide_True by lia. reflexivity. }
  cbn [wait].
  assert (∃ s1 tr1, (if no_base_url s
                     then _get_long_poll_server (failing codes) need_pts s tr
                     else (Ok (), s, tr)) = (Ok (), s1, tr1) ∧ polls tr1 = polls tr)
    as (s1 & tr1 & -> & Hp1).
  { destruct (no_base_url s).
    - destruct (handoff_failing codes need_pts s tr) as [s' Hs'].
      exists s', (handoff_request s need_pts :: tr). split; [done|].
      unfold handoff_request. by destruct (cls s).
    - by exists s, tr. }
  assert (polls (poll_request s1 :: tr1) = S (polls tr)) as Hp by (simpl; by rewrite <- Hp1).
  cbn [get_text failing]. rewrite Hp. cbn [pred].
  destruct (codes !! polls tr) as [code|] eqn:Hcode.
  - assert (polls tr < length codes)%nat as Hlt by (by eapply lookup_lt_Some).
    assert (soft code) as [H0 H4].
    { eapply Forall_forall; [done|]. by eapply list_elem_of_lookup_2. }
    cbn [Z.eqb]. simpl py_get. cbv iota.
    assert (truthy (PInt code) = true) as ->
      by (simpl; by apply negb_true_iff, Z.eqb_neq).
    simpl negb. cbv iota. unfold eq_int. cbn [int_view].
    rewrite (proj2 (Z.eqb_neq code 4)) by done.
    destruct (code =? 1).
    + simpl py_getitem. cbv iota.
      specialize (IH false (set_ts (PInt 1) s1) (poll_request s1 :: tr1)).
      rewrite Hp in IH. specialize (IH ltac:(lia)).
      destruct (decide (depth ≤ length codes - S (polls tr))%nat).
      * rewrite decide_True by lia. done.
      * rewrite decide_False by lia. done.
    + specialize (IH false (set_base_url None s1) (poll_request s1 :: tr1)).
      rewrite Hp in IH. specialize (IH ltac:(lia)).
      destruct (decide (depth ≤ length codes - S (polls tr))%nat).
      * rewrite decide_True by lia. done.
      * rewrite decide_False by lia. done.
  - apply lookup_ge_None in Hcode. rewrite decide_False by lia.
    simpl. by eexists.
Qed.

(** C9, as the code has it.  [wait] repeats a poll by calling itself, so
    every soft failure (a [failed] other than 4) adds one nested
    activation: a run of [n] soft failures ends in [RecursionError] when
    at most [n] nested activations are allowed, and in a response when
    more are. *)
Theorem repetitions_nest (codes : list Z) (depth : nat) (need_pts : bool) (s : t) :
  Forall soft codes →
  ((depth ≤ length codes)%nat →
     (wait depth (failing codes) need_pts s []).1.1 = Raise RecursionError) ∧
  ((length codes < depth)%nat →
     ∃ response, (wait depth (failing codes) need_pts s []).1.1 = Ok response).
Proof.
  intros Hsoft.
  pose proof (wait_failing_depth codes depth need_pts s [] Hsoft) as H.
  change (polls []) with 0%nat in H. specialize (H ltac:(lia)).
  split; intros Hd.
  - by rewrite decide_True in H by lia.
  - by rewrite decide_False in H by lia.
Qed.

Lemma repetitions_nest_witness :
  (wait 3 (failing [1; 2; 1]) false session_7 []).1.1 = Raise RecursionError ∧
  ∃ response, (wait 4 (failing [1; 2; 1]) false session_7 []).1.1 = Ok response.
Proof.
  assert (Forall soft [1; 2; 1]) as Hsoft by (repeat constructor; done).
  split.
  - apply (proj1 (repetitions_nest [1; 2; 1] 3 false session_7 Hsoft)). simpl. lia.
  - apply (proj2 (repetitions_nest [1; 2; 1] 4 false session_7 Hsoft)). simpl. lia.
Defined.

(** No constant number of nested activations is enough for every finite
    run of soft failures. *)
Lemma no_constant_depth :
  ¬ ∃ bound : nat, ∀ codes : list Z, Forall soft codes →
      (wait bound (failing codes) false session_7 []).1.1 ≠ Raise RecursionError.
Proof.
  intros (bound & Hbound).
  assert (Forall soft (replicate bound 1)) as Hsoft.
  { apply Forall_replicate. by split. }
  apply (Hbound (replicate bound 1) Hsoft).
  pose proof (wait_failing_depth (replicate bound 1) bound false session_7 [] Hsoft) as H.
  rewrite length_replicate in H. change (polls []) with 0%nat in H.
  specialize (H ltac:(lia)). by rewrite decide_True in H by lia.
Qed.

(** *** Endpoint and key *)

(** The states a session goes through: it is constructed, and then its
    methods are called, in any order and with any arguments. *)
Inductive reachable (srv : server) : t → trace → Prop :=
  | reach_init c mode w v timeout session_timeout s :
      init c mode w v timeout session_timeout = Ok s →
      reachable srv s []
  | reach_handoff need_pts s tr :
      reachable srv s tr →
      reachable srv (_get_long_poll_server srv need_pts s tr).1.2
                    (_get_long_poll_server srv need_pts s tr).2
  | reach_wait depth need_pts s tr :
      reachable srv s tr →
      reachable srv (wait depth srv need_pts s tr).1.2 (wait depth srv need_pts s tr).2
  | reach_get_pts need_ts s tr :
      reachable srv s tr →
      reachable srv (get_pts srv need_ts s tr).1.2 (get_pts srv need_ts s tr).2.

(** Every handoff response that has a key has one that is not null. *)
Definition keys_supplied (srv : server) : Prop :=
  ∀ tr response k,
    api srv tr = Ok response → py_getitem response "key" = Ok k → k ≠ PNone.

Definition endpoint_has_key (s : t) : Prop := base_url s ≠ None → key s ≠ PNone.

Lemma handoff_endpoint_has_key (srv : server) (need_pts : bool) (s : t) (tr : trace) :
  keys_supplied srv → endpoint_has_key s →
  endpoint_has_key (_get_long_poll_server srv need_pts s tr).1.2.
Proof.
  intros Hsrv Hs. unfold _get_long_poll_server.
  destruct (api srv _) as [response|e] eqn:Hapi; [|done].
  destruct (py_get response "pts") as [v1|e]; [|done].
  destruct (py_getitem response "ts") as [v2|e]; [|done].
  destruct (py_getitem response "key") as [k|e] eqn:Hk; [|done].
  assert (k ≠ PNone) as Hne by by eapply Hsrv.
  destruct (py_getitem response "server") as [v3|e]; by intros _.
Qed.

Lemma wait_endpoint_has_key (srv : server) (depth : nat) (need_pts : bool)
    (s : t) (tr : trace) :
  keys_supplied srv → endpoint_has_key s →
  endpoint_has_key (wait depth srv need_pts s tr).1.2.
Proof.
  intros Hsrv. revert need_pts s tr.
  induction depth as [|depth IH]; intros need_pts s tr Hs; [done|].
  cbn [wait].
  assert (∃ r s1 tr1, (if no_base_url s then _get_long_poll_server srv need_pts s tr
                       else (Ok (), s, tr)) = (r, s1, tr1) ∧ endpoint_has_key s1)
    as (r & s1 & tr1 & -> & Hs1).
  { destruct (no_base_url s).
    - pose proof (handoff_endpoint_has_key srv need_pts s tr Hsrv Hs) as H.
      destruct (_get_long_poll_server srv need_pts s tr) as [[r s1] tr1].
      by exists r, s1, tr1.
    - by exists (Ok ()), s, tr. }
  destruct r as [[]|e]; [|done].
  destruct (get_text srv _) as [[status body]|e]; [|done].
  destruct (status =? 403); [done|].
  destruct body as [response|]; [|done].
  destruct (py_get response "failed") as [failed|e]; [|done].
  destruct (negb (truthy failed)).
  { by destruct (py_getitem response "ts"). }
  destruct (eq_int failed 1).
  { destruct (py_getitem response "ts"); [|done]. by apply IH. }
  destruct (eq_int failed 4); [done|].
  apply IH. by intros ?.
Qed.

Lemma get_pts_endpoint_has_key (srv : server) (need_ts : bool) (s : t) (tr : trace) :
  keys_supplied srv → endpoint_has_key s →
  endpoint_has_key (get_pts srv need_ts s tr).1.2.
Proof.
  intros Hsrv Hs. unfold get_pts.
  destruct (no_base_url s || negb (truthy (pts s))).
  - pose proof (handoff_endpoint_has_key srv true s tr Hsrv Hs) as H.
    destruct (_get_long_poll_server srv true s tr) as [[[[]|e] s1] tr1]; done.
  - done.
Qed.

Lemma init_unset c mode w v timeout session_timeout (s : t) :
  init c mode w v timeout session_timeout = Ok s → base_url s = None ∧ key s = PNone.
Proof.
  unfold init. intros H. apply bind_Ok in H as (m & _ & H). by injection H as <-.
Qed.

(** C3, as the code has it.  A new session has neither endpoint nor
    key, and in every state a session reaches, an endpoint that is present
    comes with a key that is present (the handoff that sets the endpoint
    has set the key before), as long as the server's handoff responses do
    not carry a null key.  The converse is not kept: invalidating the
    session clears the endpoint only. *)
Theorem endpoint_implies_key (srv : server) (s : t) (tr : trace) :
  keys_supplied srv →
  reachable srv s tr →
  base_url s ≠ None → key s ≠ PNone.
Proof.
  intros Hsrv Hreach. change (endpoint_has_key s).
  induction Hreach as [c mode w v timeout session_timeout s Hinit
                      | need_pts s tr _ IH | depth need_pts s tr _ IH
                      | need_ts s tr _ IH].
  - apply init_unset in Hinit as [Hu _]. by intros ?.
  - by apply handoff_endpoint_has_key.
  - by apply wait_endpoint_has_key.
  - by apply get_pts_endpoint_has_key.
Qed.

(** A server that hands the session off once and then goes away: its
    GETs invalidate the session, and its later handoffs fail. *)
Definition invalidating : server :=
  {| api := λ tr,
       match handoffs tr with
       | 1%nat => Ok (PDict [("key", PStr "k1"); ("server", PStr "lp.example/im1");
                             ("ts", PInt 7)])
       | _ => Raise (RemoteError "down")
       end;
     get_text := λ _, Ok (200, Some (PDict [("failed", PInt 2)])) |}.

Lemma keys_supplied_invalidating : keys_supplied invalidating.
Proof.
  intros tr response k Hapi Hk. simpl in Hapi.
  destruct (handoffs tr) as [|[|n]]; try discriminate Hapi.
  injection Hapi as <-. by injection Hk as <-.
Qed.

Lemma endpoint_implies_key_witness :
  ∃ s tr, reachable invalidating s tr ∧ base_url s ≠ None ∧ key s ≠ PNone.
Proof.
  destruct (init (UserLongPoll true) (PList [PInt 2; PInt 8]) 25 3 PNone (PInt 10))
    as [s0|] eqn:Hinit; [|discriminate Hinit].
  pose proof (reach_handoff invalidating false s0 [] (reach_init invalidating _ _ _ _ _ _ _ Hinit))
    as Hreach.
  injection Hinit as <-.
  eexists _, _. split; [exact Hreach|].
  split; [discriminate|].
  apply (endpoint_implies_key invalidating _ _ keys_supplied_invalidating Hreach).
  discriminate.
Defined.

(** After a session invalidation whose handoff fails, the endpoint is
    absent and the key of the old session is still there. *)
Lemma endpoint_absent_key_present :
  ∃ s tr, reachable invalidating s tr ∧ base_url s = None ∧ key s = PStr "k1".
Proof.
  destruct (init (UserLongPoll true) (PList [PInt 2; PInt 8]) 25 3 PNone (PInt 10))
    as [s0|] eqn:Hinit; [|discriminate Hinit].
  pose proof (reach_wait invalidating 5 false s0 [] (reach_init invalidating _ _ _ _ _ _ _ Hinit))
    as Hreach.
  injection Hinit as <-.
  eexists _, _. split; [exact Hreach|]. split; reflexivity.
Qed.

End session.

(** ** Attachment resolution *)

Section attachments.
Import Attachments.

(** A size entry without a usable URL: a dictionary whose [url] is
    missing or falsy. *)
Definition no_url (s : pyval) : Prop :=
  ∃ d, s = PDict d ∧ truthy (default PNone (dict_get "url" d)) = false.

(** No inline token pair: no extra values, or a dictionary that lacks
    [attach1] or [attach1_type]. *)
Definition no_inline_tokens (extra_values : pyval) : Prop :=
  extra_values = PNone ∨
  ∃ d, extra_values = PDict d ∧
       (dict_get "attach1" d = None ∨ dict_get "attach1_type" d = None).

Lemma sizes_with_url_none (sz : list pyval) :
  Forall no_url sz → sizes_with_url sz = Ok [].
Proof.
  induction 1 as [|s sz (d & -> & Hurl) _ IH]; [done|].
  cbn [sizes_with_url py_get mbind result_bind]. rewrite Hurl.
  cbn [mbind result_bind]. rewrite IH. reflexivity.
Qed.

Lemma map_photo_without_url (a ph : pydict) (sz : list pyval) :
  dict_get "type" a = Some (PStr "photo") →
  dict_get "photo" a = Some (PDict ph) →
  dict_get "sizes" ph = Some (PList sz) →
  Forall no_url sz →
  _map (PList [PDict a]) = Ok [].
Proof.
  intros Htype Hphoto Hsizes Hsz.
  assert (py_or (PDict ph) (PDict []) = PDict ph) as Hph by by destruct ph.
  assert (py_iter (py_or (PList sz) (PList [])) = Ok sz) as Hiter by by destruct sz.
  unfold _map.
  change (py_iter (py_or (PList [PDict a]) (PList []))) with (Ok [PDict a]).
  cbn [mbind result_bind map_all]. unfold map_one.
  cbn [py_get]. rewrite Htype, Hphoto. cbn [default from_option id mbind result_bind].
  change (eq_str (PStr "photo") "photo") with true. cbv iota.
  rewrite Hph. cbn [py_get mbind result_bind]. rewrite Hsizes.
  cbn [default from_option id].
  rewrite Hiter. cbn [mbind result_bind].
  rewrite (sizes_with_url_none sz Hsz). reflexivity.
Qed.

Lemma inline_tier_no_tokens (rounds : nat) (srv : server) (extra_values : pyval)
    (norm : list pyval) (tr : trace) :
  no_inline_tokens extra_values →
  inline_tier rounds srv (py_or extra_values (PDict [])) 1 norm tr = (Ok norm, tr).
Proof.
  intros [->|(d & -> & Hd)].
  - by destruct rounds.
  - assert (contains_key (py_or (PDict d) (PDict [])) (attach_key 1)
              ≫= (λ has : bool, if has
                                then contains_key (py_or (PDict d) (PDict []))
                                       (attach_type_key 1)
                                else Ok false) = Ok false) as Hcond.
    { destruct d as [|kv d]; [done|].
      change (py_or (PDict (kv :: d)) (PDict [])) with (PDict (kv :: d)).
      change (attach_key 1) with "attach1". change (attach_type_key 1) with "attach1_type".
      cbn [contains_key mbind result_bind]. unfold dict_has.
      destruct Hd as [-> | ->]; [done|]. by destruct (dict_get "attach1" _). }
    destruct rounds; cbn [inline_tier]; by rewrite Hcond.
Qed.

(** C10.  When the bulk lookup finds one photo attachment whose size
    entries are dictionaries and none of them has a URL, the bulk tier gives
    nothing and the resolver goes on to the inline tier; when the event has
    no inline token pair either, the resolver returns the empty list and
    raises nothing. *)
Theorem photo_without_url_falls_through (srv : server) (bulk : obj → result request)
    (self : obj) (tr tr1 : trace) (a ph : pydict) (sz : list pyval)
    (extra_values : pyval) :
  _from_messages_getById srv bulk self tr = (Ok (PList [PDict a]), tr1) →
  dict_get "type" a = Some (PStr "photo") →
  dict_get "photo" a = Some (PDict ph) →
  dict_get "sizes" ph = Some (PList sz) →
  Forall no_url sz →
  self !! "extra_values" = Some extra_values →
  let ex := py_or extra_values (PDict []) in
  _map (PList [PDict a]) = Ok []
  ∧ normalized_attachments srv bulk self tr = inline_tier (max_rounds ex) srv ex 1 [] tr1
  ∧ (no_inline_tokens extra_values →
       normalized_attachments srv bulk self tr = (Ok [], tr1)).
Proof.
  intros Hbulk Htype Hphoto Hsizes Hsz Hex ex.
  pose proof (map_photo_without_url a ph sz Htype Hphoto Hsizes Hsz) as Hmap.
  assert (normalized_attachments srv bulk self tr
          = inline_tier (max_rounds ex) srv ex 1 [] tr1) as Hfall.
  { unfold normalized_attachments. rewrite Hbulk. cbn [mbind result_bind].
    rewrite Hmap. unfold getattr. by rewrite Hex. }
  repeat split; [done|done|].
  intros Hnone. rewrite Hfall. by apply inline_tier_no_tokens.
Qed.

(** A server whose message lookup finds one photo with a size entry that
    has no URL. *)
Definition photo_no_url : pydict :=
  [("type", PStr "photo"); ("photo", PDict [("sizes", PList [PDict [("type", PStr "m")]])])].

Definition bare_photo_server : server :=
  {| api := λ _, Ok (PDict [("items", PList [PDict [("attachments",
                                                       PList [PDict photo_no_url])]])]);
     get_text := λ _, Raise (RemoteError "unused") |}.

Definition plain_message : obj :=
  setattr "message_id" (PInt 31) (MessageEvent.fresh (PList [])).

Lemma photo_without_url_falls_through_witness :
  normalized_attachments bare_photo_server bulk_request_array plain_message []
  = (Ok [], [ApiCall "messages.getById" [("message_ids", PInt 31); ("group_id", PNone)]]).
Proof.
  apply (photo_without_url_falls_through bare_photo_server bulk_request_array
           plain_message [] _ photo_no_url
           [("sizes", PList [PDict [("type", PStr "m")]])]
           [PDict [("type", PStr "m")]] PNone); try reflexivity.
  - repeat constructor. by eexists.
  - by left.
Defined.

(** A server whose message lookup finds one photo with a size entry that
    is null. *)
Definition photo_null_size : pydict :=
  [("type", PStr "photo"); ("photo", PDict [("sizes", PList [PNone])])].

Definition null_size_server : server :=
  {| api := λ _, Ok (PDict [("items", PList [PDict [("attachments",
                                                       PList [PDict photo_null_size])]])]);
     get_text := λ _, Raise (RemoteError "unused") |}.

(** One bad attachment does make the resolution fail as a whole.  The
    answer of the bulk lookup is mapped outside every [try]: a photo with a
    size entry that is null raises the attribute error of [.get]. *)
Lemma photo_with_null_size_fails :
  normalized_attachments null_size_server bulk_request_array plain_message []
  = (Raise (AttributeError "get"),
     [ApiCall "messages.getById" [("message_ids", PInt 31); ("group_id", PNone)]]).
Proof. reflexivity. Qed.

End attachments.

(** * Further properties of the code *)

(** ** The session: single polls, handoffs and the change pointer *)

Section session_more.
Import LongPoll.

Lemma handoff_trace (srv : server) (need_pts : bool) (s : t) (tr : trace) :
  (_get_long_poll_server srv need_pts s tr).2 = handoff_request s need_pts :: tr.
Proof.
  unfold _get_long_poll_server.
  repeat (match goal with |- context [match ?x with _ => _ end] => destruct x end);
    reflexivity.
Qed.

Lemma polls_handoff_request (s : t) (need_pts : bool) (tr : trace) :
  polls (handoff_request s need_pts :: tr) = polls tr
  ∧ handoffs (handoff_request s need_pts :: tr) = S (handoffs tr).
Proof. unfold handoff_request. by destruct (cls s). Qed.

(** A GET answered with status 403 is fatal: [wait] raises the error with
    code 403 and the endpoint followed by a slash, whatever the body is;
    the session is not changed and nothing is repeated. *)
Theorem forbidden_is_fatal (depth : nat) (srv : server) (need_pts : bool) (s : t)
    (tr : trace) (u : string) (body : option pyval) :
  base_url s = Some u → u ≠ "" →
  get_text srv (poll_request s :: tr) = Ok (403, body) →
  wait (S depth) srv need_pts s tr =
    (Raise (VkLongPollError 403 "smth weth wrong" (u +:+ "/") (poll_params s)),
     s, poll_request s :: tr).
Proof.
  intros Hu Hne Hget. cbn [wait].
  rewrite (established_no_base_url s) by by exists u.
  rewrite Hget. cbn [Z.eqb Pos.eqb]. by rewrite Hu.
Qed.

Definition forbidding : server :=
  {| api := λ _, Raise (RemoteError "unused");
     get_text := λ _, Ok (403, None) |}.

Lemma forbidden_is_fatal_witness :
  wait 1 forbidding true session_7 [] =
    (Raise (VkLongPollError 403 "smth weth wrong" "https://lp.example/im1/"
              (poll_params session_7)),
     session_7, [poll_request session_7]).
Proof.
  apply (forbidden_is_fatal 0 forbidding true session_7 [] "https://lp.example/im1" None);
    [reflexivity | done | reflexivity].
Defined.

(** A response is a success whenever its [failed] is falsy: absent, null,
    0, false or empty.  [wait] then returns the whole response after that
    one GET, without a handoff, and changes nothing but the cursor, which
    becomes the response's [ts]. *)
Theorem success_advances_cursor (depth : nat) (srv : server) (need_pts : bool) (s : t)
    (tr : trace) (status : Z) (response failed v : pyval) :
  established s →
  get_text srv (poll_request s :: tr) = Ok (status, Some response) →
  status ≠ 403 →
  py_get response "failed" = Ok failed →
  truthy failed = false →
  py_getitem response "ts" = Ok v →
  wait (S depth) srv need_pts s tr = (Ok response, set_ts v s, poll_request s :: tr)
  ∧ key (set_ts v s) = key s ∧ base_url (set_ts v s) = base_url s
  ∧ pts (set_ts v s) = pts s
  ∧ handoffs (poll_request s :: tr) = handoffs tr.
Proof.
  intros Hest Hget Hst Hfailed Hfalsy Hts.
  rewrite (wait_established depth srv need_pts s tr status response failed) by done.
  cbv zeta. rewrite Hfalsy, Hts. done.
Qed.

(** A server whose responses carry [failed: 0]. *)
Definition zero_failed : server :=
  {| api := λ _, Raise (RemoteError "unused");
     get_text := λ _, Ok (200, Some (PDict [("failed", PInt 0); ("ts", PInt 9);
                                             ("updates", PList [])])) |}.

Lemma success_advances_cursor_witness :
  wait 1 zero_failed false session_7 [] =
    (Ok (PDict [("failed", PInt 0); ("ts", PInt 9); ("updates", PList [])]),
     set_ts (PInt 9) session_7, [poll_request session_7]).
Proof.
  apply (success_advances_cursor 0 zero_failed false session_7 [] 200
           (PDict [("failed", PInt 0); ("ts", PInt 9); ("updates", PList [])])
           (PInt 0) (PInt 9)); try reflexivity; try done.
  by exists "https://lp.example/im1".
Defined.

(** A response without [ts] cannot be used: on a success and on a soft
    resync alike [wait] raises [KeyError] for [ts] and leaves the session
    as it was. *)
Theorem response_without_ts (depth : nat) (srv : server) (need_pts : bool) (s : t)
    (tr : trace) (status : Z) (d : pydict) :
  established s →
  get_text srv (poll_request s :: tr) = Ok (status, Some (PDict d)) →
  status ≠ 403 →
  dict_get "ts" d = None →
  (dict_get "failed" d = None ∨ dict_get "failed" d = Some (PInt 1)) →
  wait (S depth) srv need_pts s tr = (Raise (KeyError "ts"), s, poll_request s :: tr).
Proof.
  intros Hest Hget Hst Hts Hfailed.
  rewrite (wait_established depth srv need_pts s tr status (PDict d)
             (default PNone (dict_get "failed" d))) by done.
  cbv zeta. unfold py_getitem. rewrite Hts.
  by destruct Hfailed as [-> | ->].
Qed.

Definition no_cursor : server :=
  {| api := λ _, Raise (RemoteError "unused");
     get_text := λ _, Ok (200, Some (PDict [("updates", PList [])])) |}.

Lemma response_without_ts_witness :
  wait 3 no_cursor false session_7 [] =
    (Raise (KeyError "ts"), session_7, [poll_request session_7]).
Proof.
  apply (response_without_ts 2 no_cursor false session_7 [] 200 [("updates", PList [])]);
    try reflexivity; try done.
  - by exists "https://lp.example/im1".
  - by left.
Defined.

(** What a handoff that succeeds leaves in the session: [pts] is the
    response's or null, [ts] and [key] are the response's, and the
    endpoint is the response's [server], prefixed with the scheme for a
    user session and taken as it is for a group session.  One request is
    made. *)
Theorem handoff_success (srv : server) (need_pts : bool) (s : t) (tr : trace)
    (response : pydict) (v_ts v_key v_server : pyval) :
  api srv (handoff_request s need_pts :: tr) = Ok (PDict response) →
  dict_get "ts" response = Some v_ts →
  dict_get "key" response = Some v_key →
  dict_get "server" response = Some v_server →
  ∃ s', _get_long_poll_server srv need_pts s tr
          = (Ok (), s', handoff_request s need_pts :: tr) ∧
        pts s' = default PNone (dict_get "pts" response) ∧
        ts s' = v_ts ∧ key s' = v_key ∧
        base_url s' = Some (match cls s with
                            | UserLongPoll true => "https://" +:+ py_str v_server
                            | UserLongPoll false => "http://" +:+ py_str v_server
                            | BotsLongPoll _ => py_str v_server
                            end).
Proof.
  intros Hapi Hts Hkey Hserver. unfold _get_long_poll_server.
  rewrite Hapi. cbn [py_get py_getitem]. rewrite Hts, Hkey, Hserver.
  eexists. split; [reflexivity|]. repeat split.
  cbn [base_url set_base_url]. unfold server_url. cbn [cls set_key set_ts set_pts].
  by destruct (cls s) as [[]|].
Qed.

Definition fresh_user : t :=
  {| cls := UserLongPoll true; timeout := PInt 10; version := 3; wait_seconds := 25;
     mode := PInt 2; pts := PNone; ts := PNone; key := PNone; base_url := None |}.

Definition handing_off : server :=
  {| api := λ _, Ok (PDict [("key", PStr "k2"); ("server", PStr "lp.example/im2");
                            ("ts", PInt 40); ("pts", PInt 5)]);
     get_text := λ _, Ok (200, Some (PDict [("ts", PInt 41); ("updates", PList [])])) |}.

Lemma handoff_success_witness :
  ∃ s', _get_long_poll_server handing_off true fresh_user []
          = (Ok (), s', [handoff_request fresh_user true]) ∧
        pts s' = PInt 5 ∧ ts s' = PInt 40 ∧ key s' = PStr "k2" ∧
        base_url s' = Some "https://lp.example/im2".
Proof.
  apply (handoff_success handing_off true fresh_user []
           [("key", PStr "k2"); ("server", PStr "lp.example/im2");
            ("ts", PInt 40); ("pts", PInt 5)]
           (PInt 40) (PStr "k2") (PStr "lp.example/im2")); reflexivity.
Defined.

(** A handoff is not atomic.  When the response has [ts] and [key] but no
    [server], the handoff raises [KeyError] for [server] after it has
    already replaced [pts], [ts] and [key]; the endpoint is left as it
    was. *)
Theorem handoff_without_server (srv : server) (need_pts : bool) (s : t) (tr : trace)
    (response : pydict) (v_ts v_key : pyval) :
  api srv (handoff_request s need_pts :: tr) = Ok (PDict response) →
  dict_get "ts" response = Some v_ts →
  dict_get "key" response = Some v_key →
  dict_get "server" response = None →
  _get_long_poll_server srv need_pts s tr
  = (Raise (KeyError "server"),
     set_key v_key (set_ts v_ts (set_pts (default PNone (dict_get "pts" response)) s)),
     handoff_request s need_pts :: tr).
Proof.
  intros Hapi Hts Hkey Hserver. unfold _get_long_poll_server.
  rewrite Hapi. cbn [py_get py_getitem]. by rewrite Hts, Hkey, Hserver.
Qed.

Definition serverless : server :=
  {| api := λ _, Ok (PDict [("key", PStr "k9"); ("ts", PInt 77)]);
     get_text := λ _, Raise (RemoteError "unused") |}.

Lemma handoff_without_server_witness :
  _get_long_poll_server serverless false session_7 []
  = (Raise (KeyError "server"),
     set_key (PStr "k9") (set_ts (PInt 77) (set_pts PNone session_7)),
     [handoff_request session_7 false]).
Proof.
  apply (handoff_without_server serverless false session_7 []
           [("key", PStr "k9"); ("ts", PInt 77)] (PInt 77) (PStr "k9")); reflexivity.
Defined.

(** A session without an endpoint hands off before it polls.  When that
    handoff raises, for whatever reason, [wait] raises the same exception
    and makes no GET; the session is as the handoff left it, which is
    unchanged when the API call itself raised it. *)
Theorem wait_handoff_failure (depth : nat) (srv : server) (need_pts : bool) (s s' : t)
    (tr tr' : trace) (e : exn) :
  no_base_url s = true →
  _get_long_poll_server srv need_pts s tr = (Raise e, s', tr') →
  wait (S depth) srv need_pts s tr = (Raise e, s', tr')
  ∧ tr' = handoff_request s need_pts :: tr
  ∧ polls tr' = polls tr
  ∧ (∀ e0, api srv (handoff_request s need_pts :: tr) = Raise e0 → e0 = e ∧ s' = s).
Proof.
  intros Hno Hhandoff.
  pose proof (handoff_trace srv need_pts s tr) as Htr. rewrite Hhandoff in Htr.
  cbn [snd] in Htr. subst tr'. split; [|split; [done|split]].
  - cbn [wait]. by rewrite Hno, Hhandoff.
  - apply polls_handoff_request.
  - intros e0 Hapi. unfold _get_long_poll_server in Hhandoff. rewrite Hapi in Hhandoff.
    by injection Hhandoff as -> ->.
Qed.

Lemma wait_handoff_failure_witness :
  wait 4 rejecting true fresh_user []
  = (Raise (RemoteError "unreachable"), fresh_user, [handoff_request fresh_user true])
  ∧ (wait 4 serverless true fresh_user []).1.1 = Raise (KeyError "server")
  ∧ polls (wait 4 serverless true fresh_user []).2 = 0%nat.
Proof.
  split; [|split].
  - apply (wait_handoff_failure 3 rejecting true fresh_user fresh_user []
             [handoff_request fresh_user true] (RemoteError "unreachable"));
      reflexivity.
  - by rewrite (proj1 (wait_handoff_failure 3 serverless true fresh_user _ [] _
                         (KeyError "server") eq_refl eq_refl)).
  - by rewrite (proj1 (wait_handoff_failure 3 serverless true fresh_user _ [] _
                         (KeyError "server") eq_refl eq_refl)).
Defined.

(** Session invalidation.  A [failed] value other than 1 and 4 makes [wait]
    drop the endpoint and poll again; the repeated call hands off exactly
    once, always without asking for [pts] (whatever the caller asked for),
    and then polls the new endpoint.  With a successful answer there, [wait]
    returns it: two GETs and one handoff have been made. *)
Theorem invalidation_hands_off_once (depth : nat) (srv : server) (need_pts : bool)
    (s s2 : t) (tr : trace) (status1 status2 : Z) (r1 r2 failed v2 : pyval) :
  established s →
  get_text srv (poll_request s :: tr) = Ok (status1, Some r1) →
  status1 ≠ 403 →
  py_get r1 "failed" = Ok failed →
  truthy failed = true → eq_int failed 1 = false → eq_int failed 4 = false →
  let tr1 := handoff_request s false :: poll_request s :: tr in
  _get_long_poll_server srv false (set_base_url None s) (poll_request s :: tr)
    = (Ok (), s2, tr1) →
  get_text srv (poll_request s2 :: tr1) = Ok (status2, Some r2) →
  status2 ≠ 403 →
  py_get r2 "failed" = Ok PNone →
  py_getitem r2 "ts" = Ok v2 →
  wait (S (S depth)) srv need_pts s tr = (Ok r2, set_ts v2 s2, poll_request s2 :: tr1)
  ∧ handoffs (poll_request s2 :: tr1) = S (handoffs tr)
  ∧ polls (poll_request s2 :: tr1) = (2 + polls tr)%nat.
Proof.
  intros Hest Hget1 Hst1 Hfailed Htruthy Hne1 Hne4 tr1 Hhandoff Hget2 Hst2 Hok Hts.
  split; [|split].
  - rewrite (wait_established (S depth) srv need_pts s tr status1 r1 failed) by done.
    cbv zeta. rewrite Htruthy, Hne1, Hne4. cbn [negb].
    cbn [wait]. change (no_base_url (set_base_url None s)) with true. cbv iota.
    rewrite Hhandoff, Hget2. apply Z.eqb_neq in Hst2. rewrite Hst2, Hok.
    cbn [truthy negb]. by rewrite Hts.
  - subst tr1. unfold handoff_request. by destruct (cls s).
  - subst tr1. unfold handoff_request. by destruct (cls s).
Qed.

(** A server that invalidates the session on the first GET and serves the
    second. *)
Definition recovering : server :=
  {| api := λ _, Ok (PDict [("key", PStr "k2"); ("server", PStr "lp.example/im2");
                            ("ts", PInt 40)]);
     get_text := λ tr,
       match polls tr with
       | 1%nat => Ok (200, Some (PDict [("failed", PInt 2)]))
       | _ => Ok (200, Some (PDict [("ts", PInt 41); ("updates", PList [])]))
       end |}.

Definition session_after_recovery : t :=
  {| cls := UserLongPoll true; timeout := PInt 10; version := 3; wait_seconds := 25;
     mode := PInt 2; pts := PNone; ts := PInt 40; key := PStr "k2";
     base_url := Some "https://lp.example/im2" |}.

Lemma invalidation_hands_off_once_witness :
  wait 2 recovering true session_7 []
  = (Ok (PDict [("ts", PInt 41); ("updates", PList [])]),
     set_ts (PInt 41) session_after_recovery,
     [poll_request session_after_recovery; handoff_request session_7 false;
      poll_request session_7]).
Proof.
  apply (invalidation_hands_off_once 0 recovering true session_7 session_after_recovery []
           200 200 (PDict [("failed", PInt 2)])
           (PDict [("ts", PInt 41); ("updates", PList [])]) (PInt 2) (PInt 41));
    try reflexivity; try done.
  by exists "https://lp.example/im1".
Defined.

(** [get_pts] never polls.  With an endpoint and a truthy [pts] it makes no
    request at all and returns the stored values; otherwise it makes one
    handoff request.  For a user session that request asks for [pts]; for
    a group session it is [groups.getLongPollServer] with the group id
    alone, which has no such argument. *)
Theorem get_pts_does_not_poll (srv : server) (need_ts : bool) (s : t) (tr : trace) :
  polls (get_pts srv need_ts s tr).2 = polls tr
  ∧ (no_base_url s = false → truthy (pts s) = true →
       get_pts srv need_ts s tr
       = (Ok (if need_ts then PList [pts s; ts s] else pts s), s, tr))
  ∧ (no_base_url s = true ∨ truthy (pts s) = false →
       (get_pts srv need_ts s tr).2
       = match cls s with
         | UserLongPoll _ =>
             ApiCall "messages.getLongPollServer"
               [("need_pts", PInt 1); ("timeout", timeout s)]
         | BotsLongPoll group_id =>
             ApiCall "groups.getLongPollServer" [("group_id", group_id)]
         end :: tr).
Proof.
  change (match cls s with
          | UserLongPoll _ =>
              ApiCall "messages.getLongPollServer"
                [("need_pts", PInt 1); ("timeout", timeout s)]
          | BotsLongPoll group_id =>
              ApiCall "groups.getLongPollServer" [("group_id", group_id)]
          end) with (handoff_request s true).
  unfold get_pts. repeat split.
  - destruct (no_base_url s || negb (truthy (pts s))).
    + pose proof (handoff_trace srv true s tr) as Htr.
      destruct (_get_long_poll_server srv true s tr) as [[[[]|e] s1] tr1];
        cbn [snd] in *; subst tr1; apply polls_handoff_request.
    + reflexivity.
  - intros -> ->. reflexivity.
  - intros Hcase.
    assert (no_base_url s || negb (truthy (pts s)) = true) as ->.
    { destruct Hcase as [-> | ->]; [done | apply orb_true_r]. }
    pose proof (handoff_trace srv true s tr) as Htr.
    by destruct (_get_long_poll_server srv true s tr) as [[[[]|e] s1] tr1].
Qed.

Definition group_session : t :=
  {| cls := BotsLongPoll (PInt 77); timeout := PInt 10; version := 1; wait_seconds := 25;
     mode := PNone; pts := PNone; ts := PNone; key := PNone; base_url := None |}.

Lemma get_pts_does_not_poll_witness :
  get_pts handing_off true session_7 []
  = (Ok (PList [PInt 5; PInt 40]),
     {| cls := UserLongPoll true; timeout := PInt 10; version := 3; wait_seconds := 25;
        mode := PInt 2; pts := PInt 5; ts := PInt 40; key := PStr "k2";
        base_url := Some "https://lp.example/im2" |},
     [ApiCall "messages.getLongPollServer" [("need_pts", PInt 1); ("timeout", PInt 10)]])
  ∧ polls (get_pts handing_off true session_7 []).2 = 0%nat
  ∧ (get_pts handing_off true group_session []).2
    = [ApiCall "groups.getLongPollServer" [("group_id", PInt 77)]].
Proof.
  split; [reflexivity|]. split.
  - exact (proj1 (get_pts_does_not_poll handing_off true session_7 [])).
  - apply (proj2 (proj2 (get_pts_does_not_poll handing_off true group_session []))).
    by left.
Defined.

End session_more.

(** ** The array decoder, event by event *)

(** The class [_parse_peer_id] gives to a peer id. *)
Definition class_of (p : Z) : string :=
  if p <? 0 then "from_group"
  else if p >? CHAT_START_ID then "from_chat"
  else "from_user".

Lemma parse_peer_id_chat_plain (self : obj) (p : Z) :
  self !! "peer_id" = Some (PInt p) → p > CHAT_START_ID →
  self !! "extra_values" = Some PNone →
  MessageEvent._parse_peer_id self
  = Ok (setattr "chat_id" (PInt (p - CHAT_START_ID)) (setattr "from_chat" (PBool true) self)).
Proof.
  intros Hp Hbig Hex. unfold MessageEvent._parse_peer_id, getattr. rewrite Hp.
  cbn [mbind result_bind py_lt py_gt py_sub int_view].
  rewrite (proj2 (Z.ltb_ge p 0)) by (unfold CHAT_START_ID in Hbig; lia).
  cbn [mbind result_bind]. rewrite (proj2 (Z.gtb_gt p _)) by done.
  cbn [mbind result_bind]. rewrite !lookup_setattr_ne, Hex by done. reflexivity.
Qed.

Lemma parse_peer_id_plain (self : obj) (p : Z) :
  self !! "peer_id" = Some (PInt p) →
  self !! "extra_values" = Some PNone →
  unclassified self →
  ∃ self', MessageEvent._parse_peer_id self = Ok self' ∧
           peer_classes self' = [class_of p] ∧
           ∀ a, a ∉ classification_attrs → self' !! a = self !! a.
Proof.
  intros Hp Hex (Hg & Hc & Hu). unfold class_of.
  destruct (Z.ltb_spec p 0) as [Hneg|Hnonneg].
  { eexists. split; [by apply parse_peer_id_group|]. split; [classes|].
    intros a Ha. rewrite !lookup_setattr_ne; [done| |]; intros <-; apply Ha; compute_done. }
  destruct (Z.gtb_spec p CHAT_START_ID) as [Hbig|Hsmall].
  - eexists. split; [apply parse_peer_id_chat_plain; [done|lia|done]|]. split; [classes|].
    intros a Ha. rewrite !lookup_setattr_ne; [done| |]; intros <-; apply Ha; compute_done.
  - eexists. split; [apply parse_peer_id_user; [done|lia]|]. split; [classes|].
    intros a Ha. rewrite !lookup_setattr_ne; [done| |]; intros <-; apply Ha; compute_done.
Qed.

(** The events that carry a peer id and one more field that is stored as
    it is: reading and deleting messages, and setting or resetting peer
    flags. *)
Definition plain_peer_events : list Z :=
  [ VkEventType.READ_ALL_INCOMING_MESSAGES; VkEventType.READ_ALL_OUTGOING_MESSAGES;
    VkEventType.PEER_FLAGS_RESET; VkEventType.PEER_FLAGS_SET;
    VkEventType.PEER_DELETE_ALL; VkEventType.PEER_RESTORE_ALL ].

Lemma decode_plain_peer (self : obj) (code p : Z) :
  code ∈ plain_peer_events →
  self !! "type" = Some (PEnum EVkEventType code) →
  self !! "peer_id" = Some (PInt p) →
  self !! "extra_values" = Some PNone →
  self !! "timestamp" = Some PNone →
  self !! "_parse_peer_id" = None →
  unclassified self →
  ∃ self', decode_fields self = Ok self' ∧
           peer_classes self' = [class_of p] ∧
           ∀ a, a ∉ classification_attrs → self' !! a = self !! a.
Proof.
  intros Hcode Htype Hp Hex Hts Hmethod Hun.
  destruct (parse_peer_id_plain self p Hp Hex Hun) as (self' & Hparse & Hcls & Hkeep).
  exists self'. split; [|done].
  unfold decode_fields, getattr. rewrite Hex.
  cbn [mbind result_bind truthy]. rewrite Htype. cbn [mbind result_bind].
  assert (in_ints (PEnum EVkEventType code) PARSE_PEER_ID_EVENTS = true) as ->.
  { unfold plain_peer_events in Hcode.
    repeat (apply elem_of_cons in Hcode as [->|Hcode]; [reflexivity|]).
    by apply elem_of_nil in Hcode. }
  rewrite (call_None self) by done. rewrite Hparse. cbn [mbind result_bind].
  rewrite (Hkeep "type"), Htype by compute_done. cbn [mbind result_bind].
  unfold plain_peer_events in Hcode.
  repeat (apply elem_of_cons in Hcode as [->|Hcode];
          [eval_test; cbn [mbind result_bind];
           rewrite (Hkeep "type"), Htype by compute_done;
           cbn [mbind result_bind]; repeat eval_test; cbn [mbind result_bind];
           rewrite (Hkeep "timestamp"), Hts by compute_done; reflexivity|]).
  by apply elem_of_nil in Hcode.
Qed.

(** End to end, for the six kinds of update that carry a peer id and one
    plain field: the array [[code, p, x]] with an integer [p] is decoded
    without an exception, the event has exactly the class of [p], and
    [type], [peer_id] and [raw] are as received. *)
Theorem plain_peer_event_decoded (code p : Z) (x : pyval) :
  code ∈ plain_peer_events →
  ∃ e, MessageEvent.init [PInt code; PInt p; x] = Ok e ∧
       peer_classes e = [class_of p] ∧
       e !! "type" = Some (PEnum EVkEventType code) ∧
       e !! "peer_id" = Some (PInt p) ∧
       e !! "raw" = Some (PList [PInt code; PInt p; x]).
Proof.
  intros Hcode.
  assert (∃ name, attrs_of code = Some ["peer_id"; name] ∧ (name ∉ classification_attrs)
                  ∧ name ≠ "type" ∧ name ≠ "peer_id" ∧ name ≠ "raw"
                  ∧ name ≠ "extra_values" ∧ name ≠ "timestamp"
                  ∧ name ≠ "from_group" ∧ name ≠ "from_chat" ∧ name ≠ "from_user"
                  ∧ name ≠ "_parse_peer_id")
    as (name & Hattrs & Hname & Hn).
  { pose proof Hcode as Hc. unfold plain_peer_events in Hc.
    repeat (apply elem_of_cons in Hc as [->|Hc];
            [eexists; split; [reflexivity|]; split; [compute_done|]; (by repeat split)|]).
    by apply elem_of_nil in Hc. }
  destruct Hn as (? & ? & ? & ? & ? & ? & ? & ? & ?).
  rewrite (init_known code _ ["peer_id"; name]);
    [| unfold plain_peer_events in Hcode;
       repeat (apply elem_of_cons in Hcode as [->|Hcode]; [compute_done|]);
       by apply elem_of_nil in Hcode
     | done].
  cbn [MessageEvent._list_to_attr set_all zip zip_with fold_left fst snd].
  match goal with
  | |- context [decode_fields ?s] =>
      destruct (decode_plain_peer s code p Hcode) as (e & He & Hcls & Hkeep);
        [attrs | attrs | attrs | attrs | attrs | repeat split; attrs |]
  end.
  exists e. split; [done|]. split; [done|].
  rewrite !Hkeep by compute_done. repeat split; attrs.
Qed.

Lemma plain_peer_event_decoded_witness :
  ∃ e, MessageEvent.init [PInt 13; PInt (-40); PInt 9] = Ok e ∧
       peer_classes e = ["from_group"] ∧
       e !! "type" = Some (PEnum EVkEventType 13) ∧
       e !! "peer_id" = Some (PInt (-40)) ∧
       e !! "raw" = Some (PList [PInt 13; PInt (-40); PInt 9]).
Proof.
  apply (plain_peer_event_decoded 13 (-40) (PInt 9)). compute_done.
Defined.

(** A known type code does not make decoding safe.  For each of the kinds
    that carry a peer id, an array that has the type code and no field
    leaves [peer_id] null, and the comparison with 0 raises [TypeError]. *)
Theorem missing_peer_id_raises (code : Z) :
  code ∈ PARSE_PEER_ID_EVENTS →
  MessageEvent.init [PInt code] = Raise TypeError.
Proof.
  intros Hcode.
  assert (code ∈ [1; 2; 3; 4; 5; 6; 7; 10; 11; 12; 13; 14; 52; 64]) as Hc by done.
  repeat (apply elem_of_cons in Hc as [->|Hc]; [reflexivity|]).
  by apply elem_of_nil in Hc.
Qed.

Lemma missing_peer_id_raises_witness :
  MessageEvent.init [PInt 4] = Raise TypeError.
Proof. apply (missing_peer_id_raises 4). compute_done. Defined.

(** An empty array has no type code: [raw[0]] raises [IndexError], which
    the constructor does not catch. *)
Example empty_update_raises : MessageEvent.init [] = Raise IndexError.
Proof. reflexivity. Qed.

(** ** Positional assignment *)

(** [_list_to_attr] stops at the shorter of the two lists: fields beyond
    the names are ignored, and names beyond the fields are not assigned. *)
Theorem list_to_attr_truncates (raw extra : list pyval) (attrs : list string) (self : obj) :
  ((length attrs ≤ length raw)%nat →
     MessageEvent._list_to_attr (raw ++ extra) attrs self
     = MessageEvent._list_to_attr raw attrs self)
  ∧ (∀ a, a ∉ take (length raw) attrs →
          MessageEvent._list_to_attr raw attrs self !! a = self !! a).
Proof.
  unfold MessageEvent._list_to_attr. split.
  - intros Hlen. by rewrite zip_longer.
  - intros a Ha. apply set_all_other. by rewrite zip_fst_take.
Qed.

Lemma list_to_attr_truncates_witness :
  MessageEvent._list_to_attr [PInt 5; PInt 1; PStr "more"] ["peer_id"; "local_id"] ∅
  = MessageEvent._list_to_attr [PInt 5; PInt 1] ["peer_id"; "local_id"] ∅
  ∧ MessageEvent._list_to_attr [PInt 5] ["peer_id"; "local_id"] ∅ !! "local_id"
    = (∅ : obj) !! "local_id".
Proof.
  split.
  - apply (proj1 (list_to_attr_truncates [PInt 5; PInt 1] [PStr "more"]
                    ["peer_id"; "local_id"] ∅)). simpl. lia.
  - apply (proj2 (list_to_attr_truncates [PInt 5] [] ["peer_id"; "local_id"] ∅)).
    compute_done.
Defined.

(** ** Chat updates *)

(** How the sub-type of a chat update re-reads its [info]. *)
Definition chat_info (type_id : Z) (info : pyval) : pyval :=
  if type_id =? VkChatEventType.ADMIN_ADDED then PDict [("admin_id", info)]
  else if type_id =? VkChatEventType.MESSAGE_PINNED
  then PDict [("conversation_message_id", info)]
  else if existsb (Z.eqb type_id)
            [ VkChatEventType.USER_JOINED; VkChatEventType.USER_LEFT;
              VkChatEventType.USER_KICKED; VkChatEventType.ADMIN_REMOVED ]
  then PDict [("user_id", info)]
  else info.

Lemma parse_chat_info_spec (self : obj) (type_id : Z) (info : pyval) :
  self !! "type_id" = Some (PInt type_id) →
  self !! "info" = Some info →
  ∃ self', MessageEvent._parse_chat_info self = Ok self' ∧
           self' !! "info" = Some (chat_info type_id info) ∧
           ∀ a, a ≠ "info" → self' !! a = self !! a.
Proof.
  intros Htid Hinfo. unfold MessageEvent._parse_chat_info, chat_info, getattr.
  rewrite Htid. cbn [mbind result_bind eq_int in_ints int_view].
  unfold MessageEvent.wrap_info, getattr. rewrite Hinfo. cbn [mbind result_bind].
  destruct (type_id =? VkChatEventType.ADMIN_ADDED).
  { eexists. split; [done|]. split; [apply lookup_setattr_eq|].
    intros a Ha. by apply lookup_setattr_ne. }
  destruct (type_id =? VkChatEventType.MESSAGE_PINNED).
  { eexists. split; [done|]. split; [apply lookup_setattr_eq|].
    intros a Ha. by apply lookup_setattr_ne. }
  destruct (existsb _ _).
  { eexists. split; [done|]. split; [apply lookup_setattr_eq|].
    intros a Ha. by apply lookup_setattr_ne. }
  by exists self.
Qed.

(** A chat update [[52, type_id, p, info]] with integers [type_id] and [p]
    is always decoded: [info] is wrapped by the sub-type (admin added,
    message pinned, user joined, left, kicked, admin removed) or left as it
    is, [update_type] is the sub-type as a member of the enumeration or,
    for an unknown one, the number itself, and the peer is classified. *)
Theorem chat_update_decoded (type_id p : Z) (info : pyval) :
  ∃ e, MessageEvent.init [PInt 52; PInt type_id; PInt p; info] = Ok e ∧
       e !! "info" = Some (chat_info type_id info) ∧
       e !! "update_type"
         = Some (if existsb (Z.eqb type_id) VkChatEventType.members
                 then PEnum EVkChatEventType type_id else PInt type_id) ∧
       e !! "type_id" = Some (PInt type_id) ∧
       peer_classes e = [class_of p].
Proof.
  rewrite (init_known 52 _ ["type_id"; "peer_id"; "info"]) by (compute_done || reflexivity).
  unfold decode_fields.
  cbn [MessageEvent._list_to_attr set_all zip zip_with fold_left fst snd].
  run.
  match goal with
  | |- context [MessageEvent._parse_peer_id ?s] =>
      destruct (parse_peer_id_plain s p) as (s1 & -> & Hcls & Hkeep);
        [attrs | attrs | repeat split; attrs |]
  end.
  assert (getattr s1 "type" = Ok (PEnum EVkEventType 52)) as Htype
    by (unfold getattr; rewrite (Hkeep "type") by compute_done; attrs).
  cbn [mbind result_bind]. rewrite Htype. run. rewrite Htype. run.
  rewrite (call_None s1) by (rewrite Hkeep by compute_done; attrs).
  destruct (parse_chat_info_spec s1 type_id info) as (s2 & -> & Hinfo & Hkeep2).
  { rewrite (Hkeep "type_id") by compute_done. attrs. }
  { rewrite (Hkeep "info") by compute_done. attrs. }
  assert (getattr s2 "type_id" = Ok (PInt type_id)) as Htid2.
  { unfold getattr. rewrite (Hkeep2 "type_id"), (Hkeep "type_id") by (done || compute_done).
    attrs. }
  cbn [mbind result_bind]. rewrite Htid2.
  cbn [mbind result_bind enum_call int_view].
  assert (∀ ut, getattr (setattr "update_type" ut s2) "timestamp" = Ok PNone) as Hts.
  { intros ut. rewrite getattr_setattr_ne by done. unfold getattr.
    rewrite (Hkeep2 "timestamp"), (Hkeep "timestamp") by (done || compute_done).
    by rewrite !lookup_setattr_ne by done. }
  assert (∀ ut, peer_classes (setattr "update_type" ut s2) = [class_of p]) as Hcls2.
  { intros ut. rewrite <- Hcls. unfold peer_classes, flag_set.
    rewrite !filter_cons, filter_nil.
    by rewrite !lookup_setattr_ne, !Hkeep2 by done. }
  assert (∀ ut, setattr "update_type" ut s2 !! "type_id" = Some (PInt type_id)) as Htid.
  { intros ut. rewrite lookup_setattr_ne, (Hkeep2 "type_id"), (Hkeep "type_id")
      by (done || compute_done). attrs. }
  destruct (existsb (Z.eqb type_id) VkChatEventType.members);
    cbn [except_ValueError mbind result_bind]; rewrite Hts; cbn [truthy];
    (eexists; split; [reflexivity|]);
    (split; [by rewrite lookup_setattr_ne by done|]);
    (split; [apply lookup_setattr_eq|]); done.
Qed.

(** ** Online status *)

(** A friend coming online, [[8, user_id, extra, timestamp]] with integers
    and a timestamp [datetime] can hold: decoding raises nothing, [user_id]
    becomes its absolute value, [platform] is set from the low byte of
    [extra] when that is a known platform and is not set otherwise, and
    [datetime] is set unless the timestamp is 0. *)
Theorem user_online_decoded (user_id extra timestamp : Z) :
  -62135596800 ≤ timestamp ≤ 253402300799 →
  ∃ e, MessageEvent.init [PInt 8; PInt user_id; PInt extra; PInt timestamp] = Ok e ∧
       e !! "user_id" = Some (PInt (Z.abs user_id)) ∧
       e !! "platform"
         = (if existsb (Z.eqb (Z.land extra 255)) VkPlatform.members
            then Some (PEnum EVkPlatform (Z.land extra 255)) else None) ∧
       e !! "datetime" = (if timestamp =? 0 then None else Some (PDatetime timestamp)) ∧
       peer_classes e = [].
Proof.
  intros Hrange.
  rewrite (init_known 8 _ ["user_id"; "extra"; "timestamp"]) by (compute_done || reflexivity).
  unfold decode_fields.
  cbn [MessageEvent._list_to_attr set_all zip zip_with fold_left fst snd].
  run. cbn [py_abs int_view]. run.
  unfold MessageEvent._parse_online_status. run. cbn [py_and int_view]. run.
  assert (utcfromtimestamp (PInt timestamp) = Ok (PDatetime timestamp)) as Hdt.
  { unfold utcfromtimestamp. cbn [int_view].
    by rewrite (proj2 (Z.leb_le _ _) (proj1 Hrange)), (proj2 (Z.leb_le _ _) (proj2 Hrange)). }
  unfold enum_call. cbn [int_view].
  destruct (existsb (Z.eqb (Z.land extra 255)) VkPlatform.members); run;
    destruct (timestamp =? 0); cbn [negb]; rewrite ?Hdt; run;
    (eexists; split; [reflexivity|]); repeat split; attrs.
Qed.

Lemma user_online_decoded_witness :
  ∃ e, MessageEvent.init [PInt 8; PInt (-77); PInt 260; PInt 1700000000] = Ok e ∧
       e !! "user_id" = Some (PInt 77) ∧
       e !! "platform" = Some (PEnum EVkPlatform 4) ∧
       e !! "datetime" = Some (PDatetime 1700000000) ∧
       peer_classes e = [].
Proof. apply (user_online_decoded (-77) 260 1700000000). lia. Defined.

(** ** Peer flags *)

(** Replacing the flags of a dialogue, [[11, p, f]] with integers: the
    peer is classified and [peer_flags] is the set of the members of
    [VkPeerFlag] whose bit is set in [f]: important for bit 0, unanswered
    for bit 1. *)
Theorem peer_flags_decoded (p f : Z) :
  ∃ e, MessageEvent.init [PInt 11; PInt p; PInt f] = Ok e ∧
       peer_classes e = [class_of p] ∧
       e !! "peer_flags"
         = Some (PSet (VkPeerFlag.member <$> MessageEvent.peer_flags_of f)) ∧
       (VkPeerFlag.IMPORTANT ∈ MessageEvent.peer_flags_of f ↔ Z.testbit f 0 = true) ∧
       (VkPeerFlag.UNANSWERED ∈ MessageEvent.peer_flags_of f ↔ Z.testbit f 1 = true).
Proof.
  rewrite (init_known 11 _ ["peer_id"; "flags"]) by (compute_done || reflexivity).
  unfold decode_fields.
  cbn [MessageEvent._list_to_attr set_all zip zip_with fold_left fst snd].
  run.
  match goal with
  | |- context [MessageEvent._parse_peer_id ?s] =>
      destruct (parse_peer_id_plain s p) as (s1 & -> & Hcls & Hkeep);
        [attrs | attrs | repeat split; attrs |]
  end.
  assert (getattr s1 "type" = Ok (PEnum EVkEventType 11)) as Htype
    by (unfold getattr; rewrite (Hkeep "type") by compute_done; attrs).
  assert (getattr s1 "flags" = Ok (PInt f)) as Hflags
    by (unfold getattr; rewrite (Hkeep "flags") by compute_done; attrs).
  assert (s1 !! "timestamp" = Some PNone) as Hts
    by (rewrite (Hkeep "timestamp") by compute_done; attrs).
  cbn [mbind result_bind]. rewrite Htype. run. rewrite Htype. run.
  rewrite (call_None s1) by (rewrite Hkeep by compute_done; attrs).
  unfold MessageEvent._parse_peer_flags. rewrite Hflags. cbn [mbind result_bind int_view].
  rewrite getattr_setattr_ne by done. unfold getattr. rewrite Hts. cbn [truthy].
  eexists. split; [reflexivity|]. split; [|split; [apply lookup_setattr_eq|]].
  - rewrite <- Hcls. unfold peer_classes, flag_set. rewrite !filter_cons, filter_nil.
    by rewrite !lookup_setattr_ne by done.
  - unfold MessageEvent.peer_flags_of. rewrite !list_elem_of_filter.
    change (VkPeerFlag.value VkPeerFlag.IMPORTANT) with (2 ^ 0).
    change (VkPeerFlag.value VkPeerFlag.UNANSWERED) with (2 ^ 1).
    rewrite !land_pow2_testbit by done.
    split; (split; [by intros [? _] | intros ?; split; [done|repeat constructor]]).
Qed.

(** ** Message text *)

Lemma starts_with_head (c : ascii) (old s : string) :
  has_char c s = false → starts_with (String c old) s = false.
Proof.
  destruct s as [|b s]; [done|]. unfold has_char. cbn [list_ascii_of_string existsb starts_with].
  intros [Hcb _]%orb_false_elim. by rewrite Hcb.
Qed.

Lemma has_char_tail (c b : ascii) (s : string) :
  has_char c (String b s) = false → has_char c s = false.
Proof. unfold has_char. cbn [list_ascii_of_string existsb]. by intros [_ ?]%orb_false_elim. Qed.

(** Replacing a text that starts with a character the string does not
    have changes nothing. *)
Lemma str_replace_absent (c : ascii) (old new s : string) :
  has_char c s = false → str_replace (String c old) new s = s.
Proof.
  unfold str_replace. induction s as [|b s IH]; intros Hs; [done|].
  cbn [replace_go]. rewrite (starts_with_head c old (String b s) Hs).
  f_equal. apply IH. by eapply has_char_tail.
Qed.

(** A message text without [<] and [&] has neither line-break markup nor
    entities: [_parse_message] keeps it as it is, in [text] and in
    [message], and changes nothing else of an edited message. *)
Theorem plain_text_unchanged (self : obj) (t : string) :
  self !! "type" = Some (PEnum EVkEventType VkEventType.MESSAGE_EDIT) →
  self !! "text" = Some (PStr t) →
  has_char "<"%char t = false →
  has_char "&"%char t = false →
  MessageEvent._parse_message self
  = Ok (setattr "message" (PStr t) (setattr "text" (PStr t) self)).
Proof.
  intros Htype Htext Hlt Hamp.
  unfold MessageEvent._parse_message, getattr. rewrite Htype.
  cbn [mbind result_bind]. change (is_member _ _ VkEventType.MESSAGE_NEW) with false.
  cbv iota. cbn [mbind result_bind]. rewrite Htext.
  cbn [mbind result_bind MessageEvent.py_replace]. unfold MessageEvent.unescape.
  rewrite (str_replace_absent "<"%char "br>" newline t Hlt).
  rewrite (str_replace_absent "&"%char "lt;" "<" t Hamp).
  rewrite (str_replace_absent "&"%char "gt;" ">" t Hamp).
  rewrite (str_replace_absent "&"%char "quot;" _ t Hamp).
  by rewrite (str_replace_absent "&"%char "amp;" "&" t Hamp).
Qed.

Lemma plain_text_unchanged_witness :
  MessageEvent._parse_message
    (set_all [("type", PEnum EVkEventType 5); ("text", PStr "see you at 5 > 4")]
       (MessageEvent.fresh (PList [])))
  = Ok (setattr "message" (PStr "see you at 5 > 4")
          (setattr "text" (PStr "see you at 5 > 4")
             (set_all [("type", PEnum EVkEventType 5); ("text", PStr "see you at 5 > 4")]
                (MessageEvent.fresh (PList []))))).
Proof.
  apply (plain_text_unchanged
           (set_all [("type", PEnum EVkEventType 5); ("text", PStr "see you at 5 > 4")]
              (MessageEvent.fresh (PList []))) "see you at 5 > 4"); reflexivity.
Defined.

(** The example of the specification: entities and line breaks. *)
Example text_normalized :
  MessageEvent.unescape
    (str_replace "<br>" newline
       ("a&lt;b&gt;c&quot;d&amp;e<br>f"))
  = "a<b>c" +:+ String dquote "d&e" +:+ newline +:+ "f".
Proof. reflexivity. Qed.

(** Entities are replaced one kind after the other, [&amp;] last, so an
    escaped ampersand in front of an entity name is unescaped once. *)
Example escaped_entity_kept : MessageEvent.unescape "&amp;lt;" = "&lt;".
Proof. reflexivity. Qed.

(** ** The webhook decoder *)

(** The classes the webhook decoder gives to a peer id. *)
Definition webhook_class_of (p : Z) : list string :=
  if p >=? 2000000000 then ["from_chat"]
  else if p >? 0 then ["from_user"]
  else if p <? 0 then ["from_group"]
  else [].

(** The webhook decoder sets at most one classification flag: chat from
    2000000000 on, user for the other positive ids, group for the negative
    ones, and none for 0; without a peer id it sets none and compares
    nothing. *)
Theorem webhook_peer_classification (self : obj) :
  unclassified self →
  (∀ p, self !! "peer_id" = Some (PInt p) →
        ∃ self', BotMessageEvent.peer_flags self = Ok self' ∧
                 peer_classes self' = webhook_class_of p)
  ∧ (self !! "peer_id" = Some PNone → BotMessageEvent.peer_flags self = Ok self).
Proof.
  intros (Hg & Hc & Hu). split.
  - intros p Hp. unfold BotMessageEvent.peer_flags, webhook_class_of, getattr.
    rewrite Hp. cbn [mbind result_bind is_none negb py_ge py_gt py_lt int_view].
    destruct (p >=? 2000000000); cbn [mbind result_bind];
      [eexists; split; [done|classes]|].
    destruct (p >? 0); cbn [mbind result_bind]; [eexists; split; [done|classes]|].
    destruct (p <? 0); cbn [mbind result_bind]; eexists; (split; [done|classes]).
  - intros Hp. unfold BotMessageEvent.peer_flags, getattr. by rewrite Hp.
Qed.

Lemma webhook_peer_classification_witness :
  ∃ self', BotMessageEvent.peer_flags
             (setattr "peer_id" (PInt 0) (MessageEvent.fresh (PDict []))) = Ok self' ∧
           peer_classes self' = [].
Proof.
  apply (proj1 (webhook_peer_classification
                  (setattr "peer_id" (PInt 0) (MessageEvent.fresh (PDict [])))
                  ltac:(by repeat split)) 0).
  reflexivity.
Defined.


Definition media_id (kind : string) (owner item : Z) : string :=
  kind +:+ pretty owner +:+ "_" +:+ pretty item.






(** ** The attachment resolver: what it keeps and what it drops *)

Section attachments_more.
Import Attachments.

(** A normalized attachment is a photo or a document. *)
Definition normalized (r : pyval) : Prop :=
  ∃ d, r = PDict d ∧
       (dict_get "type" d = Some (PStr "photo") ∨ dict_get "type" d = Some (PStr "doc")).

Lemma doc_ref_normalized (d r : pyval) : doc_ref d = Ok r → normalized r.
Proof.
  unfold doc_ref. intros H. repeat inv_bind H. apply Ok_inj in H as <-.
  eexists. split; [reflexivity|]. by right.
Qed.

Lemma photo_ref_normalized (sz : list pyval) : normalized (photo_ref sz).
Proof. eexists. split; [reflexivity|]. by left. Qed.

Lemma map_one_normalized (a : pyval) (out : list pyval) :
  map_one a = Ok out → (length out ≤ 1)%nat ∧ Forall normalized out.
Proof.
  unfold map_one. intros H. inv_bind H.
  destruct (eq_str a0 "photo").
  - repeat inv_bind H. apply Ok_inj in H as <-.
    destruct a4; (split; [simpl; lia|]); repeat constructor. apply photo_ref_normalized.
  - destruct (eq_str a0 "doc").
    + repeat inv_bind H. apply Ok_inj in H as <-. split; [simpl; lia|].
      repeat constructor. by eapply doc_ref_normalized.
    + apply Ok_inj in H as <-. split; [simpl; lia | constructor].
Qed.

(** [_map] gives at most one normalized attachment per attachment it is
    given, and every one it gives is a photo or a document. *)
Lemma map_normalized (atts : pyval) (out : list pyval) :
  _map atts = Ok out → Forall normalized out.
Proof.
  unfold _map. intros H. inv_bind H. clear Ha. revert out H.
  induction a as [|x atts' IH]; intros out H.
  - apply Ok_inj in H as <-. constructor.
  - cbn [map_all] in H. repeat inv_bind H. apply Ok_inj in H as <-.
    apply Forall_app. split; [by eapply map_one_normalized | by apply IH].
Qed.

(** The secondary lookups make one request and give nothing or one
    normalized attachment, whatever the server answers. *)
Lemma lookup_photo_spec (srv : server) (token : string) (tr : trace) :
  ∃ found, lookup_photo srv token tr
           = (found, ApiCall "photos.getById"
                       [("photos", PStr token); ("photo_sizes", PInt 1)] :: tr)
           ∧ Forall normalized found.
Proof.
  unfold lookup_photo, try_call.
  match goal with |- context [match ?r with Ok l => l | Raise _ => [] end] =>
    destruct r as [l|e] eqn:Hr end.
  - exists l. split; [done|].
    inv_bind Hr. destruct (truthy a); [|apply Ok_inj in Hr as <-; constructor].
    repeat inv_bind Hr. apply Ok_inj in Hr as <-.
    match goal with |- Forall _ (match ?x with [] => _ | _ => _ end) => destruct x end;
      repeat constructor.
    apply photo_ref_normalized.
  - exists []. split; [done|constructor].
Qed.

Lemma lookup_doc_spec (srv : server) (token : string) (tr : trace) :
  ∃ found, lookup_doc srv token tr
           = (found, ApiCall "docs.getById" [("docs", PStr token)] :: tr)
           ∧ Forall normalized found.
Proof.
  unfold lookup_doc, try_call.
  match goal with |- context [match ?r with Ok l => l | Raise _ => [] end] =>
    destruct r as [l|e] eqn:Hr end.
  - exists l. split; [done|].
    inv_bind Hr. destruct (truthy a); [|apply Ok_inj in Hr as <-; constructor].
    repeat inv_bind Hr. apply Ok_inj in Hr as <-.
    repeat constructor. by eapply doc_ref_normalized.
  - exists []. split; [done|constructor].
Qed.




(** On any value, what the inline tier returns extends what was collected
    before by normalized attachments. *)
Lemma inline_tier_found (rounds : nat) (srv : server) (ex : pyval) (i : nat)
    (norm out : list pyval) (tr tr' : trace) :
  inline_tier rounds srv ex i norm tr = (Ok out, tr') →
  ∃ found, out = (norm ++ found)%list ∧ Forall normalized found.
Proof.
  revert i norm tr. induction rounds as [|rounds IH]; intros i norm tr H.
  - cbn [inline_tier] in H. exists []. rewrite app_nil_r. split; [|constructor].
    repeat case_match; by simplify_eq.
  - cbn [inline_tier] in H.
    destruct (contains_key ex (attach_key i) ≫= _) as [[|]|]; [|exists []..|done];
      [|rewrite app_nil_r; split; [by simplify_eq|constructor]].
    destruct (py_getitem ex (attach_key i)) as [token|]; [|done].
    destruct (py_getitem ex (attach_type_key i)) as [tp|]; [|done].
    destruct (split_once "_" (py_str token)) as [[oid iid]|]; [|by eapply IH].
    destruct (eq_str tp "photo").
    { destruct (lookup_photo_spec srv (oid +:+ "_" +:+ iid) tr) as (f1 & Hl & Hf1).
      rewrite Hl in H. apply IH in H as (f2 & -> & Hf2).
      exists (f1 ++ f2)%list. rewrite app_assoc. split; [done|by apply Forall_app]. }
    destruct (eq_str tp "doc").
    { destruct (lookup_doc_spec srv (oid +:+ "_" +:+ iid) tr) as (f1 & Hl & Hf1).
      rewrite Hl in H. apply IH in H as (f2 & -> & Hf2).
      exists (f1 ++ f2)%list. rewrite app_assoc. split; [done|by apply Forall_app]. }
    apply IH in H as (f2 & -> & Hf2). exists f2. by rewrite app_nil_r.
Qed.

(** Whatever the server answers and whatever the event holds, every
    attachment that [normalized_attachments] returns is a photo or a document
    in the normalized form. *)
Theorem resolved_attachments_normalized (srv : server) (bulk : obj → result request)
    (self : obj) (tr tr' : trace) (out : list pyval) :
  normalized_attachments srv bulk self tr = (Ok out, tr') →
  Forall normalized out.
Proof.
  unfold normalized_attachments.
  destruct (_from_messages_getById srv bulk self tr) as [atts tr1].
  destruct (atts ≫= _map) as [[|a got]|e] eqn:Hmap; [| |done].
  - destruct (getattr self "extra_values") as [ev|]; [|done].
    intros H. apply inline_tier_found in H as (found & -> & Hfound). done.
  - intros [= <- <-]. inv_bind Hmap. by eapply map_normalized.
Qed.


Definition mixed_attachments : list pyval :=
  [ PDict [("type", PStr "sticker"); ("sticker", PDict [("id", PInt 3)])];
    PDict [("type", PStr "doc"); ("doc", PDict [("title", PStr "a.pdf")])];
    PDict [("type", PStr "photo");
           ("photo", PDict [("sizes", PList [PDict [("type", PStr "m");
                                                     ("url", PStr "https://x/y.jpg")]])])] ].

Definition mixed_server : server :=
  {| api := λ _, Ok (PDict [("items", PList [PDict [("attachments",
                                                       PList mixed_attachments)]])]);
     get_text := λ _, Raise (RemoteError "unused") |}.

Lemma resolved_attachments_normalized_witness :
  ∃ out tr', normalized_attachments mixed_server bulk_request_array plain_message []
             = (Ok out, tr')
             ∧ length out = 2%nat ∧ Forall normalized out.
Proof.
  eexists _, _. split; [reflexivity|]. split; [reflexivity|].
  exact (resolved_attachments_normalized mixed_server bulk_request_array plain_message
           [] _ _ eq_refl).
Defined.




(** A server whose message lookups fail and whose photo lookup finds one
    size with a URL. *)
Definition photo_only_server : server :=
  {| api := λ tr,
       match tr with
       | ApiCall "photos.getById" _ :: _ =>
           Ok (PList [PDict [("sizes", PList [PDict [("type", PStr "x");
                                                      ("url", PStr "https://x/1.jpg")]])]])
       | _ => Raise (RemoteError "unavailable")
       end;
     get_text := λ _, Raise (RemoteError "unused") |}.



(** A message lookup that answers with a truthy value that is not a
    dictionary is not caught: [normalized_attachments] raises the attribute
    error of [.get], makes no further request and never reaches the inline
    tier. *)
Theorem malformed_bulk_answer_raises (srv : server) (bulk : obj → result request)
    (self : obj) (tr : trace) (rq : request) (r : pyval) :
  bulk self = Ok rq →
  api srv (rq :: tr) = Ok r →
  truthy r = true → is_dict r = false →
  normalized_attachments srv bulk self tr = (Raise (AttributeError "get"), rq :: tr).
Proof.
  intros Hrq Hr Htruthy Hdict.
  unfold normalized_attachments, _from_messages_getById. rewrite Hrq.
  cbn [try_call]. rewrite Hr. unfold first_attachments, py_or. rewrite Htruthy.
  by destruct r.
Qed.

Definition list_server : server :=
  {| api := λ _, Ok (PList [PDict [("attachments", PList mixed_attachments)]]);
     get_text := λ _, Raise (RemoteError "unused") |}.

Lemma malformed_bulk_answer_raises_witness :
  normalized_attachments list_server bulk_request_array plain_message []
  = (Raise (AttributeError "get"),
     [ApiCall "messages.getById" [("message_ids", PInt 31); ("group_id", PNone)]]).
Proof.
  exact (malformed_bulk_answer_raises list_server bulk_request_array plain_message []
           _ _ eq_refl eq_refl eq_refl eq_refl).
Defined.

(** *** The loop of the inline tier ends *)

Lemma dict_has_keys (k : string) (d : pydict) : dict_has k d = true → k ∈ d.*1.
Proof.
  unfold dict_has. induction d as [|[k' v] d IH]; [done|].
  cbn [dict_get]. destruct (String.eqb k' k) eqn:Hk.
  - apply String.eqb_eq in Hk as ->. intros _. by left.
  - intros H. right. by apply IH.
Qed.

Lemma attach_key_inj (i j : nat) : attach_key i = attach_key j → i = j.
Proof. unfold attach_key. intros H. simplify_eq/=. by apply (inj pretty). Qed.

(** A dictionary with [n] keys lacks one of [attach1] .. [attach(n+1)]. *)
Lemma some_token_missing (d : pydict) :
  ∃ j, (1 ≤ j ≤ S (length d))%nat ∧ dict_has (attach_key j) d = false.
Proof.
  destruct (decide (Forall (λ j, dict_has (attach_key j) d = true)
                      (seq 1 (S (length d))))) as [Hall|Hsome].
  - exfalso.
    assert (attach_key <$> seq 1 (S (length d)) ⊆+ d.*1) as Hsub.
    { apply NoDup_submseteq.
      - apply NoDup_fmap_2; [intros i j; apply attach_key_inj | apply NoDup_seq].
      - intros k (j & -> & Hj)%list_elem_of_fmap. apply dict_has_keys.
        by eapply Forall_forall in Hall. }
    apply submseteq_length in Hsub.
    rewrite !length_fmap, length_seq in Hsub. lia.
  - apply not_Forall_Exists in Hsome; [|apply _].
    apply Exists_exists in Hsome as (j & Hj & Hfalse).
    apply elem_of_seq in Hj. exists j. split; [lia|].
    apply not_true_is_false. exact Hfalse.
Qed.

Lemma inline_tier_enough (srv : server) (d : pydict) (rounds more i : nat)
    (norm : list pyval) (tr : trace) :
  (∃ j, (i ≤ j ≤ i + rounds)%nat ∧ dict_has (attach_key j) d = false) →
  inline_tier (rounds + more) srv (PDict d) i norm tr
  = inline_tier rounds srv (PDict d) i norm tr.
Proof.
  revert i norm tr. induction rounds as [|rounds IH]; intros i norm tr (j & Hj & Hmiss).
  - assert (j = i) as -> by lia.
    destruct more; cbn [Nat.add inline_tier contains_key mbind result_bind];
      by rewrite Hmiss.
  - cbn [Nat.add inline_tier contains_key mbind result_bind].
    destruct (dict_has (attach_key i) d) eqn:Hi; [|done].
    assert (∃ j, (S i ≤ j ≤ S i + rounds)%nat ∧ dict_has (attach_key j) d = false)
      as Hnext.
    { exists j. split; [|done]. destruct (decide (j = i)) as [->|]; [congruence|lia]. }
    destruct (dict_has (attach_type_key i) d); [|done].
    destruct (py_getitem (PDict d) (attach_key i)) as [token|]; [|done].
    destruct (py_getitem (PDict d) (attach_type_key i)) as [tp|]; [|done].
    destruct (split_once "_" (py_str token)) as [[oid iid]|]; [|by apply IH].
    destruct (if eq_str tp "photo" then _ else _) as [found tr1]. by apply IH.
Qed.

(** On a dictionary of [n] extra values the loop of the inline tier ends by
    its own condition within [n] rounds: running it with any larger bound
    gives the same result and the same requests. *)
Theorem inline_tier_ends (srv : server) (d : pydict) (rounds : nat)
    (norm : list pyval) (tr : trace) :
  (length d ≤ rounds)%nat →
  inline_tier rounds srv (PDict d) 1 norm tr
  = inline_tier (max_rounds (PDict d)) srv (PDict d) 1 norm tr.
Proof.
  intros Hle. cbn [max_rounds].
  replace rounds with (length d + (rounds - length d))%nat by lia.
  apply inline_tier_enough. destruct (some_token_missing d) as (j & Hj & Hmiss).
  exists j. split; [lia|done].
Qed.

Lemma inline_tier_ends_witness :
  inline_tier 40 photo_only_server
    (PDict [("attach1_type", PStr "photo"); ("attach1", PStr "5_77")]) 1 [] []
  = inline_tier 2 photo_only_server
      (PDict [("attach1_type", PStr "photo"); ("attach1", PStr "5_77")]) 1 [] [].
Proof.
  apply (inline_tier_ends photo_only_server
           [("attach1_type", PStr "photo"); ("attach1", PStr "5_77")] 40 [] []).
  simpl. lia.
Defined.

End attachments_more.

(** ** Serialization and replies *)

Section methods.
Import EventMethods.

Lemma read_fields_raw (raw : pydict) (self : obj) :
  BotMessageEvent.read_fields raw = Ok self → self !! "raw" = Some (PDict raw).
Proof.
  unfold BotMessageEvent.read_fields. intros H.
  repeat inv_bind H. apply Ok_inj in H as <-.
  match goal with
  | Hif : (if truthy ?t then _ else _) = Ok _ |- _ =>
      destruct (truthy t); [inv_bind Hif|]; apply Ok_inj in Hif as <-
  end; attrs.
Qed.

(** [create_reply] builds the reply with the array decoder, whatever the
    class of the event.  A callback event keeps the callback object, a
    dictionary, as its [raw], so replying to any event of the webhook
    decoder raises [KeyError] before a field of the reply is set. *)
Theorem reply_to_callback_raises (raw : pydict) (self : obj)
    (reply_text attachments fwd_messages keyboard payload state attachments_ids
       pad_id : pyval) :
  BotMessageEvent.init raw = Ok self →
  create_reply self reply_text attachments fwd_messages keyboard payload state
    attachments_ids pad_id = Raise (KeyError "0").
Proof.
  unfold BotMessageEvent.init. intros H. do 3 inv_bind H.
  assert (self !! "raw" = Some (PDict raw)) as Hraw.
  { rewrite (collect_ids_keeps _ _ "raw" ltac:(done) H).
    rewrite (direction_keeps _ _ "raw" ltac:(done) ltac:(done) Ha1).
    rewrite (peer_flags_keeps _ _ "raw" ltac:(compute_done) Ha0).
    by apply read_fields_raw. }
  unfold create_reply, getattr. rewrite Hraw. reflexivity.
Qed.

Definition callback : pydict :=
  [ ("type", PStr "message_new"); ("group_id", PInt 77);
    ("object", PDict [("message", PDict [("id", PInt 5); ("peer_id", PInt 12);
                                         ("from_id", PInt 12);
                                         ("text", PStr "hello")])]) ].

Lemma reply_to_callback_raises_witness :
  ∃ self, BotMessageEvent.init callback = Ok self ∧
          create_reply self (PStr "hi") PNone PNone PNone PNone (PStr "") PNone PNone
          = Raise (KeyError "0").
Proof.
  eexists. split; [reflexivity|].
  apply (reply_to_callback_raises callback); reflexivity.
Defined.

(** *** Round trips *)

Lemma init_unrecognized (c : pyval) (rest : list pyval) :
  ¬ recognized c →
  MessageEvent.init (c :: rest)
  = Ok (setattr "type" c (MessageEvent.fresh (PList (c :: rest)))).
Proof.
  intros Hc. unfold MessageEvent.init. cbn [mbind result_bind].
  rewrite (enum_call_unrecognized c Hc). cbn [except_ValueError mbind result_bind].
  set (self := setattr "type" c (MessageEvent.fresh (PList (c :: rest)))).
  assert (getattr self "extra_values" = Ok PNone) as -> by reflexivity.
  assert (getattr self "type" = Ok c) as Htype by reflexivity.
  cbn [truthy mbind result_bind]. rewrite Htype. cbn [mbind result_bind].
  rewrite (in_ints_members c) by (done || compute_done).
  cbn [mbind result_bind]. rewrite Htype. cbn [mbind result_bind].
  rewrite (in_ints_members c) by (done || compute_done).
  cbn [mbind result_bind]. rewrite Htype. cbn [mbind result_bind].
  rewrite !(is_member_unrecognized c) by (done || compute_done).
  rewrite !(in_ints_members c) by (done || compute_done).
  reflexivity.
Qed.

(** Reading the serialized dictionary. *)
Ltac eval_data :=
  repeat match goal with
  | |- context [dict_display ?l] =>
      let d := eval vm_compute in (dict_display l) in
      change (dict_display l) with d
  | |- context [py_get (PDict ?d) ?k] =>
      let v := eval vm_compute in (py_get (PDict d) k) in
      change (py_get (PDict d) k) with v
  | |- context [py_get_default (PDict ?d) ?k ?x] =>
      let v := eval vm_compute in (py_get_default (PDict d) k x) in
      change (py_get_default (PDict d) k x) with v
  | |- context [contains_key (PDict ?d) ?k] =>
      let v := eval vm_compute in (contains_key (PDict d) k) in
      change (contains_key (PDict d) k) with v
  end.

(** An event whose type code the decoder did not know is decoded and
    serialized without an exception, but it cannot be restored:
    [from_serializable] calls the enumeration on the stored type and raises
    [ValueError]. *)
Theorem unknown_type_not_restorable (fromisoformat : pyval → result pyval)
    (c : pyval) (rest : list pyval) :
  ¬ recognized c →
  ∃ event data,
    MessageEvent.init (c :: rest) = Ok event
    ∧ to_serializable event = Ok data
    ∧ from_serializable fromisoformat construct data = Raise ValueError.
Proof.
  intros Hc. eexists _, _. split; [by apply init_unrecognized|].
  split; [reflexivity|].
  unfold from_serializable. eval_data. cbn [mbind result_bind construct].
  rewrite (init_unrecognized c rest Hc). cbn [mbind result_bind].
  rewrite getattr_setattr_ne by done.
  rewrite getattr_setattr_ne by done.
  rewrite getattr_setattr_ne by done.
  rewrite getattr_setattr_eq. cbn [mbind result_bind].
  by rewrite (enum_call_unrecognized c Hc).
Qed.

Lemma unknown_type_not_restorable_witness :
  ∃ event data,
    MessageEvent.init [PInt 999; PStr "x"] = Ok event
    ∧ to_serializable event = Ok data
    ∧ from_serializable (λ _, Raise ValueError) construct data = Raise ValueError.
Proof.
  apply (unknown_type_not_restorable (λ _, Raise ValueError) (PInt 999) [PStr "x"]).
  intros (z & [= <-] & Hz). revert Hz. compute_done.
Defined.






(** *** Replies *)

(** The attributes a reply is built from; extra values that come from the
    server name others ([title], [from], [emoji], ...). *)
Definition reply_inputs : list string :=
  [ "from_group"; "from_chat"; "from_user"; "group_id"; "peer_id"; "type"; "raw";
    "type_id"; "message_id"; "flags"; "timestamp"; "extra_values"; "create_reply" ].

Lemma parse_peer_id_present (self self' : obj) (a : string) :
  MessageEvent._parse_peer_id self = Ok self' →
  is_Some (self !! a) → is_Some (self' !! a).
Proof.
  unfold MessageEvent._parse_peer_id. intros H Ha.
  apply bind_Ok in H as (peer_id & _ & H). apply bind_Ok in H as (neg & _ & H).
  destruct neg.
  { apply bind_Ok in H as (g & _ & H). apply Ok_inj in H as <-.
    unfold setattr. rewrite !lookup_insert_is_Some'. auto. }
  apply bind_Ok in H as (big & _ & H). destruct big.
  - apply bind_Ok in H as (c & _ & H). apply bind_Ok in H as (ev & _ & H).
    apply bind_Ok in H as (has & _ & H). destruct has.
    + apply bind_Ok in H as (from & _ & H). apply bind_Ok in H as (u & _ & H).
      apply Ok_inj in H as <-. unfold setattr. rewrite !lookup_insert_is_Some'. auto.
    + apply Ok_inj in H as <-. unfold setattr. rewrite !lookup_insert_is_Some'. auto.
  - apply Ok_inj in H as <-. unfold setattr. rewrite !lookup_insert_is_Some'. auto.
Qed.

(** What the decoder leaves of a new message [[4, id, flags, p, ts, text,
    extra_values, ...]]. *)
Lemma message_decoded (mid ts text ev : pyval) (f p : Z) (more : list pyval) (e : obj) :
  plain_extra reply_inputs ev →
  MessageEvent.init (PInt 4 :: mid :: PInt f :: PInt p :: ts :: text :: ev :: more) = Ok e →
  classified e p ∧ is_Some (e !! "group_id")
  ∧ e !! "create_reply" = None
  ∧ e !! "raw" = Some (PList (PInt 4 :: mid :: PInt f :: PInt p :: ts :: text :: ev :: more))
  ∧ e !! "type_id" = Some PNone ∧ e !! "message_id" = Some mid
  ∧ e !! "flags" = Some (PInt f) ∧ e !! "peer_id" = Some (PInt p)
  ∧ e !! "timestamp" = Some ts ∧ e !! "extra_values" = Some ev.
Proof.
  intros Hplain Hinit.
  destruct (peer_event_stages reply_inputs 4
              (mid :: PInt f :: PInt p :: ts :: text :: ev :: more)
              ["message_id"; "flags"; "peer_id"; "timestamp"; "text"; "extra_values";
               "attachments"; "random_id"] e)
    as (s0 & s1 & s2 & s3 & s4 & Hs0 & Hs1 & Hparse & Hs3 & Ht3 & H4 & He);
    [compute_done|reflexivity|exact Hplain|compute_done|exact Hinit|].
  destruct (type_stage_keeps 4 s3 s4 Ht3 ltac:(compute_done) H4) as [Hs4 Hu4].
  pose proof (λ a Ha, parse_peer_id_keeps s1 s2 a Hparse Ha) as Hs2.
  assert (∀ a, a ∉ type_stage_attrs → a ≠ "datetime" → a ≠ "message_flags" →
               e !! a = s2 !! a) as Hlate.
  { intros a H1 H2 H3. by rewrite He, Hs4, Hs3. }
  split; [|split].
  - apply (classified_kept s2).
    + apply (parse_peer_id_classified s1); [|unfold unclassified|done].
      * by rewrite Hs1, Hs0 by compute_done.
      * rewrite !Hs1, !Hs0, !not_positional by compute_done. by repeat split.
    + intros a Ha. apply Hlate;
        repeat (apply elem_of_cons in Ha as [->|Ha]; [compute_done|]);
        by apply elem_of_nil in Ha.
    + intros z Hz. rewrite He by done. apply Hu4. by rewrite Hs3.
  - rewrite Hlate by compute_done. apply (parse_peer_id_present s1 s2); [done|].
    by rewrite Hs1, Hs0, not_positional by compute_done.
  - rewrite !Hlate, !Hs2, !Hs1, !Hs0, !not_positional by compute_done.
    by repeat split.
Qed.

(** Replying to a decoded new message [[4, id, flags, p, ts, text,
    extra_values, ...]] whose extra values do not shadow the attributes a
    reply is built from.  The call [e.create_reply(...)] raises nothing and
    the reply goes back to the peer the message came from, whatever its
    class: [peer_id] is [p].  The reply is marked as sent by the account,
    carries the reply text, and its [raw] is rebuilt from the reply's
    fields, starting with the null [type_id] and not with the type code. *)
Theorem reply_addresses_sender (mid ts text ev : pyval) (f p : Z) (more : list pyval)
    (e : obj)
    (reply_text attachments fwd_messages keyboard payload state attachments_ids
       pad_id : pyval) :
  plain_extra reply_inputs ev →
  MessageEvent.init (PInt 4 :: mid :: PInt f :: PInt p :: ts :: text :: ev :: more) = Ok e →
  ∃ r, call e "create_reply"
         (create_reply e reply_text attachments fwd_messages keyboard payload state
            attachments_ids pad_id) = Ok r
       ∧ r !! "peer_id" = Some (PInt p)
       ∧ r !! "from_me" = Some (PBool true) ∧ r !! "to_me" = Some (PBool false)
       ∧ r !! "text" = Some reply_text ∧ r !! "message" = Some reply_text
       ∧ r !! "group_id" = e !! "group_id"
       ∧ r !! "state" = Some state
       ∧ r !! "raw" = Some (PList [PNone; mid; PInt f; PInt p; ts; reply_text; ev]).
Proof.
  intros Hplain Hinit.
  destruct (message_decoded mid ts text ev f p more e Hplain Hinit)
    as (Hcls & [g Hg] & Hcall & Hraw & Htid & Hmid & Hf & Hp & Hts & Hev).
  assert (∃ from_user,
             e !! "from_user" = Some from_user
             ∧ (if truthy from_user then
                  user_id ← getattr e "user_id";
                  Ok (setattr "peer_id" user_id e)
                else
                  from_chat ← getattr e "from_chat";
                  if truthy from_chat then
                    chat_id ← getattr e "chat_id";
                    peer_id ← py_add chat_id CHAT_START_ID;
                    Ok (setattr "peer_id" peer_id e)
                  else
                    from_group ← getattr e "from_group";
                    if truthy from_group then
                      group_id ← getattr e "group_id";
                      peer_id ← py_neg group_id;
                      Ok (setattr "peer_id" peer_id e)
                    else Ok e) = Ok (setattr "peer_id" (PInt p) e))
    as (from_user & Hfrom & Htarget).
  { unfold classified in Hcls. unfold getattr.
    destruct (Z.ltb_spec p 0) as [Hneg|Hnonneg].
    { destruct Hcls as (-> & -> & Hu & ->). eexists. split; [exact Hu|].
      cbn [mbind result_bind truthy py_neg int_view].
      by rewrite Z.abs_neq, Z.opp_involutive by lia. }
    destruct (Z.gtb_spec p CHAT_START_ID) as [Hbig|Hsmall].
    - destruct Hcls as (_ & -> & Hu & ->). eexists. split; [exact Hu|].
      cbn [mbind result_bind truthy py_add int_view]. by rewrite Z.sub_add.
    - destruct Hcls as (_ & _ & Hu & ->). eexists. split; [exact Hu|]. reflexivity. }
  eexists. split.
  - rewrite call_None by done. unfold create_reply.
    apply bind_Ok. eexists. split; [by apply getattr_Ok|].
    apply bind_Ok. eexists. split; [reflexivity|].
    apply bind_Ok. exists e. split; [exact Hinit|].
    apply bind_Ok. exists from_user. split; [by apply getattr_Ok|].
    apply bind_Ok. eexists. split; [exact Htarget|].
    cbv zeta.
    apply bind_Ok. exists g. split; [by apply getattr_Ok|].
    repeat first
      [ progress cbn [mbind result_bind]
      | rewrite getattr_setattr_eq
      | rewrite getattr_setattr_ne by done ].
    rewrite (proj2 (getattr_Ok e "type_id" _) Htid),
            (proj2 (getattr_Ok e "message_id" _) Hmid),
            (proj2 (getattr_Ok e "flags" _) Hf),
            (proj2 (getattr_Ok e "timestamp" _) Hts),
            (proj2 (getattr_Ok e "extra_values" _) Hev).
    reflexivity.
  - rewrite Hg. repeat split; attrs.
Qed.

Lemma reply_addresses_sender_witness :
  ∃ e r,
    MessageEvent.init [PInt 4; PInt 9; PInt 2; PInt 2000000007; PInt 1700000000;
                       PStr "hi"; PDict [("from", PStr "55")]] = Ok e
    ∧ call e "create_reply"
        (create_reply e (PStr "hello") PNone PNone PNone PNone (PStr "") PNone PNone)
      = Ok r
    ∧ r !! "peer_id" = Some (PInt 2000000007).
Proof.
  eexists.
  assert (plain_extra reply_inputs (PDict [("from", PStr "55")])) as Hplain.
  { right. eexists. split; [reflexivity|]. intros k Hk.
    apply list_elem_of_singleton in Hk as ->. split; [done|compute_done]. }
  destruct (reply_addresses_sender (PInt 9) (PInt 1700000000) (PStr "hi")
              (PDict [("from", PStr "55")]) 2 2000000007 [] _
              (PStr "hello") PNone PNone PNone PNone (PStr "") PNone PNone
              Hplain eq_refl) as (r & Hr & Hpeer & _).
  exists r. split; [reflexivity|]. split; [exact Hr|exact Hpeer].
Defined.

(** *** The attachment test *)




End methods.
